(** * HDF5DataLayer (src/caffe/layers/hdf5_data_layer.cpp)

    A shallow embedding of the CPU side of Caffe's HDF5 data layer:
    [LoadHDF5FileData], [LayerSetUp] and [Forward_cpu], with the file
    system, the HDF5 library, the C random generator and the
    [DataTransformer] taken as explicit inputs.

    Conventions.
    - Every C++ integer ([int], [unsigned int], [hsize_t]) is a [Z].  The
      values the layer computes are row indices, axis lengths and element
      offsets of blobs that exist in memory, so no wrap-around is involved.
    - [LOG(FATAL)], a failing [CHECK], the exception of [vector::at] and
      undefined behaviour (an unchecked access out of range) all end the
      computation with a [fault]; the constructor records which one.
    - The file is read as compiled with USE_HDF5 and USE_OPENCV. *)

From Stdlib Require Import ZArith Lia Permutation Ascii String.
From stdpp Require Import base numbers option list gmap strings.

Local Open Scope Z_scope.

(** ** Faults and the result monad *)

Inductive fault : Type :=
| FailedOpenSource                (* LOG(FATAL) << "Failed to open source file: " *)
| NoFilenames                     (* CHECK_GE(num_files_, 1) *)
| FailedOpenHDF5 (path : string)  (* LOG(FATAL) << "Failed opening HDF5 file: " *)
| DatasetLoad (name : string)     (* a CHECK inside hdf5_load_nd_dataset *)
| FailedClose (path : string)     (* CHECK_GE(status, 0) *)
| NoAxis                          (* CHECK_GE(hdf_blobs_[0]->num_axes(), 1) *)
| RowMismatch                     (* CHECK_EQ(hdf_blobs_[i]->shape(0), num) *)
| BlobCheck                       (* a CHECK inside Blob *)
| OutOfRange                      (* std::out_of_range thrown by vector::at *)
| Undefined.                      (* undefined behaviour *)

Inductive result (A : Type) : Type :=
| Ok (a : A)
| Fatal (e : fault).
Arguments Ok {A} a.
Arguments Fatal {A} e.

Definition bind {A B : Type} (m : result A) (k : A -> result B) : result B :=
  match m with
  | Ok a => k a
  | Fatal e => Fatal e
  end.

Notation "'do' x <- m ; k" := (bind m (fun x => k))
  (at level 10, x name, m at level 100, k at level 200).
Notation "'do' ' p <- m ; k" := (bind m (fun 'p => k))
  (at level 10, p pattern, m at level 100, k at level 200).

Definition is_ok {A : Type} (m : result A) : Prop := exists a, m = Ok a.
Definition is_fatal {A : Type} (m : result A) : Prop := exists e, m = Fatal e.

Definition check (b : bool) (e : fault) : result unit :=
  if b then Ok tt else Fatal e.

(** [foldM body ixs s] runs [body i] for each [i] of [ixs], in order,
    threading the state; the first fault ends the loop. *)
Fixpoint foldM {S I : Type} (body : I -> S -> result S) (ixs : list I) (s : S)
  : result S :=
  match ixs with
  | [] => Ok s
  | i :: ixs' => do s' <- body i s; foldM body ixs' s'
  end.

(** [for (int i = 0; i < n; ++i) body] *)
Definition for_range {S : Type} (n : Z) (body : Z -> S -> result S) (s : S)
  : result S :=
  foldM body (seqZ 0 n) s.

(** [mapM f l]: run [f] on each element, collecting the results. *)
Fixpoint mapM {A B : Type} (f : A -> result B) (l : list A) : result (list B) :=
  match l with
  | [] => Ok []
  | a :: l' => do b <- f a; do bs <- mapM f l'; Ok (b :: bs)
  end.

(** ** Vectors and raw buffers *)

(** [v[i]] of a [std::vector], an unchecked access. *)
Definition zget {A : Type} (l : list A) (i : Z) : option A :=
  if decide (0 <= i) then l !! Z.to_nat i else None.

Definition vec_get {A : Type} (l : list A) (i : Z) : result A :=
  match zget l i with
  | Some a => Ok a
  | None => Fatal Undefined
  end.

(** [v.at(i)], the checked access. *)
Definition vec_at {A : Type} (l : list A) (i : Z) : result A :=
  match zget l i with
  | Some a => Ok a
  | None => Fatal OutOfRange
  end.

(** [v[i] = x] *)
Definition vec_set {A : Type} (l : list A) (i : Z) (x : A) : result (list A) :=
  if decide (0 <= i < Z.of_nat (length l))
  then Ok (<[Z.to_nat i := x]> l)
  else Fatal Undefined.

(** The run of [n] elements starting at element [off] of a buffer. *)
Definition run_read {A : Type} (buf : list A) (off n : Z) : result (list A) :=
  if decide (0 <= off /\ 0 <= n /\ off + n <= Z.of_nat (length buf))
  then Ok (take (Z.to_nat n) (drop (Z.to_nat off) buf))
  else Fatal Undefined.

(** Overwrite the run starting at element [off] with [vs]. *)
Definition run_write {A : Type} (buf : list A) (off : Z) (vs : list A)
  : result (list A) :=
  if decide (0 <= off /\ off + Z.of_nat (length vs) <= Z.of_nat (length buf))
  then Ok (take (Z.to_nat off) buf ++ vs
           ++ drop (Z.to_nat off + length vs)%nat buf)
  else Fatal Undefined.

(** [v.resize(n)]: keep the first [n] elements, pad with [x]. *)
Definition vec_resize {A : Type} (n : Z) (x : A) (l : list A) : list A :=
  resize (Z.to_nat n) x l.

(** The loops [for (i = 0; i < n; i++) v[i] = i] of the source, on a vector
    that was cleared and resized to [n]. *)
Definition identity_permutation (n : Z) : result (list Z) :=
  for_range n (fun i v => vec_set v i i) (vec_resize n 0 []).

(** ** The manifest reader: [while (source_file >> line)] *)

(** [std::isspace] in the "C" locale. *)
Definition isspace (c : ascii) : bool :=
  let n := nat_of_ascii c in
  ((n =? 32) || ((9 <=? n) && (n <=? 13)))%nat.

(** One [source_file >> line]: skip leading white space, then take
    characters up to the next white space or the end of the stream.  [None]
    when no character could be extracted (the stream then fails). *)
Fixpoint skip_ws (s : list ascii) : list ascii :=
  match s with
  | c :: s' => if isspace c then skip_ws s' else s
  | [] => []
  end.

Fixpoint take_word (s : list ascii) : list ascii * list ascii :=
  match s with
  | c :: s' =>
      if isspace c then ([], s)
      else let '(w, r) := take_word s' in (c :: w, r)
  | [] => ([], [])
  end.

Definition extract (s : list ascii) : option (list ascii * list ascii) :=
  match take_word (skip_ws s) with
  | ([], _) => None
  | (w, r) => Some (w, r)
  end.

(** The loop itself; the fuel is the length of the stream, which every
    successful extraction shortens. *)
Fixpoint read_words (fuel : nat) (s : list ascii) : list (list ascii) :=
  match fuel with
  | O => []
  | S fuel' =>
      match extract s with
      | Some (w, r) => w :: read_words fuel' r
      | None => []
      end
  end.

Definition read_filenames (content : string) : list string :=
  let s := list_ascii_of_string content in
  string_of_list_ascii <$> read_words (S (length s)) s.

(** ** Images *)

(** [cv::Mat] of type CV_8UC3: [mat_rows] by [mat_cols] pixels of three bytes,
    stored row by row, the three channels of a pixel next to each other. *)
Record Mat : Type := mkMat {
  mat_rows : Z;
  mat_cols : Z;
  mat_data : list Byte.byte;
}.

(** [cv::Mat cv_img(height, width, CV_8UC3)]; the fresh bytes are taken as
    zero. *)
Definition new_Mat (height width : Z) : Mat :=
  mkMat height width (replicate (Z.to_nat (height * width * 3)) Byte.x00).

Definition pixel_index (m : Mat) (h w c : Z) : Z :=
  (h * mat_cols m + w) * 3 + c.

(** [m.at<cv::Vec3b>(cv::Point(w, h))[c]]: column [w] of row [h]. *)
Definition mat_at (m : Mat) (h w c : Z) : option Byte.byte :=
  if decide (0 <= h < mat_rows m /\ 0 <= w < mat_cols m /\ 0 <= c < 3)
  then zget (mat_data m) (pixel_index m h w c)
  else None.

(** [m.at<cv::Vec3b>(cv::Point(w, h))[c] = v] *)
Definition mat_set (m : Mat) (h w c : Z) (v : Byte.byte) : result Mat :=
  if decide (0 <= h < mat_rows m /\ 0 <= w < mat_cols m /\ 0 <= c < 3)
  then do d <- vec_set (mat_data m) (pixel_index m h w c) v;
       Ok (mkMat (mat_rows m) (mat_cols m) d)
  else Fatal Undefined.

(** ** The layer *)

(** What the layer takes from outside: the element type [Dtype] of the
    instantiated template with its zero and [static_cast<uint8_t>];
    [std::random_shuffle], which draws from the C library generator (its state
    [RNG] is threaded explicitly) and permutes its argument; the
    [DataTransformer], with its state and the elements that
    [Transform(cv_img, blob)] writes at the data pointer of [blob]. *)
Class Runtime : Type := {
  Dtype : Type;
  zero : Dtype;
  cast_uint8 : Dtype -> Byte.byte;
  RNG : Type;
  random_shuffle : RNG -> list Z -> RNG * list Z;
  random_shuffle_perm : forall g v, Permutation v (random_shuffle g v).2;
  Transformer : Type;
  new_DataTransformer : Transformer;
  Transform : Transformer -> Mat -> Transformer * list Dtype;
}.

Section Layer.

Context {R : Runtime}.

(** *** Blobs *)

(** Modelled from the spec: the framework tensor [Blob] (caffe/blob.hpp is not
    among the sources; section 6.1 of the specification gives its contract:
    reshape, count, shape(axis) and a row-major element buffer, and the design
    notes say that [set_cpu_data] rebinds the data pointer).  A blob is a
    shape, the allocation that holds its elements, and its data pointer,
    kept as an element offset into that allocation. *)
Record Blob : Type := mkBlob {
  blob_shape : list Z;
  blob_mem : list Dtype;
  blob_ptr : Z;
}.

(** Modelled from the spec: [num_axes()], [count()] (the number of elements,
    the product of the shape) and [shape(axis)], which checks the axis. *)
Definition num_axes (b : Blob) : Z := Z.of_nat (length (blob_shape b)).

Definition count (b : Blob) : Z := foldr Z.mul 1 (blob_shape b).

Definition shape (b : Blob) (axis : Z) : result Z :=
  match zget (blob_shape b) axis with
  | Some d => Ok d
  | None => Fatal BlobCheck
  end.

(** Modelled from the spec: [cpu_data()] and [mutable_cpu_data()] return the
    data pointer, [set_cpu_data(p)] rebinds it to [p]. *)
Definition cpu_data (b : Blob) : Z := blob_ptr b.
Definition mutable_cpu_data (b : Blob) : Z := blob_ptr b.

Definition set_cpu_data (b : Blob) (p : Z) : Blob :=
  mkBlob (blob_shape b) (blob_mem b) p.

(** The blob after a write through its data pointer. *)
Definition set_mem (b : Blob) (m : list Dtype) : Blob :=
  mkBlob (blob_shape b) m (blob_ptr b).

(** Modelled from the spec: [Reshape(dims)] gives the blob the shape [dims]
    and a buffer of [count] elements, zero until written. *)
Definition Reshape (b : Blob) (dims : list Z) : Blob :=
  mkBlob dims (replicate (Z.to_nat (foldr Z.mul 1 dims)) zero) 0.

(** [caffe_copy(n, src, dst)], a [memcpy] of [n] elements; [src] and [dst]
    are pointers into the allocations of [from] and [to]. *)
Definition caffe_copy (n : Z) (from : Blob) (src : Z) (to : Blob) (dst : Z)
  : result Blob :=
  do vs <- run_read (blob_mem from) src n;
  do m <- run_write (blob_mem to) dst vs;
  Ok (set_mem to m).

(** [a / b] on [int]. *)
Definition int_div (a b : Z) : result Z :=
  if decide (b = 0) then Fatal Undefined else Ok (Z.quot a b).

(** *** Files *)

(** A dataset of an HDF5 file: its dimensions ([hsize_t], unsigned) and its
    elements in row-major order.  A file: its datasets by name and the status
    [H5Fclose] returns for it. *)
Record Dataset : Type := mkDataset {
  dims : list N;
  values : list Dtype;
}.

Record H5File : Type := mkH5File {
  datasets : gmap string Dataset;
  close_status : Z;
}.

(** The disk: the text files [std::ifstream] can open and the files
    [H5Fopen] can open, by path. *)
Record Disk : Type := mkDisk {
  text_files : gmap string string;
  h5_files : gmap string H5File;
}.

(** Modelled from the spec: [hdf5_load_nd_dataset] (caffe/util/hdf5.cpp is not
    among the sources).  Section 4.2: it reads the named dataset as an
    n-dimensional array whose number of axes lies between [min_dim] and
    [max_dim]; section 7: an absent dataset or one with the wrong number of
    axes is fatal. *)
Definition hdf5_load_nd_dataset (f : H5File) (name : string)
    (min_dim max_dim : Z) : result Blob :=
  match datasets f !! name with
  | None => Fatal (DatasetLoad name)
  | Some d =>
      let ndims := Z.of_nat (length (dims d)) in
      if decide (min_dim <= ndims /\ ndims <= max_dim)
      then Ok (mkBlob (Z.of_N <$> dims d) (values d) 0)
      else Fatal (DatasetLoad name)
  end.

(** *** Configuration and state *)

Record LayerParameter : Type := mkLayerParameter {
  top : list string;
  source : string;
  batch_size : Z;
  shuffle : bool;
  image : bool;
  has_transform_param : bool;
}.

Definition top_size (p : LayerParameter) : Z := Z.of_nat (length (top p)).

Record HDF5DataLayer : Type := mkLayer {
  hdf_filenames_ : list string;
  num_files_ : Z;
  current_file_ : Z;
  current_row_ : Z;
  hdf_blobs_ : list Blob;
  data_permutation_ : list Z;
  file_permutation_ : list Z;
  data_transformer_ : Transformer;
  rng_ : RNG;
}.

Definition INT_MAX : Z := 2147483647.
Definition MIN_DATA_DIM : Z := 1.
Definition MAX_DATA_DIM : Z := INT_MAX.

Variable layer_param_ : LayerParameter.
Variable disk : Disk.

(** [if (shuffle) std::random_shuffle(v.begin(), v.end())] *)
Definition shuffle_if_needed (g : RNG) (v : list Z) : RNG * list Z :=
  if shuffle layer_param_ then random_shuffle g v else (g, v).

(** *** LoadHDF5FileData *)

(** Lines 57-62: the checks on the blobs just read. *)
Definition check_blobs (blobs : list Blob) : result Z :=
  do b0 <- vec_get blobs 0;
  do _ <- check (1 <=? num_axes b0) NoAxis;
  do num <- shape b0 0;
  do _ <- foldM (fun i _ =>
                   do bi <- vec_get blobs i;
                   do d <- shape bi 0;
                   check (d =? num) RowMismatch)
                (seqZ 1 (top_size layer_param_ - 1)) tt;
  Ok num.

Definition read_blobs (f : H5File) : result (list Blob) :=
  mapM (fun name => hdf5_load_nd_dataset f name MIN_DATA_DIM MAX_DATA_DIM)
       (top layer_param_).

Definition LoadHDF5FileData (filename : string) (l : HDF5DataLayer)
  : result HDF5DataLayer :=
  match h5_files disk !! filename with
  | None => Fatal (FailedOpenHDF5 filename)
  | Some f =>
      do blobs <- read_blobs f;
      do _ <- check (0 <=? close_status f) (FailedClose filename);
      do num <- check_blobs blobs;
      do perm <- identity_permutation num;
      let '(g, perm') := shuffle_if_needed (rng_ l) perm in
      Ok (mkLayer (hdf_filenames_ l) (num_files_ l) (current_file_ l)
                  (current_row_ l) blobs perm' (file_permutation_ l)
                  (data_transformer_ l) g)
  end.

(** *** LayerSetUp *)

(** Lines 90-105: the list of file names. *)
Definition read_source : result (list string) :=
  match text_files disk !! source layer_param_ with
  | Some content =>
      let names := read_filenames content in
      do _ <- check (1 <=? Z.of_nat (length names)) NoFilenames;
      Ok names
  | None => Fatal FailedOpenSource
  end.

(** Lines 127-134, one round of the loop: [top_shape] is the vector the
    rounds share. *)
Definition reshape_top (l : HDF5DataLayer) (i : Z)
    (acc : list Z * list Blob) : result (list Z * list Blob) :=
  let '(top_shape, tops) := acc in
  do b <- vec_get (hdf_blobs_ l) i;
  let top_shape := vec_resize (num_axes b) 0 top_shape in
  do top_shape <- vec_set top_shape 0 (batch_size layer_param_);
  do top_shape <- foldM (fun j ts => do d <- shape b j; vec_set ts j d)
                        (seqZ 1 (Z.of_nat (length top_shape) - 1)) top_shape;
  do t <- vec_get tops i;
  do tops <- vec_set tops i (Reshape t top_shape);
  Ok (top_shape, tops).

Definition LayerSetUp (g : RNG) (tops : list Blob)
  : result (HDF5DataLayer * list Blob) :=
  do names <- read_source;
  let num_files := Z.of_nat (length names) in
  do file_perm <- identity_permutation num_files;
  let '(g, file_perm) := shuffle_if_needed g file_perm in
  let l := mkLayer names num_files 0 0 [] [] file_perm
                   new_DataTransformer g in
  do fi <- vec_get (file_permutation_ l) (current_file_ l);
  do name <- vec_get (hdf_filenames_ l) fi;
  do l <- LoadHDF5FileData name l;
  let l := mkLayer (hdf_filenames_ l) (num_files_ l) (current_file_ l) 0
                   (hdf_blobs_ l) (data_permutation_ l) (file_permutation_ l)
                   (data_transformer_ l) (rng_ l) in
  do r <- for_range (top_size layer_param_) (reshape_top l) ([], tops);
  Ok (l, r.2).

(** *** Forward_cpu *)

(** Lines 144-161: when the rows of the loaded file are used up, move to the
    next file (if there are several) and start again at row 0. *)
Definition rewind (l : HDF5DataLayer) : result HDF5DataLayer :=
  do b0 <- vec_get (hdf_blobs_ l) 0;
  do rows <- shape b0 0;
  if decide (current_row_ l = rows) then
    do l <- (if decide (1 < num_files_ l) then
               let cf := current_file_ l + 1 in
               let '(cf, (g, fp)) :=
                 if decide (cf = num_files_ l)
                 then (0, shuffle_if_needed (rng_ l) (file_permutation_ l))
                 else (cf, (rng_ l, file_permutation_ l)) in
               do fi <- vec_get fp cf;
               do name <- vec_get (hdf_filenames_ l) fi;
               LoadHDF5FileData name
                 (mkLayer (hdf_filenames_ l) (num_files_ l) cf (current_row_ l)
                          (hdf_blobs_ l) (data_permutation_ l) fp
                          (data_transformer_ l) g)
             else Ok l);
    let '(g, dp) := shuffle_if_needed (rng_ l) (data_permutation_ l) in
    Ok (mkLayer (hdf_filenames_ l) (num_files_ l) (current_file_ l) 0
                (hdf_blobs_ l) dp (file_permutation_ l)
                (data_transformer_ l) g)
  else Ok l.

(** Lines 168-184: the row [row] of [hb] as an image. *)
Definition make_image (hb : Blob) (row data_dim : Z) : result Mat :=
  let bshape := blob_shape hb in
  do height <- vec_get bshape 2;
  do width <- vec_get bshape 3;
  do img_data <- run_read (blob_mem hb) (cpu_data hb + row * data_dim) data_dim;
  for_range 3 (fun c =>
    for_range height (fun h =>
      for_range width (fun w cv_img =>
        do x <- vec_at img_data (c * width * height + h * width + w);
        mat_set cv_img h w c (cast_uint8 x))))
    (new_Mat height width).

(** [int data_dim = top[j]->count() / top[j]->shape(0)] *)
Definition data_dim_of (t : Blob) : result Z :=
  do n <- shape t 0;
  int_div (count t) n.

(** Lines 189-191 and 199-201: copy the selected row into slot [i]. *)
Definition copy_row (l : HDF5DataLayer) (i j : Z) (tops : list Blob)
  : result (list Blob) :=
  do t <- vec_get tops j;
  do data_dim <- data_dim_of t;
  do hb <- vec_get (hdf_blobs_ l) j;
  do row <- vec_get (data_permutation_ l) (current_row_ l);
  do t <- caffe_copy data_dim hb (cpu_data hb + row * data_dim)
                     t (mutable_cpu_data t + i * data_dim);
  vec_set tops j t.

(** Lines 167-187: build the image, move the data pointer of the top blob,
    let the transformer write there. *)
Definition transform_row (l : HDF5DataLayer) (i j : Z)
    (acc : Transformer * list Blob) : result (Transformer * list Blob) :=
  let '(tr, tops) := acc in
  do t <- vec_get tops j;
  do data_dim <- data_dim_of t;
  do hb <- vec_get (hdf_blobs_ l) j;
  do row <- vec_get (data_permutation_ l) (current_row_ l);
  do cv_img <- make_image hb row data_dim;
  let t := set_cpu_data t (mutable_cpu_data t + i * data_dim) in
  let '(tr, out) := Transform tr cv_img in
  do m <- run_write (blob_mem t) (mutable_cpu_data t) out;
  do tops <- vec_set tops j (set_mem t m);
  Ok (tr, tops).

Definition image_path : bool :=
  image layer_param_ && has_transform_param layer_param_.

(** Lines 162-205: fill slot [i] of every top blob. *)
Definition fill_tops (l : HDF5DataLayer) (i : Z)
    (acc : Transformer * list Blob) : result (Transformer * list Blob) :=
  if image_path then
    for_range (top_size layer_param_)
      (fun j acc =>
         if decide (j = 0) then transform_row l i j acc
         else do tops <- copy_row l i j acc.2; Ok (acc.1, tops))
      acc
  else
    for_range (top_size layer_param_)
      (fun j acc => do tops <- copy_row l i j acc.2; Ok (acc.1, tops))
      acc.

(** One round of the loop of line 143, with its [++current_row_]. *)
Definition emit_sample (i : Z) (acc : HDF5DataLayer * list Blob)
  : result (HDF5DataLayer * list Blob) :=
  let '(l, tops) := acc in
  do l <- rewind l;
  do r <- fill_tops l i (data_transformer_ l, tops);
  Ok (mkLayer (hdf_filenames_ l) (num_files_ l) (current_file_ l)
              (current_row_ l + 1) (hdf_blobs_ l) (data_permutation_ l)
              (file_permutation_ l) r.1 (rng_ l),
      r.2).

Definition Forward_cpu (l : HDF5DataLayer) (tops : list Blob)
  : result (HDF5DataLayer * list Blob) :=
  for_range (batch_size layer_param_) emit_sample (l, tops).

(** [n] forward calls in a row, on the same top blobs. *)
Fixpoint Forward_n (n : nat) (l : HDF5DataLayer) (tops : list Blob)
  : result (HDF5DataLayer * list Blob) :=
  match n with
  | O => Ok (l, tops)
  | S n' => do r <- Forward_n n' l tops; Forward_cpu r.1 r.2
  end.

(** Setup, then [n] forward calls. *)
Definition run (g : RNG) (tops : list Blob) (n : nat)
  : result (HDF5DataLayer * list Blob) :=
  do r <- LayerSetUp g tops; Forward_n n r.1 r.2.

(** *** Observations *)

(** Slot [i] of a top blob: the [data_dim] elements at [i * data_dim] after
    the data pointer. *)
Definition slot (t : Blob) (i : Z) : result (list Dtype) :=
  do data_dim <- data_dim_of t;
  run_read (blob_mem t) (blob_ptr t + i * data_dim) data_dim.

(** Row [r] of a dataset or blob whose rows have [data_dim] elements. *)
Definition row_of (buf : list Dtype) (r data_dim : Z) : list Dtype :=
  take (Z.to_nat data_dim) (drop (Z.to_nat (r * data_dim)) buf).

End Layer.

(** ** The words of the specification *)

(** Section 4.1: the manifest is the sequence of the whitespace-separated
    tokens of the text, as they stand and in their order.  [tokens_of s ts]:
    [s] is white space and the words [ts], each word a non-empty run without
    white space that ends at white space or at the end of the text. *)
Inductive tokens_of : list ascii -> list (list ascii) -> Prop :=
| tokens_end : tokens_of [] []
| tokens_space c s ts :
    isspace c = true -> tokens_of s ts -> tokens_of (c :: s) ts
| tokens_word w s ts :
    w <> [] ->
    Forall (fun c => isspace c = false) w ->
    match s with [] => True | c :: _ => isspace c = true end ->
    tokens_of s ts ->
    tokens_of (w ++ s) (w :: ts).

(** ** Concrete runs *)

(** A runtime for running the layer on examples: integer elements, the
    conversion to a byte taken modulo 256, a shuffle that reverses the vector,
    and a transformer that hands back the bytes of the image and counts its
    calls. *)
Definition byte_of_Z (z : Z) : Byte.byte :=
  default Byte.x00 (Byte.of_N (Z.to_N (z mod 256))).

Definition Z_of_byte (b : Byte.byte) : Z := Z.of_N (Byte.to_N b).

Definition example_runtime : Runtime := {|
  Dtype := Z;
  zero := 0;
  cast_uint8 := byte_of_Z;
  RNG := unit;
  random_shuffle := fun g v => (g, reverse v);
  random_shuffle_perm := fun g v => Permutation_sym (reverse_Permutation v);
  Transformer := nat;
  new_DataTransformer := O;
  Transform := fun n m => (S n, Z_of_byte <$> mat_data m);
|}.

Module Examples.

#[local] Existing Instance example_runtime.

Definition fresh_top : Blob := mkBlob [] [] 0.

Definition data_only (b : Z) : LayerParameter :=
  mkLayerParameter ["data"%string] "list.txt"%string b false false false.

(** S1: one file, [data] of shape (5, 2). *)
Definition s1_file : H5File :=
  mkH5File {[ "data"%string := mkDataset [5; 2]%N [0; 0; 1; 1; 2; 2; 3; 3; 4; 4] ]} 0.

Definition s1_disk : Disk :=
  mkDisk {[ "list.txt"%string := "a.h5"%string ]} {[ "a.h5"%string := s1_file ]}.

(** S2: two files, [data] of shapes (3, 1) and (2, 1). *)
Definition s2_file_a : H5File :=
  mkH5File {[ "data"%string := mkDataset [3; 1]%N [10; 11; 12] ]} 0.

Definition s2_file_b : H5File :=
  mkH5File {[ "data"%string := mkDataset [2; 1]%N [20; 21] ]} 0.

Definition s2_disk : Disk :=
  mkDisk {[ "list.txt"%string := "a.h5 b.h5"%string ]}
         {[ "a.h5"%string := s2_file_a; "b.h5"%string := s2_file_b ]}.

(** One file of two rows. *)
Definition two_rows_file : H5File :=
  mkH5File {[ "data"%string := mkDataset [2; 1]%N [7; 8] ]} 0.

Definition two_rows_disk : Disk :=
  mkDisk {[ "list.txt"%string := "a.h5"%string ]}
         {[ "a.h5"%string := two_rows_file ]}.

(** S5: [data] has 4 rows and [label] has 3. *)
Definition data_label (b : Z) : LayerParameter :=
  mkLayerParameter ["data"%string; "label"%string] "list.txt"%string b
                   false false false.

Definition s5_file : H5File :=
  mkH5File {[ "data"%string := mkDataset [4; 1]%N [1; 2; 3; 4];
              "label"%string := mkDataset [3]%N [0; 1; 0] ]} 0.

Definition s5_disk : Disk :=
  mkDisk {[ "list.txt"%string := "a.h5"%string ]} {[ "a.h5"%string := s5_file ]}.

(** S3: [data] of shape (4, 2) and [label] of shape (4). *)
Definition s3_file : H5File :=
  mkH5File {[ "data"%string :=
                mkDataset [4; 2]%N [10; 11; 20; 21; 30; 31; 40; 41];
              "label"%string := mkDataset [4]%N [1; 2; 3; 4] ]} 0.

Definition s3_disk : Disk :=
  mkDisk {[ "list.txt"%string := "a.h5"%string ]} {[ "a.h5"%string := s3_file ]}.

(** A manifest that names a file which is not there, and a file whose close
    reports an error. *)
Definition missing_disk : Disk :=
  mkDisk {[ "list.txt"%string := "missing.h5"%string ]} ∅.

Definition bad_close_file : H5File :=
  mkH5File {[ "data"%string := mkDataset [2; 1]%N [7; 8] ]} (-1).

Definition bad_close_disk : Disk :=
  mkDisk {[ "list.txt"%string := "a.h5"%string ]}
         {[ "a.h5"%string := bad_close_file ]}.

(** The image path: [image] on and a transform parameter present; one file
    of four images of one pixel, stored as (4, 3, 1, 1). *)
Definition image_param (b : Z) : LayerParameter :=
  mkLayerParameter ["data"%string] "list.txt"%string b false true true.

Definition image_file : H5File :=
  mkH5File {[ "data"%string :=
                mkDataset [4; 3; 1; 1]%N
                          [1; 2; 3; 4; 5; 6; 7; 8; 9; 10; 11; 12] ]} 0.

Definition image_disk : Disk :=
  mkDisk {[ "list.txt"%string := "a.h5"%string ]}
         {[ "a.h5"%string := image_file ]}.

(** The data pointer and the elements of output 0. *)
Definition output0 (r : result (HDF5DataLayer * list Blob))
  : result (Z * list Z) :=
  do x <- r; do t <- vec_get x.2 0; Ok (blob_ptr t, blob_mem t).

(** A layer object before [LayerSetUp]. *)
Definition blank_layer : HDF5DataLayer :=
  mkLayer [] 0 0 0 [] [] [] O tt.

(** S1 after setup and after the first forward call, and the file of two rows
    after the first forward call. *)
Definition s1_start : HDF5DataLayer * list Blob :=
  Eval vm_compute in
    match LayerSetUp (data_only 2) s1_disk tt [fresh_top] with
    | Ok r => r
    | Fatal _ => (blank_layer, [])
    end.

Definition s1_after_one : HDF5DataLayer * list Blob :=
  Eval vm_compute in
    match Forward_cpu (data_only 2) s1_disk s1_start.1 s1_start.2 with
    | Ok r => r
    | Fatal _ => (blank_layer, [])
    end.

Definition two_rows_after_one : HDF5DataLayer * list Blob :=
  Eval vm_compute in
    match run (data_only 2) two_rows_disk tt [fresh_top] 1 with
    | Ok r => r
    | Fatal _ => (blank_layer, [])
    end.

(** Shuffling on. *)
Definition shuffled (b : Z) : LayerParameter :=
  mkLayerParameter ["data"%string] "list.txt"%string b true false false.

Definition s2_shuffled_after_two : HDF5DataLayer * list Blob :=
  Eval vm_compute in
    match run (shuffled 2) s2_disk tt [fresh_top] 2 with
    | Ok r => r
    | Fatal _ => (blank_layer, [])
    end.

Definition s1_after_two : HDF5DataLayer * list Blob :=
  Eval vm_compute in
    match run (data_only 2) s1_disk tt [fresh_top] 2 with
    | Ok r => r
    | Fatal _ => (blank_layer, [])
    end.

(** S1 as loaded into a layer that has not been set up. *)
Definition s1_loaded : HDF5DataLayer :=
  Eval vm_compute in
    match LoadHDF5FileData (data_only 2) s1_disk "a.h5" blank_layer with
    | Ok r => r
    | Fatal _ => blank_layer
    end.

(** One file whose dataset has no rows. *)
Definition empty_file : H5File :=
  mkH5File {[ "data"%string := mkDataset [0; 1]%N [] ]} 0.

Definition empty_disk : Disk :=
  mkDisk {[ "list.txt"%string := "a.h5"%string ]}
         {[ "a.h5"%string := empty_file ]}.

Definition empty_start : HDF5DataLayer * list Blob :=
  Eval vm_compute in
    match LayerSetUp (data_only 2) empty_disk tt [fresh_top] with
    | Ok r => r
    | Fatal _ => (blank_layer, [])
    end.

(** The manifest of S2 on a disk that holds the first file only. *)
Definition s2_disk_only_a : Disk :=
  mkDisk {[ "list.txt"%string := "a.h5 b.h5"%string ]}
         {[ "a.h5"%string := s2_file_a ]}.

Definition only_a_after_one : HDF5DataLayer * list Blob :=
  Eval vm_compute in
    match run (data_only 3) s2_disk_only_a tt [fresh_top] 1 with
    | Ok r => r
    | Fatal _ => (blank_layer, [])
    end.

(** The image path after setup, with batch sizes 2 and 4, and after the
    first sample and the first forward call with batch size 2. *)
Definition image_start2 : HDF5DataLayer * list Blob :=
  Eval vm_compute in
    match LayerSetUp (image_param 2) image_disk tt [fresh_top] with
    | Ok r => r
    | Fatal _ => (blank_layer, [])
    end.


Definition image_sample1 : HDF5DataLayer * list Blob :=
  Eval vm_compute in
    match foldM (emit_sample (image_param 2) image_disk) [0; 1] image_start2
    with
    | Ok r => r
    | Fatal _ => (blank_layer, [])
    end.

Definition image_sample0 : HDF5DataLayer * list Blob :=
  Eval vm_compute in
    match emit_sample (image_param 2) image_disk 0 image_start2 with
    | Ok r => r
    | Fatal _ => (blank_layer, [])
    end.

(** The files of S2 behind a manifest with one name per line. *)
Definition lines_disk : Disk :=
  mkDisk {[ "list.txt"%string := "a.h5
b.h5
"%string ]}
         {[ "a.h5"%string := s2_file_a; "b.h5"%string := s2_file_b ]}.

Definition lines_start : HDF5DataLayer * list Blob :=
  Eval vm_compute in
    match LayerSetUp (data_only 2) lines_disk tt [fresh_top] with
    | Ok r => r
    | Fatal _ => (blank_layer, [])
    end.

End Examples.


(** ** Failure, as the specification words it *)

Section Failure.

Context {R : Runtime}.

(** Section 4.2, validation: the first output has no axis, or a later output
    disagrees with it on the outermost dimension. *)
Definition shape_violation (blobs : list Blob) : Prop :=
  (exists b0, blobs !! 0%nat = Some b0 /\ num_axes b0 < 1)
  \/ (exists b0 i bi, blobs !! 0%nat = Some b0 /\ (1 <= i)%nat
                      /\ blobs !! i = Some bi /\ shape bi 0 <> shape b0 0).

(** "Loading a data file fails fatally, and only then, when the outputs read
    from it violate the validation." *)
Definition load_fails_only_on_violation (p : LayerParameter) (d : Disk)
    (filename : string) (l : HDF5DataLayer) : Prop :=
  is_fatal (LoadHDF5FileData p d filename l) <->
  exists f blobs, h5_files d !! filename = Some f
                  /\ read_blobs p f = Ok blobs /\ shape_violation blobs.

(** The manifest cannot be opened, or it has no token. *)
Definition manifest_unusable (p : LayerParameter) (d : Disk) : Prop :=
  text_files d !! source p = None
  \/ exists content, text_files d !! source p = Some content
                     /\ tokens_of (list_ascii_of_string content) [].

(** "Setup fails fatally if and only if the manifest cannot be opened or is
    empty." *)
Definition setup_fails_only_on_manifest (p : LayerParameter) (d : Disk)
    (g : RNG) (tops : list Blob) : Prop :=
  is_fatal (LayerSetUp p d g tops) <-> manifest_unusable p d.

(** The faults of the manifest reader. *)
Definition manifest_fault (e : fault) : Prop :=
  e = FailedOpenSource \/ e = NoFilenames.

(** The number of rows of the loaded file, [hdf_blobs_[0]->shape(0)]. *)
Definition rows_in_current_file (l : HDF5DataLayer) : result Z :=
  do b0 <- vec_get (hdf_blobs_ l) 0; shape b0 0.

End Failure.


(** ** Invariants used in the proofs *)

(** The image under construction: it has [H] rows and [W] columns, and the
    pixels marked by [D] already hold their final value [val]. *)
Definition image_inv (H W : Z) (val : Z -> Z -> Z -> Byte.byte)
    (D : Z -> Z -> Z -> Prop) (m : Mat) : Prop :=
  mat_rows m = H /\ mat_cols m = W
  /\ Z.of_nat (length (mat_data m)) = H * W * 3
  /\ forall c h w, 0 <= c < 3 -> 0 <= h < H -> 0 <= w < W -> D c h w ->
                   mat_at m h w c = Some (val c h w).


(** The three channels of the pixel in row [h], column [w]. *)
Definition pixel (m : Mat) (h w : Z)
  : option Byte.byte * option Byte.byte * option Byte.byte :=
  (mat_at m h w 0, mat_at m h w 1, mat_at m h w 2).


Section Invariants.

Context {R : Runtime}.

(** "The row index of the cursor is strictly below the number of rows of the
    loaded file", after setup and [n] forward calls. *)
Definition row_below_rows (p : LayerParameter) (d : Disk) (g : RNG)
    (tops : list Blob) (n : nat) : Prop :=
  forall l tops',
    run p d g tops n = Ok (l, tops') ->
    exists rows, rows_in_current_file l = Ok rows /\ current_row_ l < rows.

(** Between two rounds of the loop of [Forward_cpu]: the cursor is at most
    the number of rows, which is the length of the row permutation. *)
Definition row_inv (p : LayerParameter) (l : HDF5DataLayer) : Prop :=
  top p <> []
  /\ exists rows,
       rows_in_current_file l = Ok rows
       /\ 0 <= current_row_ l <= rows
       /\ Z.of_nat (length (data_permutation_ l)) = rows.

(** One round of the loop over the outputs (lines 164-193 and 197-202). *)
Definition fill_round (p : LayerParameter) (l : HDF5DataLayer) (i j : Z)
    (acc : Transformer * list Blob) : result (Transformer * list Blob) :=
  if image_path p && bool_decide (j = 0) then transform_row l i j acc
  else do tops <- copy_row l i j acc.2; Ok (acc.1, tops).

End Invariants.


Section Views.

Context {R : Runtime}.

(** Two states of one blob: same shape, same data pointer, an allocation of
    the same length. *)
Definition same_view (t t' : Blob) : Prop :=
  blob_shape t' = blob_shape t
  /\ blob_ptr t' = blob_ptr t
  /\ length (blob_mem t') = length (blob_mem t).

End Views.


(** ** The stream of samples *)

(** [schedule Rs], for files of [Rs] rows: the rows of file 0 in order, then
    the rows of file 1 in order, and so on, each as (file, row). *)
Fixpoint schedule_from (k : Z) (Rs : list Z) : list (Z * Z) :=
  match Rs with
  | [] => []
  | r :: Rs' => ((fun i => (k, i)) <$> seqZ 0 r) ++ schedule_from (k + 1) Rs'
  end.

Definition schedule (Rs : list Z) : list (Z * Z) := schedule_from 0 Rs.

Definition sumZ (l : list Z) : Z := foldr Z.add 0 l.

Section Streams.

Context {R : Runtime}.

Definition prodN (tl : list N) : Z := foldr Z.mul 1 (Z.of_N <$> tl).

(** A dataset of [rows] rows whose rows have the dimensions [tl]. *)
Definition good_dataset (rows : Z) (tl : list N) (d : Dataset) : Prop :=
  dims d = Z.to_N rows :: tl
  /\ Z.of_nat (length (values d)) = rows * prodN tl
  /\ Z.of_nat (length (dims d)) <= INT_MAX.

(** A data file the layer can run on: it closes without error and holds,
    for every declared output, a dataset of [rows] rows (at least one) whose
    rows have the dimensions that [tails] gives for that output. *)
Definition good_file (p : LayerParameter) (tails : list (list N))
    (f : H5File) (rows : Z) : Prop :=
  1 <= rows
  /\ 0 <= close_status f
  /\ Forall2 (fun name tl =>
                exists d, datasets f !! name = Some d /\ good_dataset rows tl d)
             (top p) tails.

(** A disk the layer can run on: the manifest [content] names the [files],
    which have [Rs] rows and agree on the dimensions [tails] of the rows. *)
Record good_disk (p : LayerParameter) (disk : Disk) (content : string)
    (files : list H5File) (Rs : list Z) (tails : list (list N)) : Prop := {
  good_source : text_files disk !! source p = Some content;
  good_names : Forall2 (fun name f => h5_files disk !! name = Some f)
                       (read_filenames content) files;
  good_files : Forall2 (good_file p tails) files Rs;
  good_top : top p <> [];
  good_some : files <> [];
}.

(** The cursor before the sample at position [pos] of the stream is taken:
    file [k] is loaded, and [k] and the row index are [pos] places into the
    schedule, counted modulo its length. *)
Definition cursor_inv (p : LayerParameter) (names : list string)
    (files : list H5File) (Rs : list Z) (pos : Z) (l : HDF5DataLayer) : Prop :=
  hdf_filenames_ l = names
  /\ num_files_ l = Z.of_nat (length names)
  /\ file_permutation_ l = seqZ 0 (Z.of_nat (length names))
  /\ exists (k : nat) f rows,
       current_file_ l = Z.of_nat k
       /\ files !! k = Some f /\ Rs !! k = Some rows
       /\ read_blobs p f = Ok (hdf_blobs_ l)
       /\ data_permutation_ l = seqZ 0 rows
       /\ 0 <= current_row_ l <= rows
       /\ (sumZ (take k Rs) + current_row_ l) mod sumZ Rs = pos mod sumZ Rs.

(** The cursor once the sample at position [pos] is selected. *)
Definition selected_inv (p : LayerParameter) (names : list string)
    (files : list H5File) (Rs : list Z) (pos : Z) (l : HDF5DataLayer) : Prop :=
  hdf_filenames_ l = names
  /\ num_files_ l = Z.of_nat (length names)
  /\ file_permutation_ l = seqZ 0 (Z.of_nat (length names))
  /\ exists (k : nat) f rows,
       current_file_ l = Z.of_nat k
       /\ files !! k = Some f /\ Rs !! k = Some rows
       /\ read_blobs p f = Ok (hdf_blobs_ l)
       /\ data_permutation_ l = seqZ 0 rows
       /\ 0 <= current_row_ l < rows
       /\ sumZ (take k Rs) + current_row_ l = pos mod sumZ Rs.

(** The blobs of a good file, and the outputs as setup shapes them. *)
Definition blob_fits (rows : Z) (b : Blob) (tl : list N) : Prop :=
  blob_shape b = rows :: (Z.of_N <$> tl)
  /\ blob_ptr b = 0
  /\ Z.of_nat (length (blob_mem b)) = rows * prodN tl.

Definition tops_inv (p : LayerParameter) (tails : list (list N))
    (tops : list Blob) : Prop :=
  Forall2 (blob_fits (batch_size p)) tops tails.

End Streams.


Section Outputs.

Context {R : Runtime}.

(** What the consumer sees after a run: the elements of each output. *)
Definition outputs (r : result (HDF5DataLayer * list Blob))
  : result (list (list Dtype)) :=
  do x <- r; Ok (blob_mem <$> x.2).

End Outputs.


(** ** Further invariants of the layer *)

(** A manifest written with one name per line. *)
Definition manifest_chars (names : list string) : list ascii :=
  concat ((fun name => list_ascii_of_string name ++ ["010"%char]) <$> names).

Definition manifest_text (names : list string) : string :=
  string_of_list_ascii (manifest_chars names).

(** A name that [source_file >> line] reads back as it stands: not empty and
    without white space. *)
Definition is_word (name : string) : Prop :=
  name <> ""%string
  /\ Forall (fun c => isspace c = false) (list_ascii_of_string name).

Section LayerInvariants.

Context {R : Runtime}.

(** What holds of the layer after setup and between forward calls, whether
    shuffling is on or off: the file permutation permutes the indices of the
    manifest, the file cursor is one of them, the blobs are those read from
    the file it designates, they agree on the number of rows, and the row
    permutation permutes the row indices. *)
Definition layer_inv (p : LayerParameter) (disk : Disk) (l : HDF5DataLayer)
  : Prop :=
  num_files_ l = Z.of_nat (length (hdf_filenames_ l))
  /\ Permutation (seqZ 0 (num_files_ l)) (file_permutation_ l)
  /\ 0 <= current_file_ l < num_files_ l
  /\ (exists fi name f,
        zget (file_permutation_ l) (current_file_ l) = Some fi
        /\ zget (hdf_filenames_ l) fi = Some name
        /\ h5_files disk !! name = Some f
        /\ read_blobs p f = Ok (hdf_blobs_ l))
  /\ exists rows,
       check_blobs p (hdf_blobs_ l) = Ok rows
       /\ 0 <= rows
       /\ Permutation (seqZ 0 rows) (data_permutation_ l).

(** With shuffling off: the generator is the one given at setup and both
    permutations are the identity. *)
Definition unshuffled_inv (g : RNG) (l : HDF5DataLayer) : Prop :=
  rng_ l = g
  /\ file_permutation_ l = seqZ 0 (num_files_ l)
  /\ exists rows,
       rows_in_current_file l = Ok rows
       /\ data_permutation_ l = seqZ 0 rows.

(** The layer [k] rows further in the loaded file, with transformer [tr]. *)
Definition advance_rows (l : HDF5DataLayer) (k : Z) (tr : Transformer)
  : HDF5DataLayer :=
  mkLayer (hdf_filenames_ l) (num_files_ l) (current_file_ l)
          (current_row_ l + k) (hdf_blobs_ l) (data_permutation_ l)
          (file_permutation_ l) tr (rng_ l).

(** Two states of an output blob with the same shape and as many elements
    allocated; the data pointer may differ. *)
Definition same_buffer (t t' : Blob) : Prop :=
  blob_shape t' = blob_shape t
  /\ length (blob_mem t') = length (blob_mem t).

(** The file that the wrap of [Forward_cpu] opens when the rows of the file
    in memory are used up and there are several files: the cursor moves on
    by one, and at the end of the manifest it goes back to 0 and the file
    permutation is shuffled again. *)
Definition next_file (l : HDF5DataLayer) : Z :=
  if decide (current_file_ l + 1 = num_files_ l) then 0
  else current_file_ l + 1.

Definition next_file_permutation (p : LayerParameter) (l : HDF5DataLayer)
  : list Z :=
  if decide (current_file_ l + 1 = num_files_ l)
  then (shuffle_if_needed p (rng_ l) (file_permutation_ l)).2
  else file_permutation_ l.

End LayerInvariants.


(** * Properties *)

(** ** The result monad and the loops *)

Lemma bind_ok {A B : Type} (m : result A) (k : A -> result B) (b : B) :
  bind m k = Ok b <-> exists a, m = Ok a /\ k a = Ok b.
Proof.
  destruct m as [a|e]; simpl; split.
  - intros H. exists a. auto.
  - intros (a' & Ha & Hk). congruence.
  - discriminate.
  - intros (a' & Ha & _). discriminate.
Qed.

Lemma check_ok (b : bool) (e : fault) (u : unit) :
  check b e = Ok u <-> b = true.
Proof. destruct b, u; simpl; split; congruence. Qed.

Lemma foldM_app {S I : Type} (body : I -> S -> result S) (xs ys : list I) s :
  foldM body (xs ++ ys) s = do s' <- foldM body xs s; foldM body ys s'.
Proof.
  revert s. induction xs as [|x xs IH]; intros s; simpl; [done|].
  destruct (body x s); simpl; auto.
Qed.

Lemma foldM_ext {S I : Type} (f g : I -> S -> result S) (xs : list I) s :
  (forall x s, x ∈ xs -> f x s = g x s) -> foldM f xs s = foldM g xs s.
Proof.
  revert s. induction xs as [|x xs IH]; intros s H; simpl; [done|].
  rewrite H by left. destruct (g x s); simpl; [|done].
  apply IH. intros y s' Hy. apply H. by right.
Qed.

(** A loop invariant for a loop that is known to end: every round keeps
    [P]. *)
Lemma foldM_inv_ok {S I : Type} (P : S -> Prop) (body : I -> S -> result S)
    (xs : list I) s s' :
  (forall x s s', x ∈ xs -> P s -> body x s = Ok s' -> P s') ->
  P s -> foldM body xs s = Ok s' -> P s'.
Proof.
  revert s. induction xs as [|x xs IH]; intros s H Hs; simpl.
  - intros [= <-]. done.
  - intros (s1 & H1 & H2)%bind_ok.
    eapply IH; [|eapply H; [left|done..]|done].
    intros y t t' Hy. apply H. by right.
Qed.

Lemma seqZ_snoc (m : Z) (n : Z) :
  0 <= n -> seqZ m (n + 1) = seqZ m n ++ [m + n].
Proof. intros Hn. rewrite seqZ_app by lia. done. Qed.

(** A loop over [m, m + n) with an invariant that follows the index. *)
Lemma for_seqZ_inv {St : Type} (P : Z -> St -> Prop)
    (body : Z -> St -> result St)
    (m n : Z) s :
  P m s ->
  (forall i s, m <= i < m + n -> P i s ->
               exists s', body i s = Ok s' /\ P (i + 1) s') ->
  exists s', foldM body (seqZ m n) s = Ok s' /\ P (m + Z.max n 0) s'.
Proof.
  destruct (decide (n <= 0)) as [Hn|Hn].
  { intros Hs _. rewrite seqZ_nil by lia. exists s. simpl.
    by replace (m + Z.max n 0) with m by lia. }
  replace n with (Z.of_nat (Z.to_nat n)) by lia.
  generalize (Z.to_nat n). clear n Hn. intros k. revert m s.
  induction k as [|k IH]; intros m s Hs Hstep.
  - exists s. simpl. by replace (m + Z.max _ 0) with m by lia.
  - rewrite seqZ_cons by lia. simpl.
    destruct (Hstep m s) as (s1 & -> & H1); [lia|done|]. simpl.
    replace (Z.pred (Z.of_nat (S k))) with (Z.of_nat k) by lia.
    destruct (IH (Z.succ m) s1) as (s' & Hf & Hs').
    + by replace (Z.succ m) with (m + 1) by lia.
    + intros i t Hi. apply Hstep. lia.
    + exists s'. split; [done|].
      by replace (m + Z.max (Z.of_nat (S k)) 0)
        with (Z.succ m + Z.max (Z.of_nat k) 0) by lia.
Qed.

(** The same for a loop that is known to end. *)
Lemma for_seqZ_inv_ok {St : Type} (P : Z -> St -> Prop)
    (body : Z -> St -> result St) (m n : Z) s s' :
  foldM body (seqZ m n) s = Ok s' ->
  P m s ->
  (forall i s s', m <= i < m + n -> P i s -> body i s = Ok s' -> P (i + 1) s') ->
  P (m + Z.max n 0) s'.
Proof.
  destruct (decide (n <= 0)) as [Hn|Hn].
  { rewrite seqZ_nil by lia. simpl. intros [= <-] Hs _.
    by replace (m + Z.max n 0) with m by lia. }
  replace n with (Z.of_nat (Z.to_nat n)) by lia.
  generalize (Z.to_nat n). clear n Hn. intros k. revert m s.
  induction k as [|k IH]; intros m s Hf Hs Hstep.
  - simpl in Hf. injection Hf as <-.
    by replace (m + Z.max _ 0) with m by lia.
  - rewrite seqZ_cons in Hf by lia. simpl in Hf.
    apply bind_ok in Hf as (s1 & H1 & Hf).
    replace (Z.pred (Z.of_nat (S k))) with (Z.of_nat k) in Hf by lia.
    replace (m + Z.max (Z.of_nat (S k)) 0)
      with (Z.succ m + Z.max (Z.of_nat k) 0) by lia.
    eapply IH; [done| |].
    + replace (Z.succ m) with (m + 1) by lia.
      eapply Hstep; [|done..]. lia.
    + intros i t t' Hi. apply Hstep. lia.
Qed.

(** ** Vectors and buffers *)

Lemma zget_Some {A : Type} (l : list A) (i : Z) (a : A) :
  zget l i = Some a <-> 0 <= i /\ l !! Z.to_nat i = Some a.
Proof. unfold zget. case_decide; split; [by auto|tauto|done|tauto]. Qed.

Lemma zget_lt {A : Type} (l : list A) (i : Z) :
  0 <= i < Z.of_nat (length l) -> exists a, zget l i = Some a.
Proof.
  intros H. destruct (lookup_lt_is_Some_2 l (Z.to_nat i)) as [a Ha]; [lia|].
  exists a. apply zget_Some. split; [lia|done].
Qed.

Lemma zget_bound {A : Type} (l : list A) (i : Z) (a : A) :
  zget l i = Some a -> 0 <= i < Z.of_nat (length l).
Proof.
  intros [H1 H2%lookup_lt_Some]%zget_Some. lia.
Qed.

Lemma vec_get_ok {A : Type} (l : list A) (i : Z) (a : A) :
  vec_get l i = Ok a <-> zget l i = Some a.
Proof. unfold vec_get. destruct (zget l i); split; congruence. Qed.

Lemma vec_at_ok {A : Type} (l : list A) (i : Z) (a : A) :
  vec_at l i = Ok a <-> zget l i = Some a.
Proof. unfold vec_at. destruct (zget l i); split; congruence. Qed.

Lemma vec_set_ok {A : Type} (l l' : list A) (i : Z) (x : A) :
  vec_set l i x = Ok l' <->
  0 <= i < Z.of_nat (length l) /\ l' = <[Z.to_nat i := x]> l.
Proof.
  unfold vec_set. case_decide; split.
  - intros [= <-]. done.
  - intros [_ ->]. done.
  - done.
  - tauto.
Qed.

Lemma zget_seqZ (m n i : Z) :
  0 <= i < n -> zget (seqZ m n) i = Some (m + i).
Proof.
  intros H. apply zget_Some. split; [lia|].
  rewrite lookup_seqZ. split; [lia|]. lia.
Qed.

Lemma identity_permutation_ok (n : Z) :
  identity_permutation n = Ok (seqZ 0 n).
Proof.
  unfold identity_permutation, for_range, vec_resize.
  rewrite resize_nil.
  destruct (decide (n <= 0)) as [Hn|Hn].
  { rewrite !seqZ_nil by lia. replace (Z.to_nat n) with O by lia. done. }
  assert (Hgen : forall k, (k <= Z.to_nat n)%nat ->
    foldM (fun i v => vec_set v i i) (seqZ 0 (Z.of_nat k))
          (replicate (Z.to_nat n) 0)
    = Ok (seqZ 0 (Z.of_nat k) ++ replicate (Z.to_nat n - k) 0)).
  { induction k as [|k IH]; intros Hk.
    - simpl. by rewrite Nat.sub_0_r.
    - replace (Z.of_nat (S k)) with (Z.of_nat k + 1) by lia.
      rewrite seqZ_snoc by lia. rewrite foldM_app, IH by lia. simpl.
      unfold vec_set. rewrite decide_True.
      2:{ rewrite length_app, length_seqZ, length_replicate. lia. }
      simpl. f_equal.
      replace (Z.to_nat (0 + Z.of_nat k)) with k by lia.
      replace (Z.to_nat n - k)%nat with (S (Z.to_nat n - S k)) by lia.
      rewrite insert_app_r_alt by (rewrite length_seqZ; lia).
      rewrite length_seqZ.
      replace (k - Z.to_nat (Z.of_nat k))%nat with O by lia.
      simpl. by rewrite <- app_assoc. }
  specialize (Hgen (Z.to_nat n)). rewrite Z2Nat.id in Hgen by lia.
  rewrite Hgen by lia. rewrite Nat.sub_diag. simpl. by rewrite app_nil_r.
Qed.

(** ** The manifest reader *)

Lemma skip_ws_spec (s : list ascii) :
  exists sp, s = sp ++ skip_ws s
             /\ Forall (fun c => isspace c = true) sp
             /\ match skip_ws s with [] => True | c :: _ => isspace c = false end.
Proof.
  induction s as [|c s (sp & Hs & Hsp & Hhd)]; simpl.
  - exists []. auto.
  - destruct (isspace c) eqn:Hc.
    + exists (c :: sp). simpl. rewrite <- Hs. auto.
    + exists []. simpl. auto.
Qed.

Lemma take_word_spec (s w r : list ascii) :
  take_word s = (w, r) ->
  s = w ++ r /\ Forall (fun c => isspace c = false) w
  /\ match r with [] => True | c :: _ => isspace c = true end.
Proof.
  revert w r. induction s as [|c s IH]; simpl; intros w r.
  - intros [= <- <-]. auto.
  - destruct (isspace c) eqn:Hc.
    + intros [= <- <-]. simpl. auto.
    + destruct (take_word s) as [w' r'] eqn:Hw. intros [= <- <-].
      destruct (IH w' r' eq_refl) as (-> & Hf & Hr). simpl. auto.
Qed.

Lemma take_word_app (w s : list ascii) :
  Forall (fun c => isspace c = false) w ->
  match s with [] => True | c :: _ => isspace c = true end ->
  take_word (w ++ s) = (w, s).
Proof.
  induction 1 as [|c w Hc Hw IH]; intros Hs; simpl.
  - destruct s as [|c s]; [done|]. simpl. by rewrite Hs.
  - rewrite Hc, IH by done. done.
Qed.

Lemma tokens_spaces (sp s : list ascii) ts :
  Forall (fun c => isspace c = true) sp ->
  tokens_of s ts -> tokens_of (sp ++ s) ts.
Proof.
  induction 1; simpl; intros Hs; [done|]. apply tokens_space; auto.
Qed.

(** The extraction loop, given fuel beyond the length of the text, yields the
    tokens of the text. *)
Lemma read_words_tokens (fuel : nat) (s : list ascii) :
  (length s < fuel)%nat -> tokens_of s (read_words fuel s).
Proof.
  revert s. induction fuel as [|fuel IH]; intros s Hlen; [lia|].
  simpl. unfold extract.
  destruct (skip_ws_spec s) as (sp & Hs & Hsp & Hhd).
  destruct (take_word (skip_ws s)) as [w r] eqn:Hw.
  destruct (take_word_spec _ _ _ Hw) as (Hsk & Hwf & Hr).
  destruct w as [|c w].
  - simpl in Hsk. rewrite Hsk in Hhd. rewrite Hs, Hsk.
    apply tokens_spaces; [done|].
    destruct r as [|c r]; [constructor|congruence].
  - rewrite Hs, Hsk. apply tokens_spaces; [done|].
    apply tokens_word; [done|done|done|].
    apply IH. rewrite Hs, Hsk in Hlen.
    rewrite !length_app in Hlen. simpl in Hlen. lia.
Qed.

(** The tokens of a text are unique: the loop computes them. *)
Lemma tokens_read_words (s : list ascii) ts :
  tokens_of s ts ->
  forall fuel, (length s < fuel)%nat -> read_words fuel s = ts.
Proof.
  induction 1 as [|c s ts Hc Hts IH|w s ts Hne Hw Hs Hts IH]; intros fuel Hlen.
  - destruct fuel; [lia|]. done.
  - destruct fuel as [|fuel]; [lia|]. simpl in Hlen.
    specialize (IH (S fuel) ltac:(lia)).
    simpl in *. unfold extract in *. simpl. by rewrite Hc.
  - destruct fuel as [|fuel]; [lia|].
    rewrite length_app in Hlen.
    destruct w as [|c w]; [done|]. simpl in Hlen.
    simpl. unfold extract.
    assert (Hc : isspace c = false) by (by inversion Hw).
    simpl. rewrite Hc.
    change (c :: w ++ s) with ((c :: w) ++ s).
    rewrite take_word_app by done.
    f_equal. apply IH. lia.
Qed.

Lemma read_filenames_tokens (content : string) :
  tokens_of (list_ascii_of_string content)
            (list_ascii_of_string <$> read_filenames content).
Proof.
  unfold read_filenames. rewrite <- list_fmap_compose.
  erewrite list_fmap_ext.
  - rewrite list_fmap_id. apply read_words_tokens. lia.
  - intros i x _. simpl. apply list_ascii_of_string_of_list_ascii.
Qed.

Lemma tokens_read_filenames (content : string) (names : list string) :
  tokens_of (list_ascii_of_string content) (list_ascii_of_string <$> names) ->
  names = read_filenames content.
Proof.
  intros H. unfold read_filenames.
  rewrite (tokens_read_words _ _ H) by lia.
  rewrite <- list_fmap_compose.
  erewrite list_fmap_ext.
  - by rewrite list_fmap_id.
  - intros i x _. simpl. apply string_of_list_ascii_of_string.
Qed.

(** ** Faults *)

Lemma bind_fatal {A B : Type} (m : result A) (k : A -> result B) (e : fault) :
  bind m k = Fatal e <-> m = Fatal e \/ exists a, m = Ok a /\ k a = Fatal e.
Proof.
  destruct m as [a|e']; simpl; split.
  - intros H. right. eauto.
  - intros [H|(a' & [= <-] & H)]; [discriminate|done].
  - intros [= ->]. by left.
  - intros [[= ->]|(a' & H & _)]; [done|discriminate].
Qed.

Lemma foldM_fatal {S I : Type} (Q : fault -> Prop) (body : I -> S -> result S)
    (xs : list I) s e :
  (forall x s e, body x s = Fatal e -> Q e) ->
  foldM body xs s = Fatal e -> Q e.
Proof.
  intros Hb. revert s. induction xs as [|x xs IH]; intros s; simpl; [done|].
  intros [H|(s' & _ & H)]%bind_fatal; eauto.
Qed.

Lemma mapM_fatal {A B : Type} (Q : fault -> Prop) (f : A -> result B)
    (l : list A) e :
  (forall a e, f a = Fatal e -> Q e) -> mapM f l = Fatal e -> Q e.
Proof.
  intros Hf. induction l as [|a l IH]; simpl; [done|].
  intros [H|(b & _ & [H|(bs & _ & H)]%bind_fatal)]%bind_fatal; eauto.
  discriminate.
Qed.

Lemma mapM_ok_length {A B : Type} (f : A -> result B) (l : list A) bs :
  mapM f l = Ok bs -> length bs = length l.
Proof.
  revert bs. induction l as [|a l IH]; simpl; intros bs.
  - by intros [= <-].
  - intros (b & _ & (bs' & Hbs & [= <-])%bind_ok)%bind_ok.
    simpl. f_equal. by apply IH.
Qed.

Lemma vec_get_fatal {A : Type} (l : list A) i e :
  vec_get l i = Fatal e -> e = Undefined.
Proof. unfold vec_get. destruct (zget l i); congruence. Qed.

Lemma vec_set_fatal {A : Type} (l : list A) i x e :
  vec_set l i x = Fatal e -> e = Undefined.
Proof. unfold vec_set. case_decide; congruence. Qed.

Lemma check_fatal (b : bool) (e e' : fault) :
  check b e = Fatal e' -> e' = e /\ b = false.
Proof. destruct b; simpl; [done|]. intros [= ->]. done. Qed.

Section Properties.

Context {R : Runtime}.

Lemma shape_fatal (b : Blob) i e : shape b i = Fatal e -> e = BlobCheck.
Proof. unfold shape. destruct (zget _ i); congruence. Qed.

Lemma shape_ok (b : Blob) i d :
  shape b i = Ok d <-> zget (blob_shape b) i = Some d.
Proof. unfold shape. destruct (zget _ i); split; congruence. Qed.

Lemma shuffle_if_needed_perm (p : LayerParameter) g v :
  Permutation v (shuffle_if_needed p g v).2.
Proof.
  unfold shuffle_if_needed. destruct (shuffle p); [|done].
  apply random_shuffle_perm.
Qed.

Lemma shuffle_if_needed_off (p : LayerParameter) g v :
  shuffle p = false -> shuffle_if_needed p g v = (g, v).
Proof. unfold shuffle_if_needed. by intros ->. Qed.

(** *** LoadHDF5FileData *)

Lemma load_ok (p : LayerParameter) (disk : Disk) name l l' :
  LoadHDF5FileData p disk name l = Ok l' <->
  exists f blobs num,
    h5_files disk !! name = Some f
    /\ read_blobs p f = Ok blobs
    /\ 0 <= close_status f
    /\ check_blobs p blobs = Ok num
    /\ l' = mkLayer (hdf_filenames_ l) (num_files_ l) (current_file_ l)
                    (current_row_ l) blobs
                    (shuffle_if_needed p (rng_ l) (seqZ 0 num)).2
                    (file_permutation_ l) (data_transformer_ l)
                    (shuffle_if_needed p (rng_ l) (seqZ 0 num)).1.
Proof.
  unfold LoadHDF5FileData. split.
  - destruct (h5_files disk !! name) as [f|]; [|done].
    intros (blobs & Hb & (u & Hc%check_ok%Z.leb_le
                          & (num & Hn & H)%bind_ok)%bind_ok)%bind_ok.
    rewrite identity_permutation_ok in H. simpl in H.
    destruct (shuffle_if_needed _ _ _) as [g' v'] eqn:Hs.
    injection H as <-. exists f, blobs, num. rewrite Hs. done.
  - intros (f & blobs & num & -> & -> & Hc & Hn & ->). simpl.
    apply Z.leb_le in Hc. rewrite Hc. simpl. rewrite Hn. simpl.
    rewrite identity_permutation_ok. simpl.
    by destruct (shuffle_if_needed _ _ _).
Qed.

Ltac not_manifest_fault :=
  let H := fresh in intros [H|H]; subst; congruence.

Lemma check_blobs_fatal_kind (p : LayerParameter) blobs e :
  check_blobs p blobs = Fatal e -> ~ manifest_fault e.
Proof.
  unfold check_blobs.
  intros [H|(b0 & _ & [H|(u & _ & [H|(num & _ & [H|(u' & _ & H)]%bind_fatal)
     ]%bind_fatal)]%bind_fatal)]%bind_fatal.
  - apply vec_get_fatal in H. not_manifest_fault.
  - apply check_fatal in H as [-> _]. not_manifest_fault.
  - apply shape_fatal in H. not_manifest_fault.
  - revert H. apply (foldM_fatal (fun e => ~ manifest_fault e)).
    clear. intros i s e.
    intros [H|(bi & _ & [H|(d & _ & H)]%bind_fatal)]%bind_fatal.
    + apply vec_get_fatal in H. not_manifest_fault.
    + apply shape_fatal in H. not_manifest_fault.
    + apply check_fatal in H as [-> _]. not_manifest_fault.
  - discriminate.
Qed.

Lemma load_fatal_kind (p : LayerParameter) (disk : Disk) name l e :
  LoadHDF5FileData p disk name l = Fatal e -> ~ manifest_fault e.
Proof.
  unfold LoadHDF5FileData.
  destruct (h5_files disk !! name) as [f|].
  2:{ intros [= <-]. not_manifest_fault. }
  intros [H|(blobs & _ & [H|(u & _ & [H|(num & _ & H)]%bind_fatal)
     ]%bind_fatal)]%bind_fatal.
  - revert H. apply (mapM_fatal (fun e => ~ manifest_fault e)).
    clear. intros name e.
    unfold hdf5_load_nd_dataset. destruct (datasets f !! name); [|].
    + case_decide; [done|]. intros [= <-]. not_manifest_fault.
    + intros [= <-]. not_manifest_fault.
  - apply check_fatal in H as [-> _]. not_manifest_fault.
  - by apply check_blobs_fatal_kind in H.
  - rewrite identity_permutation_ok in H. simpl in H.
    by destruct (shuffle_if_needed _ _ _).
Qed.

Lemma foldM_unit_fatal {I : Type} (body : I -> unit -> result unit)
    (xs : list I) :
  is_fatal (foldM body xs tt) <-> exists x, x ∈ xs /\ is_fatal (body x tt).
Proof.
  induction xs as [|x xs IH]; simpl.
  - split; [intros [e ?]; discriminate|].
    intros (x & Hx & _). by apply elem_of_nil in Hx.
  - destruct (body x tt) as [[]|e] eqn:Hb; simpl.
    + rewrite IH. split.
      * intros (y & Hy & Hf). exists y. split; [by right|done].
      * intros (y & [->|Hy]%elem_of_cons & Hf).
        -- rewrite Hb in Hf. destruct Hf; discriminate.
        -- eauto.
    + split; [|intros _; by exists e].
      intros _. exists x. split; [left|]. rewrite Hb. by exists e.
Qed.

Lemma shape_first (b : Blob) :
  1 <= num_axes b -> exists d, shape b 0 = Ok d.
Proof.
  unfold num_axes. intros H.
  destruct (zget_lt (blob_shape b) 0) as [d Hd]; [lia|].
  exists d. by apply shape_ok.
Qed.

Lemma check_blobs_fatal_iff (p : LayerParameter) (blobs : list Blob) :
  length blobs = length (top p) -> top p <> [] ->
  is_fatal (check_blobs p blobs) <-> shape_violation blobs.
Proof.
  intros Hlen Htop. unfold check_blobs, shape_violation.
  destruct blobs as [|b0 rest] eqn:Hblobs.
  { destruct (top p); simpl in *; done. }
  rewrite <- Hblobs. rewrite <- Hblobs in Hlen.
  assert (H0 : blobs !! 0%nat = Some b0) by by subst.
  assert (Hg : vec_get blobs 0 = Ok b0) by by subst.
  rewrite Hg. simpl.
  destruct (decide (1 <= num_axes b0)) as [Hax|Hax].
  2:{ apply Z.leb_nle in Hax as Hax'. rewrite Hax'. simpl. split.
      - intros _. left. exists b0. split; [done|lia].
      - intros _. by eexists. }
  apply Z.leb_le in Hax as Hax'. rewrite Hax'. simpl.
  destruct (shape_first b0 Hax) as [num Hnum]. rewrite Hnum. simpl.
  set (body := fun (i : Z) (_ : unit) =>
                 do bi <- vec_get blobs i; do d <- shape bi 0;
                 check (d =? num) RowMismatch).
  transitivity (is_fatal (foldM body (seqZ 1 (top_size p - 1)) tt)).
  { destruct (foldM body _ tt) as [[]|e]; simpl; split; intros [e' He];
      try discriminate; by eexists. }
  rewrite foldM_unit_fatal. split.
  - intros (i & Hi%elem_of_seqZ & Hf). right.
    unfold top_size in Hi.
    destruct (zget_lt blobs i) as [bi Hbi]; [lia|].
    exists b0, (Z.to_nat i), bi.
    apply zget_Some in Hbi as Hbi'. destruct Hbi' as [_ Hbi'].
    split_and!; [done|lia|done|].
    intros Heq. rewrite Hnum in Heq. unfold body in Hf.
    apply vec_get_ok in Hbi. rewrite Hbi in Hf. simpl in Hf.
    rewrite Heq in Hf. simpl in Hf. rewrite Z.eqb_refl in Hf.
    destruct Hf; discriminate.
  - intros [(b0' & Hb0' & Hlt)|(b0' & i & bi & Hb0' & Hi & Hbi & Hne)].
    { rewrite H0 in Hb0'. injection Hb0' as <-. lia. }
    rewrite H0 in Hb0'. injection Hb0' as <-.
    exists (Z.of_nat i). split.
    + apply elem_of_seqZ. apply lookup_lt_Some in Hbi.
      unfold top_size. lia.
    + unfold body. assert (Hz : vec_get blobs (Z.of_nat i) = Ok bi).
      { apply vec_get_ok, zget_Some. rewrite Nat2Z.id. split; [lia|done]. }
      rewrite Hz. simpl. rewrite Hnum in Hne.
      destruct (shape bi 0) as [d|e] eqn:Hd; simpl; [|by eexists].
      destruct (Z.eqb_spec d num) as [->|Hdn]; [done|]. by eexists.
Qed.

Lemma read_blobs_length (p : LayerParameter) (f : H5File) blobs :
  read_blobs p f = Ok blobs -> length blobs = length (top p).
Proof. apply mapM_ok_length. Qed.

Lemma load_fatal_iff_check (p : LayerParameter) (disk : Disk) name l f blobs :
  h5_files disk !! name = Some f ->
  read_blobs p f = Ok blobs ->
  0 <= close_status f ->
  is_fatal (LoadHDF5FileData p disk name l) <-> is_fatal (check_blobs p blobs).
Proof.
  intros Hf Hb Hc. unfold LoadHDF5FileData. rewrite Hf, Hb. simpl.
  apply Z.leb_le in Hc. rewrite Hc. simpl.
  destruct (check_blobs p blobs) as [num|e]; simpl.
  - rewrite identity_permutation_ok. simpl.
    destruct (shuffle_if_needed _ _ _). split; intros [e He]; discriminate.
  - split; intros _; by eexists.
Qed.

(** C7 (amended).  Loading fails fatally when the data file cannot be opened,
    when a declared dataset cannot be read from it, and when closing it
    reports an error.  Once the file has been opened, every declared dataset
    has been read and the file has been closed without error, loading fails
    fatally if and only if the first output has no axis or a later output
    differs from it in the outermost dimension.  In scenario S5 (data with 4
    rows, label with 3) the load faults, and so does the setup that performs
    it: no layer and no output come back, whatever the batch size. *)
Theorem load_fails_iff_shape_violation :
  (forall (p : LayerParameter) (disk : Disk) name l,
     h5_files disk !! name = None ->
     LoadHDF5FileData p disk name l = Fatal (FailedOpenHDF5 name))
  /\ (forall (p : LayerParameter) (disk : Disk) name l f e,
        h5_files disk !! name = Some f ->
        read_blobs p f = Fatal e ->
        LoadHDF5FileData p disk name l = Fatal e)
  /\ (forall (p : LayerParameter) (disk : Disk) name l f blobs,
        h5_files disk !! name = Some f ->
        read_blobs p f = Ok blobs ->
        close_status f < 0 ->
        LoadHDF5FileData p disk name l = Fatal (FailedClose name))
  /\ (forall (p : LayerParameter) (disk : Disk) name l f blobs,
        top p <> [] ->
        h5_files disk !! name = Some f ->
        read_blobs p f = Ok blobs ->
        0 <= close_status f ->
        is_fatal (LoadHDF5FileData p disk name l) <-> shape_violation blobs)
  /\ (forall b l,
        @LoadHDF5FileData example_runtime (Examples.data_label b)
          Examples.s5_disk "a.h5" l = Fatal RowMismatch)
  /\ (forall b g tops,
        @LayerSetUp example_runtime (Examples.data_label b)
          Examples.s5_disk g tops = Fatal RowMismatch).
Proof.
  split_and!.
  - intros p disk name l Hf. unfold LoadHDF5FileData. by rewrite Hf.
  - intros p disk name l f e Hf Hb. unfold LoadHDF5FileData.
    by rewrite Hf, Hb.
  - intros p disk name l f blobs Hf Hb Hc. unfold LoadHDF5FileData.
    rewrite Hf, Hb. simpl.
    replace (0 <=? close_status f) with false
      by (symmetry; apply Z.leb_gt; lia).
    done.
  - intros p disk name l f blobs Htop Hf Hb Hc.
    rewrite (load_fatal_iff_check p disk name l f blobs) by done.
    apply check_blobs_fatal_iff; [|done]. by eapply read_blobs_length.
  - intros b l. reflexivity.
  - intros b g tops. reflexivity.
Qed.

(** *** LayerSetUp *)

Lemma read_source_ok (p : LayerParameter) (disk : Disk) names :
  read_source p disk = Ok names <->
  exists content, text_files disk !! source p = Some content
                  /\ names = read_filenames content
                  /\ 1 <= Z.of_nat (length names).
Proof.
  unfold read_source. destruct (text_files disk !! source p) as [content|].
  - split.
    + intros (u & Hc%check_ok%Z.leb_le & [= <-])%bind_ok. eauto.
    + intros (c & [= <-] & -> & Hc). apply Z.leb_le in Hc. by rewrite Hc.
  - split; [done|]. intros (c & ? & _). done.
Qed.

Lemma read_source_fatal (p : LayerParameter) (disk : Disk) e :
  read_source p disk = Fatal e ->
  (e = FailedOpenSource /\ text_files disk !! source p = None)
  \/ (e = NoFilenames
      /\ exists content, text_files disk !! source p = Some content
                         /\ read_filenames content = []).
Proof.
  unfold read_source. destruct (text_files disk !! source p) as [content|].
  - destruct (read_filenames content) as [|n ns] eqn:Hn; simpl.
    + intros [= <-]. right. eauto.
    + replace (1 <=? _) with true by (symmetry; apply Z.leb_le; lia). done.
  - intros [= <-]. by left.
Qed.

Lemma reshape_top_fatal_kind (p : LayerParameter) l i acc e :
  reshape_top p l i acc = Fatal e -> ~ manifest_fault e.
Proof.
  unfold reshape_top. destruct acc as [ts tops].
  intros [H|(b & _ & [H|(ts1 & _ & [H|(ts2 & _ & [H|(t & _ & [H|(tp & _ & H)
    ]%bind_fatal)]%bind_fatal)]%bind_fatal)]%bind_fatal)]%bind_fatal.
  - apply vec_get_fatal in H. not_manifest_fault.
  - apply vec_set_fatal in H. not_manifest_fault.
  - revert H. apply (foldM_fatal (fun e => ~ manifest_fault e)).
    clear. intros j ts e [H|(d & _ & H)]%bind_fatal.
    + apply shape_fatal in H. not_manifest_fault.
    + apply vec_set_fatal in H. not_manifest_fault.
  - apply vec_get_fatal in H. not_manifest_fault.
  - apply vec_set_fatal in H. not_manifest_fault.
  - discriminate.
Qed.

(** What a successful setup went through. *)
Lemma setup_ok (p : LayerParameter) (disk : Disk) g tops l tops' :
  LayerSetUp p disk g tops = Ok (l, tops') ->
  exists names fi name l1 r,
    let sh := shuffle_if_needed p g (seqZ 0 (Z.of_nat (length names))) in
    read_source p disk = Ok names
    /\ vec_get sh.2 0 = Ok fi
    /\ vec_get names fi = Ok name
    /\ LoadHDF5FileData p disk name
         (mkLayer names (Z.of_nat (length names)) 0 0 [] [] sh.2
                  new_DataTransformer sh.1) = Ok l1
    /\ l = mkLayer (hdf_filenames_ l1) (num_files_ l1) (current_file_ l1) 0
                   (hdf_blobs_ l1) (data_permutation_ l1)
                   (file_permutation_ l1) (data_transformer_ l1) (rng_ l1)
    /\ for_range (top_size p) (reshape_top p l) ([], tops) = Ok r
    /\ tops' = r.2.
Proof.
  unfold LayerSetUp. intros (names & Hn & H)%bind_ok.
  rewrite identity_permutation_ok in H. simpl in H.
  destruct (shuffle_if_needed _ _ _) as [g' fp] eqn:Hs. simpl in H.
  apply bind_ok in H as (fi & Hfi & (name & Hname & (l1 & Hl1 & (r & Hr & H)
    %bind_ok)%bind_ok)%bind_ok).
  injection H as <- <-.
  exists names, fi, name, l1, r. simpl. rewrite Hs. simpl. done.
Qed.

Lemma setup_fatal_after_manifest (p : LayerParameter) (disk : Disk) g tops e :
  LayerSetUp p disk g tops = Fatal e ->
  manifest_fault e -> read_source p disk = Fatal e.
Proof.
  unfold LayerSetUp. intros [H|(names & _ & H)]%bind_fatal; [done|].
  intros Hm. exfalso. revert Hm.
  rewrite identity_permutation_ok in H. simpl in H.
  destruct (shuffle_if_needed _ _ _) as [g' fp]. simpl in H.
  apply bind_fatal in H as [H|(fi & _ & [H|(name & _ & [H|(l1 & _ & [H|(r & _ & H)
    ]%bind_fatal)]%bind_fatal)]%bind_fatal)].
  - apply vec_get_fatal in H. not_manifest_fault.
  - apply vec_get_fatal in H. not_manifest_fault.
  - by apply load_fatal_kind in H.
  - revert H. apply (foldM_fatal (fun e => ~ manifest_fault e)).
    intros i acc e'. apply reshape_top_fatal_kind.
  - discriminate.
Qed.

(** C8 (amended).  Setup stops with the fault of an unreadable manifest if
    and only if the manifest file cannot be opened, and with the fault of an
    empty manifest if and only if the file opens and holds no
    whitespace-separated token (setup can still fail later, while it loads
    the first data file).  Whenever setup succeeds, the manifest it keeps is
    exactly the sequence of the whitespace-separated tokens of the file, as
    they stand and in their order: it is a tokenization of the text, and the
    only one. *)
Theorem setup_manifest (p : LayerParameter) (disk : Disk) g tops :
  (LayerSetUp p disk g tops = Fatal FailedOpenSource
   <-> text_files disk !! source p = None)
  /\ (LayerSetUp p disk g tops = Fatal NoFilenames
      <-> exists content, text_files disk !! source p = Some content
                          /\ tokens_of (list_ascii_of_string content) [])
  /\ (forall l tops',
        LayerSetUp p disk g tops = Ok (l, tops') ->
        exists content,
          text_files disk !! source p = Some content
          /\ tokens_of (list_ascii_of_string content)
                       (list_ascii_of_string <$> hdf_filenames_ l)
          /\ (forall ts, tokens_of (list_ascii_of_string content) ts ->
                         ts = list_ascii_of_string <$> hdf_filenames_ l)
          /\ hdf_filenames_ l <> []
          /\ num_files_ l = Z.of_nat (length (hdf_filenames_ l))).
Proof.
  split_and!.
  - split.
    + intros H. apply setup_fatal_after_manifest in H; [|by left].
      apply read_source_fatal in H as [[_ H]|[[=] _]]. done.
    + intros H. unfold LayerSetUp, read_source. by rewrite H.
  - split.
    + intros H. apply setup_fatal_after_manifest in H; [|by right].
      apply read_source_fatal in H as [[[=] _]|[_ (content & Hc & Hn)]].
      exists content. split; [done|].
      pose proof (read_filenames_tokens content) as Ht. by rewrite Hn in Ht.
    + intros (content & Hc & Ht).
      apply (tokens_read_filenames content []) in Ht.
      unfold LayerSetUp, read_source. rewrite Hc, <- Ht. done.
  - intros l tops' (names & fi & name & l1 & r & Hn & _ & _ & Hl & -> & _)%setup_ok.
    apply read_source_ok in Hn as (content & Hc & -> & Hlen).
    apply load_ok in Hl as (f & blobs & num & _ & _ & _ & _ & ->). simpl.
    exists content. split_and!; [done|apply read_filenames_tokens| | |done].
    + intros ts Hts.
      pose proof (read_filenames_tokens content) as Hr.
      rewrite <- (tokens_read_words _ _ Hts
                    (S (length (list_ascii_of_string content)))) by lia.
      by rewrite <- (tokens_read_words _ _ Hr
                       (S (length (list_ascii_of_string content)))) by lia.
    + destruct (read_filenames content); simpl in *; [lia|done].
Qed.

(** The inner loop of the reshape: axes 1 and up are copied from the blob. *)
Lemma copy_axes_ok (b : Blob) (bs : Z) ts ts' :
  length ts = length (blob_shape b) ->
  ts !! 0%nat = Some bs ->
  foldM (fun j ts => do d <- shape b j; vec_set ts j d)
        (seqZ 1 (Z.of_nat (length ts) - 1)) ts = Ok ts' ->
  ts' = bs :: drop 1 (blob_shape b).
Proof.
  intros Hlen H0 Hf.
  set (P := fun (j : Z) (v : list Z) =>
              length v = length ts /\ v !! 0%nat = Some bs
              /\ forall k, (1 <= k)%nat -> Z.of_nat k < j ->
                           v !! k = blob_shape b !! k).
  assert (HP : P (1 + Z.max (Z.of_nat (length ts) - 1) 0) ts').
  { eapply for_seqZ_inv_ok; [exact Hf| |].
    - split_and!; [done..|]. intros k ??. lia.
    - intros j v v' Hj (Hl & Hv0 & Hv) (d & Hd%shape_ok & Hset%vec_set_ok)%bind_ok.
      destruct Hset as [Hr ->].
      apply zget_Some in Hd as [_ Hd].
      split_and!.
      + by rewrite length_insert.
      + rewrite list_lookup_insert_ne by lia. done.
      + intros k Hk1 Hk2. destruct (decide (k = Z.to_nat j)) as [->|Hne].
        * rewrite list_lookup_insert_eq by lia. done.
        * rewrite list_lookup_insert_ne by lia. apply Hv; lia. }
  destruct HP as (Hl & Hv0 & Hv).
  apply list_eq. intros [|k]; simpl; [done|].
  rewrite lookup_drop. simpl.
  destruct (decide (S k < length ts)%nat) as [Hk|Hk].
  - apply Hv; lia.
  - rewrite !lookup_ge_None_2 by lia. done.
Qed.

Lemma reshape_top_ok (p : LayerParameter) l i ts tops ts' tops' :
  reshape_top p l i (ts, tops) = Ok (ts', tops') ->
  exists b t d0 rest,
    zget (hdf_blobs_ l) i = Some b
    /\ zget tops i = Some t
    /\ blob_shape b = d0 :: rest
    /\ ts' = batch_size p :: rest
    /\ tops' = <[Z.to_nat i := Reshape t ts']> tops.
Proof.
  unfold reshape_top.
  intros (b & Hb%vec_get_ok & (ts1 & [H1 ->]%vec_set_ok & (ts2 & H2 & (t & Ht%vec_get_ok
    & (tp & [_ ->]%vec_set_ok & [= <- <-])%bind_ok)%bind_ok)%bind_ok)%bind_ok)%bind_ok.
  unfold vec_resize, num_axes in *.
  rewrite length_resize in H1.
  apply (copy_axes_ok b (batch_size p)) in H2.
  2:{ by rewrite length_insert, length_resize, Nat2Z.id. }
  2:{ apply list_lookup_insert_eq. rewrite length_resize. lia. }
  destruct (blob_shape b) as [|d0 rest] eqn:Hsh; [simpl in H1; lia|].
  simpl in H2. rewrite drop_0 in H2.
  exists b, t, d0, rest. done.
Qed.

(** C9.  After setup the layer holds the blobs read from the file that the
    file permutation puts first, one per declared output, and output [j] has
    the shape of blob [j] with the outermost dimension replaced by the batch
    size: the same number of axes and the same extent on every axis but
    axis 0. *)
Theorem setup_top_shapes (p : LayerParameter) (disk : Disk) g tops l tops' :
  LayerSetUp p disk g tops = Ok (l, tops') ->
  (exists first name f,
      zget (file_permutation_ l) 0 = Some first
      /\ zget (hdf_filenames_ l) first = Some name
      /\ h5_files disk !! name = Some f
      /\ read_blobs p f = Ok (hdf_blobs_ l))
  /\ length (hdf_blobs_ l) = length (top p)
  /\ forall (j : nat) b,
       hdf_blobs_ l !! j = Some b ->
       exists t d0 rest,
         tops' !! j = Some t
         /\ blob_shape b = d0 :: rest
         /\ blob_shape t = batch_size p :: rest
         /\ num_axes t = num_axes b.
Proof.
  intros (names & fi & name & l1 & r & Hn & Hfi%vec_get_ok & Hname%vec_get_ok
          & Hl & -> & Hr & ->)%setup_ok.
  apply load_ok in Hl as (f & blobs & num & Hf & Hb & _ & _ & ->).
  simpl in *. split_and!.
  - exists fi, name, f. done.
  - by eapply read_blobs_length.
  - set (l := mkLayer _ _ _ _ _ _ _ _ _) in Hr.
    set (P := fun (i : Z) (acc : list Z * list Blob) =>
                forall (j : nat) b, Z.of_nat j < i -> blobs !! j = Some b ->
                  exists t d0 rest, acc.2 !! j = Some t
                    /\ blob_shape b = d0 :: rest
                    /\ blob_shape t = batch_size p :: rest).
    assert (HP : P (0 + Z.max (top_size p) 0) r).
    { eapply (for_seqZ_inv_ok P); [exact Hr| |].
      - intros j b Hj. lia.
      - intros i [ts tp] [ts' tp'] Hi HPi Hstep j b Hj Hjb.
        apply reshape_top_ok in Hstep
          as (bi & t & d0 & rest & Hbi & Ht & Hsh & -> & ->).
        simpl. destruct (decide (j = Z.to_nat i)) as [->|Hne].
        + apply zget_Some in Hbi as [_ Hbi]. simpl in Hbi.
          rewrite Hjb in Hbi. injection Hbi as <-.
          apply zget_bound in Ht.
          rewrite list_lookup_insert_eq by lia.
          exists (Reshape t (batch_size p :: rest)), d0, rest. done.
        + rewrite list_lookup_insert_ne by lia. apply HPi; [lia|done]. }
    intros j b Hjb.
    destruct (HP j b) as (t & d0 & rest & Ht & Hsh & Hst); [|done|].
    + apply lookup_lt_Some in Hjb. apply read_blobs_length in Hb.
      unfold top_size. lia.
    + exists t, d0, rest. split_and!; [done..|].
      unfold num_axes. rewrite Hsh, Hst. done.
Qed.

(** *** The image of a row *)

Lemma pixel_index_lt (H W h w c : Z) :
  0 <= h < H -> 0 <= w < W -> 0 <= c < 3 ->
  0 <= (h * W + w) * 3 + c < H * W * 3.
Proof. intros Hh Hw Hc. nia. Qed.

Lemma pixel_index_inj (W h w c h' w' c' : Z) :
  0 <= w < W -> 0 <= c < 3 -> 0 <= w' < W -> 0 <= c' < 3 ->
  (h * W + w) * 3 + c = (h' * W + w') * 3 + c' ->
  h = h' /\ w = w' /\ c = c'.
Proof.
  intros Hw Hc Hw' Hc' Heq.
  assert (c = c') as -> by lia.
  assert (Hhw : h * W + w = h' * W + w') by lia.
  assert (h = h') as -> by nia.
  split_and!; lia.
Qed.

Lemma source_index_lt (H W h w c : Z) :
  0 <= h < H -> 0 <= w < W -> 0 <= c < 3 ->
  0 <= c * W * H + h * W + w < 3 * H * W.
Proof.
  intros Hh Hw Hc.
  assert (0 <= W * H) by nia.
  assert (0 <= c * (W * H) <= 2 * (W * H)) by nia.
  assert (0 <= h * W <= (H - 1) * W) by nia.
  lia.
Qed.

Lemma new_Mat_inv (H W : Z) val :
  0 <= H -> 0 <= W -> image_inv H W val (fun _ _ _ => False) (new_Mat H W).
Proof.
  intros HH HW. unfold image_inv, new_Mat. simpl.
  rewrite length_replicate. split_and!; [done|done|nia|done].
Qed.

Lemma image_inv_weaken (H W : Z) val (D D' : Z -> Z -> Z -> Prop) m :
  image_inv H W val D m ->
  (forall c h w, 0 <= c < 3 -> 0 <= h < H -> 0 <= w < W -> D' c h w -> D c h w) ->
  image_inv H W val D' m.
Proof.
  intros (Hr & Hc & Hl & Hp) HD. split_and!; [done..|].
  intros c h w ????. apply Hp; auto.
Qed.

(** Writing one pixel keeps the others. *)
Lemma mat_set_inv (H W : Z) val (D : Z -> Z -> Z -> Prop) m c h w :
  image_inv H W val D m ->
  0 <= c < 3 -> 0 <= h < H -> 0 <= w < W ->
  exists m', mat_set m h w c (val c h w) = Ok m'
             /\ image_inv H W val
                  (fun c' h' w' => D c' h' w' \/ (c' = c /\ h' = h /\ w' = w)) m'.
Proof.
  intros (Hr & Hc & Hl & Hp) Hcr Hhr Hwr.
  pose proof (pixel_index_lt H W h w c Hhr Hwr Hcr) as Hidx.
  unfold mat_set. rewrite decide_True by (rewrite Hr, Hc; done).
  unfold vec_set, pixel_index. rewrite Hc.
  rewrite decide_True by lia. simpl.
  eexists. split; [done|].
  unfold image_inv. simpl. rewrite length_insert.
  split_and!; [done..|].
  intros c' h' w' Hc' Hh' Hw' HD.
  unfold mat_at. simpl. rewrite decide_True by (rewrite ?Hr, ?Hc; done).
  unfold pixel_index. simpl. rewrite ?Hc.
  pose proof (pixel_index_lt H W h' w' c' Hh' Hw' Hc') as Hidx'.
  apply zget_Some. split; [lia|].
  destruct (decide ((h' * W + w') * 3 + c' = (h * W + w) * 3 + c)) as [Heq|Hne].
  - apply pixel_index_inj in Heq as (-> & -> & ->); [|lia..].
    apply list_lookup_insert_eq. lia.
  - rewrite list_lookup_insert_ne by lia.
    destruct HD as [HD|(-> & -> & ->)]; [|done].
    specialize (Hp c' h' w' Hc' Hh' Hw' HD).
    unfold mat_at in Hp. rewrite decide_True in Hp by (rewrite Hr, Hc; done).
    unfold pixel_index in Hp. rewrite Hc in Hp.
    by apply zget_Some in Hp as [_ Hp].
Qed.

(** The three loops of lines 175-184 on a row [img_data] of [3 * H * W]
    elements: they end, and every pixel holds the converted source element. *)
Lemma fill_image_ok (H W : Z) (img_data : list Dtype) :
  0 <= H -> 0 <= W ->
  Z.of_nat (length img_data) = 3 * H * W ->
  exists m,
    for_range 3 (fun c =>
      for_range H (fun h =>
        for_range W (fun w cv_img =>
          do x <- vec_at img_data (c * W * H + h * W + w);
          mat_set cv_img h w c (cast_uint8 x))))
      (new_Mat H W) = Ok m
    /\ mat_rows m = H /\ mat_cols m = W
    /\ forall c h w, 0 <= c < 3 -> 0 <= h < H -> 0 <= w < W ->
         exists x, zget img_data (c * H * W + h * W + w) = Some x
                   /\ mat_at m h w c = Some (cast_uint8 x).
Proof.
  intros HH HW Hlen.
  set (val := fun c h w =>
         cast_uint8 (default zero (zget img_data (c * W * H + h * W + w)))).
  set (Dw := fun (c h w : Z) (c' h' w' : Z) =>
         c' < c \/ (c' = c /\ (h' < h \/ (h' = h /\ w' < w)))).
  assert (Hfin : exists m,
    for_range 3 (fun c =>
      for_range H (fun h =>
        for_range W (fun w cv_img =>
          do x <- vec_at img_data (c * W * H + h * W + w);
          mat_set cv_img h w c (cast_uint8 x))))
      (new_Mat H W) = Ok m
    /\ image_inv H W val (Dw 3 0 0) m).
  { unfold for_range.
    destruct (for_seqZ_inv (fun c m => image_inv H W val (Dw c 0 0) m)
                (fun c => foldM (fun h => foldM (fun w cv_img =>
                   do x <- vec_at img_data (c * W * H + h * W + w);
                   mat_set cv_img h w c (cast_uint8 x)) (seqZ 0 W)) (seqZ 0 H))
                0 3 (new_Mat H W)) as (m & Hm & Hinv).
    - eapply image_inv_weaken; [by apply new_Mat_inv|].
      unfold Dw. intros; lia.
    - intros c m Hc Hinv.
      destruct (for_seqZ_inv (fun h m => image_inv H W val (Dw c h 0) m)
                  (fun h => foldM (fun w cv_img =>
                     do x <- vec_at img_data (c * W * H + h * W + w);
                     mat_set cv_img h w c (cast_uint8 x)) (seqZ 0 W))
                  0 H m) as (m' & Hm' & Hinv'); [done| |].
      + intros h m1 Hh Hinv1.
        destruct (for_seqZ_inv (fun w m => image_inv H W val (Dw c h w) m)
                    (fun w cv_img =>
                       do x <- vec_at img_data (c * W * H + h * W + w);
                       mat_set cv_img h w c (cast_uint8 x))
                    0 W m1) as (m2 & Hm2 & Hinv2); [done| |].
        * intros w m3 Hw Hinv3.
          pose proof (source_index_lt H W h w c ltac:(lia) ltac:(lia) ltac:(lia))
            as Hidx.
          destruct (zget_lt img_data (c * W * H + h * W + w)) as [x Hx]; [lia|].
          apply vec_at_ok in Hx as Hx'. rewrite Hx'. simpl.
          destruct (mat_set_inv H W val (Dw c h w) m3 c h w Hinv3)
            as (m4 & Hset & Hinv4); [lia..|].
          exists m4. split.
          -- rewrite <- Hset. unfold val. by rewrite Hx.
          -- eapply image_inv_weaken; [exact Hinv4|].
             unfold Dw. intros; lia.
        * exists m2. split; [done|].
          eapply image_inv_weaken; [exact Hinv2|].
          unfold Dw. intros; lia.
      + exists m'. split; [done|].
        eapply image_inv_weaken; [exact Hinv'|].
        unfold Dw. intros; lia.
    - exists m. split; [done|]. exact Hinv. }
  destruct Hfin as (m & Hm & (Hr & Hc & _ & Hp)).
  exists m. split_and!; [done..|].
  intros c h w Hcr Hhr Hwr.
  pose proof (source_index_lt H W h w c Hhr Hwr Hcr) as Hidx.
  destruct (zget_lt img_data (c * W * H + h * W + w)) as [x Hx]; [lia|].
  exists x. replace (c * H * W) with (c * W * H) by lia. split; [done|].
  rewrite (Hp c h w) by (unfold Dw; lia). unfold val. by rewrite Hx.
Qed.

Lemma run_read_ok {A : Type} (buf : list A) (off n : Z) vs :
  run_read buf off n = Ok vs <->
  (0 <= off /\ 0 <= n /\ off + n <= Z.of_nat (length buf))
  /\ vs = take (Z.to_nat n) (drop (Z.to_nat off) buf).
Proof.
  unfold run_read. case_decide; split.
  - intros [= <-]. done.
  - intros [_ ->]. done.
  - done.
  - tauto.
Qed.

Lemma run_read_length {A : Type} (buf : list A) (off n : Z) vs :
  run_read buf off n = Ok vs -> Z.of_nat (length vs) = n.
Proof.
  intros [Hr ->]%run_read_ok. rewrite length_take, length_drop. lia.
Qed.

Lemma run_read_zget {A : Type} (buf : list A) (off n k : Z) vs :
  run_read buf off n = Ok vs -> 0 <= k < n ->
  zget vs k = zget buf (off + k).
Proof.
  intros [Hr ->]%run_read_ok Hk. unfold zget.
  rewrite !decide_True by lia.
  rewrite lookup_take_lt by lia. rewrite lookup_drop. f_equal. lia.
Qed.

Lemma data_dim_of_ok (t : Blob) (b : Z) (rest : list Z) :
  blob_shape t = b :: rest -> b <> 0 ->
  data_dim_of t = Ok (foldr Z.mul 1 rest).
Proof.
  intros Hsh Hb. unfold data_dim_of, shape, count, int_div. rewrite Hsh.
  simpl. rewrite decide_False by done. f_equal.
  rewrite Z.mul_comm. by apply Z.quot_mul.
Qed.

Lemma make_image_ok (hb : Blob) (N H W row : Z) :
  blob_shape hb = [N; 3; H; W] ->
  0 <= H -> 0 <= W ->
  blob_ptr hb = 0 ->
  Z.of_nat (length (blob_mem hb)) = N * 3 * H * W ->
  0 <= row < N ->
  exists img m,
    run_read (blob_mem hb) (cpu_data hb + row * (3 * H * W)) (3 * H * W) = Ok img
    /\ make_image hb row (3 * H * W) = Ok m
    /\ mat_rows m = H /\ mat_cols m = W
    /\ forall c h w, 0 <= c < 3 -> 0 <= h < H -> 0 <= w < W ->
         exists x, zget img (c * H * W + h * W + w) = Some x
                   /\ zget (blob_mem hb)
                        (row * (3 * H * W) + (c * H * W + h * W + w)) = Some x
                   /\ mat_at m h w c = Some (cast_uint8 x).
Proof.
  intros Hsh HH HW Hptr Hlen Hrow.
  assert (0 <= H * W) by nia.
  assert (Hfit : 0 <= row * (3 * H * W)
                 /\ row * (3 * H * W) + 3 * H * W <= N * 3 * H * W) by nia.
  unfold make_image, cpu_data. rewrite Hsh, Hptr. simpl.
  rewrite !Z.add_0_l.
  destruct (run_read (blob_mem hb) (row * (3 * H * W)) (3 * H * W))
    as [img|e] eqn:Himg.
  2:{ unfold run_read in Himg. rewrite decide_True in Himg by lia. done. }
  simpl. pose proof (run_read_length _ _ _ _ Himg) as Hl.
  destruct (fill_image_ok H W img HH HW Hl) as (m & Hm & Hr & Hc & Hp).
  exists img, m. split_and!; [done..|].
  intros c h w Hcr Hhr Hwr.
  destruct (Hp c h w Hcr Hhr Hwr) as (x & Hx & Hat).
  exists x. split_and!; [done| |done].
  pose proof (source_index_lt H W h w c Hhr Hwr Hcr).
  rewrite <- Hx. symmetry. apply (run_read_zget _ _ _ _ _ Himg). lia.
Qed.

(** C4.  On a source blob of shape (N, 3, H, W) the image built for a row has
    H rows and W columns, and channel [c] of pixel [(h, w)] is the element of
    that row at flat index [c*H*W + h*W + w], converted to a byte.  For S6
    (H = W = 2) the four pixels are (R0,G0,B0), (R1,G1,B1), (R2,G2,B2) and
    (R3,G3,B3). *)
Theorem image_is_pixel_major :
  (forall (hb : Blob) (N H W row : Z),
     blob_shape hb = [N; 3; H; W] ->
     0 <= H -> 0 <= W ->
     blob_ptr hb = 0 ->
     Z.of_nat (length (blob_mem hb)) = N * 3 * H * W ->
     0 <= row < N ->
     exists m,
       make_image hb row (3 * H * W) = Ok m
       /\ mat_rows m = H /\ mat_cols m = W
       /\ forall c h w, 0 <= c < 3 -> 0 <= h < H -> 0 <= w < W ->
            exists x, zget (blob_mem hb)
                        (row * (3 * H * W) + (c * H * W + h * W + w)) = Some x
                      /\ mat_at m h w c = Some (cast_uint8 x))
  /\ (forall r0 r1 r2 r3 g0 g1 g2 g3 b0 b1 b2 b3 : Dtype,
        let u := cast_uint8 in
        exists m,
          make_image (mkBlob [1; 3; 2; 2]
                        [r0; r1; r2; r3; g0; g1; g2; g3; b0; b1; b2; b3] 0)
                     0 12 = Ok m
          /\ pixel m 0 0 = (Some (u r0), Some (u g0), Some (u b0))
          /\ pixel m 0 1 = (Some (u r1), Some (u g1), Some (u b1))
          /\ pixel m 1 0 = (Some (u r2), Some (u g2), Some (u b2))
          /\ pixel m 1 1 = (Some (u r3), Some (u g3), Some (u b3))).
Proof.
  split.
  - intros hb N H W row Hsh HH HW Hptr Hlen Hrow.
    destruct (make_image_ok hb N H W row Hsh HH HW Hptr Hlen Hrow)
      as (img & m & _ & Hm & Hr & Hc & Hp).
    exists m. split_and!; [done..|].
    intros c h w Hcr Hhr Hwr.
    destruct (Hp c h w Hcr Hhr Hwr) as (x & _ & Hx & Hat). eauto.
  - intros.
    exists (mkMat 2 2 [u r0; u g0; u b0; u r1; u g1; u b1;
                       u r2; u g2; u b2; u r3; u g3; u b3]).
    split_and!; vm_compute; reflexivity.
Qed.

(** C10.  With the source blob of shape (N, 3, H, W), H and W at least 1, and
    the output of shape (batch, 3, H, W): [data_dim] is [3*H*W], axes 2 and 3
    of the source shape exist and are H and W, the row read into [img_data]
    has [data_dim] elements, every index [c*W*H + h*W + w] used with
    [img_data.at] lies below [data_dim], so that no checked access fails, and
    the image is built. *)
Theorem image_reads_in_range (hb t : Blob) (N B H W row : Z) :
  blob_shape hb = [N; 3; H; W] ->
  blob_shape t = [B; 3; H; W] ->
  1 <= B -> 1 <= H -> 1 <= W ->
  blob_ptr hb = 0 ->
  Z.of_nat (length (blob_mem hb)) = N * 3 * H * W ->
  0 <= row < N ->
  exists img,
    data_dim_of t = Ok (3 * H * W)
    /\ vec_get (blob_shape hb) 2 = Ok H
    /\ vec_get (blob_shape hb) 3 = Ok W
    /\ run_read (blob_mem hb) (cpu_data hb + row * (3 * H * W)) (3 * H * W)
       = Ok img
    /\ Z.of_nat (length img) = 3 * H * W
    /\ (forall c h w, 0 <= c < 3 -> 0 <= h < H -> 0 <= w < W ->
          0 <= c * W * H + h * W + w < 3 * H * W
          /\ is_ok (vec_at img (c * W * H + h * W + w)))
    /\ is_ok (make_image hb row (3 * H * W)).
Proof.
  intros Hsh Ht HB HH HW Hptr Hlen Hrow.
  destruct (make_image_ok hb N H W row Hsh ltac:(lia) ltac:(lia) Hptr Hlen Hrow)
    as (img & m & Himg & Hm & _ & _ & Hp).
  exists img. split_and!.
  - rewrite (data_dim_of_ok t B [3; H; W]) by (done || lia).
    simpl. f_equal. lia.
  - by rewrite Hsh.
  - by rewrite Hsh.
  - done.
  - by eapply run_read_length.
  - intros c h w Hcr Hhr Hwr. split; [by apply source_index_lt|].
    destruct (Hp c h w Hcr Hhr Hwr) as (x & Hx & _).
    exists x. apply vec_at_ok. by replace (c * W * H) with (c * H * W) by lia.
  - by exists m.
Qed.

(** *** The cursor stays within the rows *)

Lemma mapM_ok_lookup_r {A B : Type} (f : A -> result B) (l : list A) bs i b :
  mapM f l = Ok bs -> bs !! i = Some b ->
  exists a, l !! i = Some a /\ f a = Ok b.
Proof.
  revert bs i. induction l as [|a' l IH]; simpl; intros bs i.
  - intros [= <-]. done.
  - intros (b' & Hb & (bs' & Hbs & [= <-])%bind_ok)%bind_ok.
    destruct i as [|i]; simpl.
    + intros [= ->]. eauto.
    + intros Hi. eapply IH; eauto.
Qed.

Lemma read_blobs_lookup (p : LayerParameter) (f : H5File) blobs (j : nat) b :
  read_blobs p f = Ok blobs -> blobs !! j = Some b ->
  exists name d,
    top p !! j = Some name /\ datasets f !! name = Some d
    /\ b = mkBlob (Z.of_N <$> dims d) (values d) 0.
Proof.
  intros Hr Hb.
  destruct (mapM_ok_lookup_r _ _ _ _ _ Hr Hb) as (name & Hn & Hl).
  unfold hdf5_load_nd_dataset in Hl.
  destruct (datasets f !! name) as [d|] eqn:Hd; [|done].
  case_decide; [|done]. injection Hl as <-. by exists name, d.
Qed.

Lemma read_blobs_nonneg (p : LayerParameter) (f : H5File) blobs (j : nat) b i d :
  read_blobs p f = Ok blobs -> blobs !! j = Some b ->
  shape b i = Ok d -> 0 <= d.
Proof.
  intros Hr Hb Hs.
  destruct (read_blobs_lookup _ _ _ _ _ Hr Hb) as (name & ds & _ & _ & ->).
  apply shape_ok, zget_Some in Hs as [_ Hs]. simpl in Hs.
  apply list_lookup_fmap_Some in Hs as (n & -> & _). lia.
Qed.

Lemma foldM_unit_ok {I : Type} (body : I -> unit -> result unit)
    (xs : list I) u x :
  foldM body xs tt = Ok u -> x ∈ xs -> body x tt = Ok tt.
Proof.
  induction xs as [|y xs IH]; simpl; [by intros _ ?%elem_of_nil|].
  intros ([] & Hy & Hf)%bind_ok [->|Hx]%elem_of_cons; auto.
Qed.

Lemma check_blobs_ok (p : LayerParameter) blobs num :
  check_blobs p blobs = Ok num ->
  exists b0, blobs !! 0%nat = Some b0 /\ 1 <= num_axes b0
             /\ shape b0 0 = Ok num
             /\ forall i, 1 <= i < top_size p ->
                  exists bi, zget blobs i = Some bi /\ shape bi 0 = Ok num.
Proof.
  unfold check_blobs.
  intros (b0 & Hb0%vec_get_ok%zget_Some & (u & Hax%check_ok%Z.leb_le
    & (num' & Hnum & (u' & Hf & [= <-])%bind_ok)%bind_ok)%bind_ok)%bind_ok.
  exists b0. split_and!; [tauto|done|done|].
  intros i Hi.
  pose proof (foldM_unit_ok _ _ _ i Hf) as Hb.
  destruct u'. specialize (Hb ltac:(apply elem_of_seqZ; lia)).
  apply bind_ok in Hb as (bi & Hbi%vec_get_ok & (d & Hd & Hc%check_ok%Z.eqb_eq)%bind_ok).
  exists bi. split; [done|]. by rewrite <- Hc.
Qed.

Lemma rows_in_current_file_ok (l : HDF5DataLayer) rows :
  rows_in_current_file l = Ok rows <->
  exists b0, hdf_blobs_ l !! 0%nat = Some b0 /\ shape b0 0 = Ok rows.
Proof.
  unfold rows_in_current_file. split.
  - intros (b0 & [_ Hb]%vec_get_ok%zget_Some & Hs)%bind_ok. eauto.
  - intros (b0 & Hb & Hs). apply bind_ok. exists b0. split; [|done].
    apply vec_get_ok, zget_Some. done.
Qed.

(** After a load the row permutation has as many entries as the file has
    rows. *)
Lemma load_rows (p : LayerParameter) (disk : Disk) name l l' :
  LoadHDF5FileData p disk name l = Ok l' ->
  top p <> []
  /\ current_row_ l' = current_row_ l
  /\ exists rows, rows_in_current_file l' = Ok rows /\ 0 <= rows
                  /\ Z.of_nat (length (data_permutation_ l')) = rows.
Proof.
  intros (f & blobs & num & Hf & Hb & Hc & Hn & ->)%load_ok. simpl.
  destruct (check_blobs_ok _ _ _ Hn) as (b0 & Hb0 & Hax & Hs & _).
  pose proof (read_blobs_nonneg _ _ _ _ _ _ _ Hb Hb0 Hs) as Hnum.
  split_and!; [|done|].
  - apply read_blobs_length in Hb. intros Ht. rewrite Ht in Hb.
    destruct blobs; simpl in *; done.
  - exists num. split_and!; [|done|].
    + apply rows_in_current_file_ok. simpl. eauto.
    + rewrite <- (Permutation_length (shuffle_if_needed_perm p (rng_ l) (seqZ 0 num))).
      rewrite length_seqZ. lia.
Qed.

Lemma rewind_ok (p : LayerParameter) (disk : Disk) l s :
  rewind p disk l = Ok s ->
  exists rows,
    rows_in_current_file l = Ok rows
    /\ ((current_row_ l <> rows /\ s = l)
        \/ (current_row_ l = rows
            /\ exists l1,
                 ((1 < num_files_ l
                   /\ exists fi name,
                        let cf := if decide (current_file_ l + 1 = num_files_ l)
                                  then 0 else current_file_ l + 1 in
                        let sh := if decide (current_file_ l + 1 = num_files_ l)
                                  then shuffle_if_needed p (rng_ l)
                                         (file_permutation_ l)
                                  else (rng_ l, file_permutation_ l) in
                        zget sh.2 cf = Some fi
                        /\ zget (hdf_filenames_ l) fi = Some name
                        /\ LoadHDF5FileData p disk name
                             (mkLayer (hdf_filenames_ l) (num_files_ l) cf
                                (current_row_ l) (hdf_blobs_ l)
                                (data_permutation_ l) sh.2
                                (data_transformer_ l) sh.1) = Ok l1)
                  \/ (~ 1 < num_files_ l /\ l1 = l))
                 /\ s = mkLayer (hdf_filenames_ l1) (num_files_ l1)
                          (current_file_ l1) 0 (hdf_blobs_ l1)
                          (shuffle_if_needed p (rng_ l1)
                             (data_permutation_ l1)).2
                          (file_permutation_ l1) (data_transformer_ l1)
                          (shuffle_if_needed p (rng_ l1)
                             (data_permutation_ l1)).1)).
Proof.
  unfold rewind.
  intros (b0 & Hb0 & (rows & Hrows & H)%bind_ok)%bind_ok.
  exists rows. split.
  { unfold rows_in_current_file. rewrite Hb0. done. }
  case_decide as Hcr.
  2:{ injection H as <-. left. done. }
  right. split; [done|].
  apply bind_ok in H as (l1 & Hl1 & H).
  exists l1. split.
  - case_decide as Hnf.
    + left. split; [done|].
      destruct (decide (current_file_ l + 1 = num_files_ l)) as [Hw|Hw].
      * destruct (shuffle_if_needed p (rng_ l) (file_permutation_ l))
          as [g' fp] eqn:Hsh.
        apply bind_ok in Hl1 as (fi & Hfi%vec_get_ok & (name & Hname%vec_get_ok & Hl1)%bind_ok).
        exists fi, name. simpl. done.
      * apply bind_ok in Hl1 as (fi & Hfi%vec_get_ok & (name & Hname%vec_get_ok & Hl1)%bind_ok).
        exists fi, name. simpl. done.
    + right. injection Hl1 as <-. done.
  - destruct (shuffle_if_needed p (rng_ l1) (data_permutation_ l1)).
    injection H as <-. done.
Qed.

Lemma rewind_row_inv (p : LayerParameter) (disk : Disk) l s :
  row_inv p l -> rewind p disk l = Ok s ->
  exists rows,
    rows_in_current_file s = Ok rows
    /\ 0 <= current_row_ s
    /\ (current_row_ s < rows \/ (current_row_ s = 0 /\ 0 <= rows))
    /\ Z.of_nat (length (data_permutation_ s)) = rows.
Proof.
  intros (Htop & rows & Hrows & Hcr & Hlen) (rows' & Hrows' & Hcase)%rewind_ok.
  rewrite Hrows in Hrows'. injection Hrows' as <-.
  destruct Hcase as [[Hne ->]|(Heq & l1 & Hl1 & ->)].
  - exists rows. split_and!; [done|lia|left; lia|done].
  - assert (Hl1' : exists rows1, rows_in_current_file l1 = Ok rows1
                     /\ 0 <= rows1
                     /\ Z.of_nat (length (data_permutation_ l1)) = rows1).
    { destruct Hl1 as [(_ & fi & name & _ & _ & Hload)|[_ ->]].
      - by apply load_rows in Hload as (_ & _ & Hload).
      - exists rows. split_and!; [done|lia|done]. }
    destruct Hl1' as (rows1 & Hr1 & Hpos & Hlen1).
    exists rows1. simpl. split_and!; [|lia|right; lia|].
    + apply rows_in_current_file_ok. apply rows_in_current_file_ok in Hr1. done.
    + by rewrite <- (Permutation_length (shuffle_if_needed_perm p _ _)).
Qed.

(** *** Filling the outputs *)

Lemma fill_tops_rounds (p : LayerParameter) l i acc :
  fill_tops p l i acc = for_range (top_size p) (fill_round p l i) acc.
Proof.
  unfold fill_tops, fill_round, for_range.
  destruct (image_path p); simpl; apply foldM_ext; intros j s _; [|done].
  case_decide; [by rewrite bool_decide_true|by rewrite bool_decide_false].
Qed.

Lemma copy_row_ok l i j (tops tops' : list Blob) :
  copy_row l i j tops = Ok tops' ->
  exists t dd hb row vs m,
    zget tops j = Some t
    /\ data_dim_of t = Ok dd
    /\ zget (hdf_blobs_ l) j = Some hb
    /\ zget (data_permutation_ l) (current_row_ l) = Some row
    /\ run_read (blob_mem hb) (blob_ptr hb + row * dd) dd = Ok vs
    /\ run_write (blob_mem t) (blob_ptr t + i * dd) vs = Ok m
    /\ tops' = <[Z.to_nat j := set_mem t m]> tops.
Proof.
  unfold copy_row, caffe_copy, cpu_data, mutable_cpu_data.
  intros (t & Ht%vec_get_ok & (dd & Hdd & (hb & Hhb%vec_get_ok & (row & Hrow%vec_get_ok
    & (t' & (vs & Hvs & (m & Hm & [= <-])%bind_ok)%bind_ok
    & [_ ->]%vec_set_ok)%bind_ok)%bind_ok)%bind_ok)%bind_ok)%bind_ok.
  exists t, dd, hb, row, vs, m. done.
Qed.

Lemma transform_row_ok l i j tr (tops : list Blob) tr' tops' :
  transform_row l i j (tr, tops) = Ok (tr', tops') ->
  exists t dd hb row img out m,
    zget tops j = Some t
    /\ data_dim_of t = Ok dd
    /\ zget (hdf_blobs_ l) j = Some hb
    /\ zget (data_permutation_ l) (current_row_ l) = Some row
    /\ make_image hb row dd = Ok img
    /\ Transform tr img = (tr', out)
    /\ run_write (blob_mem t) (blob_ptr t + i * dd) out = Ok m
    /\ tops' = <[Z.to_nat j := mkBlob (blob_shape t) m (blob_ptr t + i * dd)]> tops.
Proof.
  unfold transform_row, cpu_data, mutable_cpu_data, set_cpu_data, set_mem.
  intros (t & Ht%vec_get_ok & (dd & Hdd & (hb & Hhb%vec_get_ok & (row & Hrow%vec_get_ok
    & (img & Himg & H)%bind_ok)%bind_ok)%bind_ok)%bind_ok)%bind_ok.
  destruct (Transform tr img) as [tr1 out] eqn:Htr. simpl in H.
  apply bind_ok in H as (m & Hm & (tp & [_ ->]%vec_set_ok & [= <- <-])%bind_ok).
  exists t, dd, hb, row, img, out, m. done.
Qed.

(** Every round reads the selected row index. *)
Lemma fill_round_selects (p : LayerParameter) l i j acc r :
  fill_round p l i j acc = Ok r ->
  exists row, zget (data_permutation_ l) (current_row_ l) = Some row.
Proof.
  unfold fill_round. destruct acc as [tr tops], r as [tr' tops'].
  destruct (_ && _).
  - intros (t & dd & hb & row & img & out & m & _ & _ & _ & Hrow & _)%transform_row_ok.
    eauto.
  - intros (tp & (t & dd & hb & row & vs & m & _ & _ & _ & Hrow & _)%copy_row_ok
            & _)%bind_ok. eauto.
Qed.

Lemma fill_tops_selects (p : LayerParameter) l i acc r :
  fill_tops p l i acc = Ok r -> top p <> [] ->
  exists row, zget (data_permutation_ l) (current_row_ l) = Some row.
Proof.
  rewrite fill_tops_rounds. unfold for_range, top_size. intros H Htop.
  rewrite seqZ_cons in H by (destruct (top p); simpl in *; [done|lia]).
  simpl in H. apply bind_ok in H as (r1 & H & _).
  by eapply fill_round_selects.
Qed.

Lemma emit_sample_ok (p : LayerParameter) (disk : Disk) i l tops l' tops' :
  emit_sample p disk i (l, tops) = Ok (l', tops') <->
  exists s r,
    rewind p disk l = Ok s
    /\ fill_tops p s i (data_transformer_ s, tops) = Ok r
    /\ l' = mkLayer (hdf_filenames_ s) (num_files_ s) (current_file_ s)
                    (current_row_ s + 1) (hdf_blobs_ s) (data_permutation_ s)
                    (file_permutation_ s) r.1 (rng_ s)
    /\ tops' = r.2.
Proof.
  unfold emit_sample. split.
  - intros (s & Hs & (r & Hr & [= <- <-])%bind_ok)%bind_ok. by exists s, r.
  - intros (s & r & -> & Hr & -> & ->). simpl. rewrite Hr. done.
Qed.

Lemma emit_sample_row_inv (p : LayerParameter) (disk : Disk) i l tops l' tops' :
  row_inv p l -> emit_sample p disk i (l, tops) = Ok (l', tops') ->
  row_inv p l'.
Proof.
  intros Hinv (s & r & Hs & Hr & -> & ->)%emit_sample_ok.
  pose proof Hinv as [Htop _].
  destruct (rewind_row_inv p disk l s Hinv Hs) as (rows & Hrows & H0 & Hcr & Hlen).
  destruct (fill_tops_selects _ _ _ _ _ Hr Htop) as (row & Hrow%zget_bound).
  split; [done|]. exists rows. simpl. split_and!; [|lia|lia|done].
  apply rows_in_current_file_ok. by apply rows_in_current_file_ok in Hrows.
Qed.

Lemma Forward_cpu_row_inv (p : LayerParameter) (disk : Disk) l tops l' tops' :
  row_inv p l -> Forward_cpu p disk l tops = Ok (l', tops') -> row_inv p l'.
Proof.
  intros Hinv Hf. unfold Forward_cpu, for_range in Hf.
  apply (foldM_inv_ok (fun acc => row_inv p acc.1)) in Hf; [done| |done].
  intros i [l1 t1] [l2 t2] _ H1 H2. simpl in *.
  by eapply emit_sample_row_inv.
Qed.

Lemma Forward_n_row_inv (p : LayerParameter) (disk : Disk) n l tops l' tops' :
  row_inv p l -> Forward_n p disk n l tops = Ok (l', tops') -> row_inv p l'.
Proof.
  revert l' tops'. induction n as [|n IH]; simpl; intros l' tops' Hinv.
  - intros [= <- <-]. done.
  - intros ([l1 t1] & H1 & H2)%bind_ok. simpl in H2.
    eapply Forward_cpu_row_inv; [|done]. by eapply IH.
Qed.

Lemma setup_row_inv (p : LayerParameter) (disk : Disk) g tops l tops' :
  LayerSetUp p disk g tops = Ok (l, tops') ->
  row_inv p l /\ current_row_ l = 0.
Proof.
  intros (names & fi & name & l1 & r & _ & _ & _ & Hl & -> & _ & _)%setup_ok.
  apply load_rows in Hl as (Htop & _ & rows & Hrows & Hpos & Hlen).
  simpl. split; [|done]. split; [done|].
  exists rows. simpl. split_and!; [|lia|done|done].
  apply rows_in_current_file_ok. by apply rows_in_current_file_ok in Hrows.
Qed.

(** C2 (amended).  After setup and after every forward call the row index of
    the cursor is at most the number of rows of the loaded file; it is 0
    after setup.  (It reaches the number of rows when a forward call ends on
    the last row of a file: the move to the next file is made at the start
    of the next round.) *)
Theorem row_index_within_rows (p : LayerParameter) (disk : Disk) g tops n
    l tops' :
  run p disk g tops n = Ok (l, tops') ->
  exists rows,
    rows_in_current_file l = Ok rows
    /\ 0 <= current_row_ l <= rows
    /\ (n = O -> current_row_ l = 0).
Proof.
  unfold run. intros ([l0 t0] & H0 & Hn)%bind_ok. simpl in Hn.
  apply setup_row_inv in H0 as [Hinv Hz].
  pose proof (Forward_n_row_inv p disk n l0 t0 l tops' Hinv Hn)
    as (_ & rows & Hrows & Hcr & _).
  exists rows. split; [done|]. split; [done|].
  intros ->. simpl in Hn. by injection Hn as <- <-.
Qed.

(** *** Copies into the slots *)

Lemma run_write_ok {A : Type} (buf : list A) (off : Z) vs buf' :
  run_write buf off vs = Ok buf' <->
  (0 <= off /\ off + Z.of_nat (length vs) <= Z.of_nat (length buf))
  /\ buf' = take (Z.to_nat off) buf ++ vs
            ++ drop (Z.to_nat off + length vs)%nat buf.
Proof.
  unfold run_write. case_decide; split.
  - intros [= <-]. done.
  - intros [_ ->]. done.
  - done.
  - tauto.
Qed.

Lemma run_write_length {A : Type} (buf : list A) (off : Z) vs buf' :
  run_write buf off vs = Ok buf' -> length buf' = length buf.
Proof.
  intros [Hr ->]%run_write_ok.
  rewrite !length_app, length_take, length_drop. lia.
Qed.

Lemma run_write_lookup_other {A : Type} (buf : list A) (off : Z) vs buf' k :
  run_write buf off vs = Ok buf' ->
  (k < Z.to_nat off \/ Z.to_nat off + length vs <= k)%nat ->
  buf' !! k = buf !! k.
Proof.
  intros [Hr ->]%run_write_ok [Hk|Hk].
  - rewrite lookup_app_l by (rewrite length_take; lia).
    by rewrite lookup_take_lt.
  - rewrite lookup_app_r by (rewrite length_take; lia).
    rewrite lookup_app_r by (rewrite length_take; lia).
    rewrite lookup_drop, length_take. f_equal. lia.
Qed.

Lemma run_read_write_same {A : Type} (buf : list A) (off : Z) vs buf' :
  run_write buf off vs = Ok buf' ->
  run_read buf' off (Z.of_nat (length vs)) = Ok vs.
Proof.
  intros Hw. pose proof (run_write_length _ _ _ _ Hw) as Hl.
  apply run_write_ok in Hw as [Hr ->].
  apply run_read_ok. split; [lia|].
  rewrite drop_app_length' by (rewrite length_take; lia).
  rewrite Nat2Z.id. by rewrite take_app_length.
Qed.

Lemma run_read_write_other {A : Type} (buf : list A) (off : Z) vs buf' off' n :
  run_write buf off vs = Ok buf' ->
  off' + n <= off \/ off + Z.of_nat (length vs) <= off' ->
  run_read buf' off' n = run_read buf off' n.
Proof.
  intros Hw Hdis. pose proof (run_write_length _ _ _ _ Hw) as Hl.
  unfold run_read. rewrite Hl. case_decide as Hr; [|done]. f_equal.
  apply list_eq. intros k.
  destruct (decide (k < Z.to_nat n)%nat) as [Hk|Hk].
  - rewrite !lookup_take_lt by done. rewrite !lookup_drop.
    apply (run_write_lookup_other _ _ _ _ _ Hw).
    apply run_write_ok in Hw as [Hr' _]. lia.
  - rewrite !lookup_take_ge by lia. done.
Qed.

Lemma data_dim_of_same_view (t t' : Blob) :
  same_view t t' -> data_dim_of t' = data_dim_of t.
Proof.
  intros (Hs & _ & _). unfold data_dim_of, shape, count. by rewrite Hs.
Qed.

Lemma same_view_refl (t : Blob) : same_view t t.
Proof. done. Qed.

Lemma same_view_trans (t1 t2 t3 : Blob) :
  same_view t1 t2 -> same_view t2 t3 -> same_view t1 t3.
Proof.
  intros (H1 & H2 & H3) (H4 & H5 & H6). unfold same_view.
  split_and!; congruence.
Qed.

(** What a copy into slot [i] of [t] leaves behind. *)
Lemma copy_into_slot (t : Blob) (i dd : Z) vs m :
  data_dim_of t = Ok dd ->
  Z.of_nat (length vs) = dd ->
  run_write (blob_mem t) (blob_ptr t + i * dd) vs = Ok m ->
  same_view t (set_mem t m)
  /\ slot (set_mem t m) i = Ok vs
  /\ forall i0, i0 <> i -> slot (set_mem t m) i0 = slot t i0.
Proof.
  intros Hdd Hlen Hw.
  assert (Hv : same_view t (set_mem t m)).
  { split_and!; [done..|]. simpl. by eapply run_write_length. }
  split; [done|].
  unfold slot. rewrite (data_dim_of_same_view _ _ Hv), Hdd. simpl.
  split.
  - rewrite <- Hlen. rewrite <- Hlen in Hw.
    by apply (run_read_write_same (blob_mem t)).
  - intros i0 Hne. apply (run_read_write_other _ _ _ _ _ _ Hw).
    rewrite Hlen. assert (0 <= dd) by lia.
    destruct (decide (i0 < i)); [left|right]; nia.
Qed.

(** A round for another output leaves output [j] as it is. *)
Lemma fill_round_frame (p : LayerParameter) l i j' acc r (j : nat) :
  fill_round p l i j' acc = Ok r -> Z.to_nat j' <> j ->
  r.2 !! j = acc.2 !! j.
Proof.
  unfold fill_round. destruct acc as [tr tops], r as [tr' tops'].
  destruct (_ && _).
  - intros (t & dd & hb & row & img & out & m & _ & _ & _ & _ & _ & _ & _ & ->)
      %transform_row_ok Hne.
    simpl. by rewrite list_lookup_insert_ne.
  - intros (tp & (t & dd & hb & row & vs & m & _ & _ & _ & _ & _ & _ & ->)%copy_row_ok
            & [= <- <-])%bind_ok Hne.
    simpl. by rewrite list_lookup_insert_ne.
Qed.

Lemma fill_rounds_frame (p : LayerParameter) l i (js : list Z) acc r (j : nat) :
  foldM (fill_round p l i) js acc = Ok r ->
  (forall j', j' ∈ js -> Z.to_nat j' <> j) ->
  r.2 !! j = acc.2 !! j.
Proof.
  intros Hf Hjs.
  apply (foldM_inv_ok (fun a => a.2 !! j = acc.2 !! j)) in Hf; [done| |done].
  intros j' a a' Hj' Ha Hr. rewrite <- Ha.
  eapply fill_round_frame; [done|]. by apply Hjs.
Qed.

(** The round of output [j], away from the image path, copies the selected
    row into slot [i]. *)
Lemma fill_round_copied (p : LayerParameter) l i j tr tops r :
  fill_round p l i j (tr, tops) = Ok r ->
  image_path p = false \/ j <> 0 ->
  exists t hb row dd vs t',
    zget tops j = Some t
    /\ data_dim_of t = Ok dd
    /\ zget (hdf_blobs_ l) j = Some hb
    /\ zget (data_permutation_ l) (current_row_ l) = Some row
    /\ run_read (blob_mem hb) (cpu_data hb + row * dd) dd = Ok vs
    /\ zget r.2 j = Some t'
    /\ same_view t t'
    /\ slot t' i = Ok vs
    /\ forall i0, i0 <> i -> slot t' i0 = slot t i0.
Proof.
  unfold fill_round. intros H Hpath.
  replace (image_path p && bool_decide (j = 0)) with false in H.
  2:{ destruct Hpath as [->|Hj]; [done|].
      rewrite bool_decide_false by done. by rewrite andb_false_r. }
  apply bind_ok in H as (tp & (t & dd & hb & row & vs & m & Ht & Hdd & Hhb & Hrow
    & Hvs & Hm & ->)%copy_row_ok & [= <-]).
  pose proof (run_read_length _ _ _ _ Hvs) as Hlen.
  destruct (copy_into_slot t i dd vs m Hdd Hlen Hm) as (Hv & Hs & Ho).
  exists t, hb, row, dd, vs, (set_mem t m). simpl.
  split_and!; [done..| |done|done|done].
  apply zget_Some. apply zget_Some in Ht as [Hj Ht]. split; [done|].
  apply list_lookup_insert_eq. by eapply lookup_lt_Some.
Qed.

Lemma fill_tops_copied (p : LayerParameter) l i tr tops r j :
  fill_tops p l i (tr, tops) = Ok r ->
  0 <= j < top_size p ->
  image_path p = false \/ j <> 0 ->
  exists t hb row dd vs t',
    zget tops j = Some t
    /\ data_dim_of t = Ok dd
    /\ zget (hdf_blobs_ l) j = Some hb
    /\ zget (data_permutation_ l) (current_row_ l) = Some row
    /\ run_read (blob_mem hb) (cpu_data hb + row * dd) dd = Ok vs
    /\ zget r.2 j = Some t'
    /\ same_view t t'
    /\ slot t' i = Ok vs
    /\ forall i0, i0 <> i -> slot t' i0 = slot t i0.
Proof.
  rewrite fill_tops_rounds. unfold for_range. intros H Hj Hpath.
  replace (top_size p) with (j + (1 + (top_size p - j - 1))) in H by lia.
  rewrite seqZ_app, seqZ_app in H by lia.
  rewrite foldM_app in H.
  apply bind_ok in H as ([tr1 tops1] & H1 & H).
  rewrite foldM_app in H. apply bind_ok in H as (r2 & H2 & H3).
  simpl in H2. apply bind_ok in H2 as (r2' & H2 & [= ->]).
  replace (Z.of_nat 0 + (0 + j)) with j in H2 by lia.
  destruct (fill_round_copied p l i j tr1 tops1 r2 H2 Hpath)
    as (t & hb & row & dd & vs & t' & Ht & Hdd & Hhb & Hrow & Hvs & Ht' & Hv & Hs & Ho).
  apply (fill_rounds_frame _ _ _ _ _ _ (Z.to_nat j)) in H1.
  2:{ intros j' Hj'%elem_of_seqZ. lia. }
  apply (fill_rounds_frame _ _ _ _ _ _ (Z.to_nat j)) in H3.
  2:{ intros j' Hj'%elem_of_seqZ. lia. }
  simpl in H1.
  exists t, hb, row, dd, vs, t'. split_and!; try done.
  - apply zget_Some. apply zget_Some in Ht as [? Ht]. split; [done|].
    by rewrite <- H1.
  - apply zget_Some. apply zget_Some in Ht' as [? Ht']. split; [done|].
    by rewrite H3.
Qed.

Lemma emit_sample_frame (p : LayerParameter) (disk : Disk) i l tops l' tops'
    j t :
  emit_sample p disk i (l, tops) = Ok (l', tops') ->
  0 <= j < top_size p ->
  image_path p = false \/ j <> 0 ->
  zget tops j = Some t ->
  exists t', zget tops' j = Some t' /\ same_view t t'
             /\ forall i0, i0 <> i -> slot t' i0 = slot t i0.
Proof.
  intros (s & [tr1 tp1] & Hs & Hr & -> & ->)%emit_sample_ok Hj Hpath Ht.
  destruct (fill_tops_copied p s i _ tops _ j Hr Hj Hpath)
    as (t0 & hb & row & dd & vs & t' & Ht0 & _ & _ & _ & _ & Ht' & Hv & _ & Ho).
  rewrite Ht in Ht0. injection Ht0 as <-. eauto.
Qed.

(** Rounds [a] to [a + n] of the loop leave every other slot of output [j]
    as it was. *)
Lemma emit_samples_frame (p : LayerParameter) (disk : Disk) a n l tops l' tops'
    j t :
  foldM (emit_sample p disk) (seqZ a n) (l, tops) = Ok (l', tops') ->
  0 <= j < top_size p ->
  image_path p = false \/ j <> 0 ->
  zget tops j = Some t ->
  exists t', zget tops' j = Some t' /\ same_view t t'
             /\ forall i0, i0 < a \/ a + n <= i0 -> slot t' i0 = slot t i0.
Proof.
  intros Hf Hj Hpath Ht.
  apply (for_seqZ_inv_ok
           (fun k acc => exists t', zget acc.2 j = Some t' /\ same_view t t'
              /\ forall i0, i0 < a \/ k <= i0 -> slot t' i0 = slot t i0))
    in Hf.
  - destruct Hf as (t' & Ht' & Hv & Hs). exists t'. split_and!; [done..|].
    intros i0 Hi0. apply Hs. lia.
  - exists t. split_and!; [done|apply same_view_refl|done].
  - intros k [l1 tp1] [l2 tp2] Hk (t1 & Ht1 & Hv1 & Hs1) Hstep. simpl in *.
    destruct (emit_sample_frame _ _ _ _ _ _ _ j t1 Hstep Hj Hpath Ht1)
      as (t2 & Ht2 & Hv2 & Hs2).
    exists t2. split_and!; [done|by eapply same_view_trans|].
    intros i0 Hi0. rewrite Hs2 by lia. apply Hs1. lia.
Qed.

(** Away from the image path, slot [i] of output [j] after a forward call
    holds the elements of the row selected in round [i]. *)
Lemma forward_copies_row (p : LayerParameter) (disk : Disk)
    l tops l' tops' i j t :
  Forward_cpu p disk l tops = Ok (l', tops') ->
  0 <= i < batch_size p ->
  0 <= j < top_size p ->
  image_path p = false \/ j <> 0 ->
  zget tops j = Some t ->
  shape t 0 = Ok (batch_size p) ->
  exists li topsi s hb row dd vs t',
    foldM (emit_sample p disk) (seqZ 0 i) (l, tops) = Ok (li, topsi)
    /\ rewind p disk li = Ok s
    /\ zget (hdf_blobs_ s) j = Some hb
    /\ zget (data_permutation_ s) (current_row_ s) = Some row
    /\ int_div (count t) (batch_size p) = Ok dd
    /\ run_read (blob_mem hb) (cpu_data hb + row * dd) dd = Ok vs
    /\ zget tops' j = Some t'
    /\ same_view t t'
    /\ run_read (blob_mem t') (blob_ptr t' + i * dd) dd = Ok vs.
Proof.
  unfold Forward_cpu, for_range. intros Hf Hi Hj Hpath Ht Hsh.
  replace (batch_size p) with (i + (1 + (batch_size p - i - 1))) in Hf at 1
    by lia.
  rewrite seqZ_app in Hf by lia. rewrite foldM_app in Hf.
  apply bind_ok in Hf as ([li topsi] & H1 & Hf).
  rewrite seqZ_app in Hf by lia. rewrite foldM_app in Hf.
  apply bind_ok in Hf as ([l2 tops2] & H2 & H3).
  simpl in H2. apply bind_ok in H2 as (r2 & H2 & [= ->]).
  replace (Z.of_nat 0 + (0 + i)) with i in H2 by lia.
  destruct (emit_samples_frame _ _ _ _ _ _ _ _ j t H1 Hj Hpath Ht)
    as (ti & Hti & Hvi & _).
  pose proof H2 as (s & [tr1 tp1] & Hs & Hr & Hl2 & Htp2)%emit_sample_ok.
  simpl in Hl2, Htp2. subst l2 tops2.
  destruct (fill_tops_copied p s i _ topsi _ j Hr Hj Hpath)
    as (t0 & hb & row & dd & vs & t2 & Ht0 & Hdd & Hhb & Hrow & Hvs & Ht2
        & Hv2 & Hslot & _).
  rewrite Hti in Ht0. injection Ht0 as <-. simpl in Ht2.
  destruct (emit_samples_frame _ _ _ _ _ _ _ _ j t2 H3 Hj Hpath Ht2)
    as (t' & Ht' & Hv' & Hkeep).
  assert (Hv : same_view t t').
  { eapply same_view_trans; [|exact Hv']. by eapply same_view_trans. }
  rewrite (data_dim_of_same_view _ _ Hvi) in Hdd.
  exists li, topsi, s, hb, row, dd, vs, t'.
  split_and!; try done.
  - unfold data_dim_of in Hdd. by rewrite Hsh in Hdd.
  - rewrite <- Hslot, <- (Hkeep i) by lia.
    unfold slot. rewrite (data_dim_of_same_view _ _ Hv), Hdd. done.
Qed.

(** C6.  Away from the image path (every output when [image] is off or no
    transform parameter is present, and every output but the first
    otherwise), slot [i] of output [j] after a forward call holds the
    [data_dim = count / batch_size] consecutive elements that start at
    [data_permutation_[current_row_] * data_dim] in blob [j] of the file
    loaded when sample [i] was taken, that is, after the first [i] rounds of
    the loop and the cursor check of round [i].  In scenario S3 (data of
    shape (4, 2), label of shape (4), batch size 3) both outputs hold the
    same rows: 0, 1, 2 after the first call and 3, 0, 1 after the second. *)
Theorem copied_slot_is_source_row :
  (forall (p : LayerParameter) (disk : Disk) l tops l' tops' i j t,
     Forward_cpu p disk l tops = Ok (l', tops') ->
     0 <= i < batch_size p ->
     0 <= j < top_size p ->
     image_path p = false \/ j <> 0 ->
     zget tops j = Some t ->
     shape t 0 = Ok (batch_size p) ->
     exists li topsi s hb row dd vs t',
       foldM (emit_sample p disk) (seqZ 0 i) (l, tops) = Ok (li, topsi)
       /\ rewind p disk li = Ok s
       /\ zget (hdf_blobs_ s) j = Some hb
       /\ zget (data_permutation_ s) (current_row_ s) = Some row
       /\ int_div (count t) (batch_size p) = Ok dd
       /\ run_read (blob_mem hb) (cpu_data hb + row * dd) dd = Ok vs
       /\ zget tops' j = Some t'
       /\ same_view t t'
       /\ run_read (blob_mem t') (blob_ptr t' + i * dd) dd = Ok vs)
  /\ (let s3 := @run example_runtime (Examples.data_label 3) Examples.s3_disk
                  tt [Examples.fresh_top; Examples.fresh_top] in
      outputs (s3 1%nat) = Ok [[10; 11; 20; 21; 30; 31]; [1; 2; 3]]
      /\ outputs (s3 2%nat) = Ok [[40; 41; 10; 11; 20; 21]; [4; 1; 2]]).
Proof.
  split.
  - intros p disk l tops l' tops' i j t. apply forward_copies_row.
  - simpl. split; vm_compute; reflexivity.
Qed.

(** *** The schedule *)

Lemma sumZ_nonneg (Rs : list Z) : Forall (fun r => 0 <= r) Rs -> 0 <= sumZ Rs.
Proof. induction 1; simpl; lia. Qed.

Lemma sumZ_take_S (Rs : list Z) (k : nat) r :
  Rs !! k = Some r -> sumZ (take (S k) Rs) = sumZ (take k Rs) + r.
Proof.
  revert k. induction Rs as [|r0 Rs IH]; intros [|k]; simpl; try done.
  - intros [= ->]. lia.
  - intros Hk. rewrite (IH k Hk). lia.
Qed.

Lemma sumZ_take_le (Rs : list Z) (k : nat) :
  Forall (fun r => 0 <= r) Rs -> 0 <= sumZ (take k Rs) <= sumZ Rs.
Proof.
  intros H. revert k. induction H as [|r Rs Hr H IH]; intros [|k]; simpl.
  - done.
  - done.
  - pose proof (sumZ_nonneg Rs H). lia.
  - specialize (IH k). lia.
Qed.

Lemma sumZ_take_all (Rs : list Z) (k : nat) :
  (length Rs <= k)%nat -> sumZ (take k Rs) = sumZ Rs.
Proof. intros H. by rewrite take_ge. Qed.

Lemma sumZ_take_lookup (Rs : list Z) (k : nat) r :
  Forall (fun r => 0 <= r) Rs -> Rs !! k = Some r ->
  0 <= sumZ (take k Rs) /\ sumZ (take k Rs) + r <= sumZ Rs.
Proof.
  intros H Hk. rewrite <- (sumZ_take_S _ _ _ Hk).
  pose proof (sumZ_take_le Rs k H). pose proof (sumZ_take_le Rs (S k) H). lia.
Qed.

Lemma schedule_from_lookup (Rs : list Z) (k0 : Z) (k : nat) rows r :
  Forall (fun r => 0 <= r) Rs ->
  Rs !! k = Some rows -> 0 <= r < rows ->
  zget (schedule_from k0 Rs) (sumZ (take k Rs) + r) = Some (k0 + Z.of_nat k, r).
Proof.
  intros H. revert k0 k. induction H as [|r0 Rs Hr0 H IH]; intros k0 k; [done|].
  destruct k as [|k]; simpl.
  - intros [= ->] Hr. apply zget_Some. split; [lia|].
    rewrite lookup_app_l by (rewrite length_fmap, length_seqZ; lia).
    rewrite list_lookup_fmap.
    rewrite (proj2 (lookup_seqZ 0 rows (Z.to_nat (0 + r)) (0 + r))) by lia.
    simpl. do 2 f_equal; lia.
  - intros Hk Hr.
    destruct (sumZ_take_lookup Rs k rows H Hk) as [Hs1 Hs2].
    specialize (IH (k0 + 1) k Hk Hr).
    apply zget_Some in IH as [_ IH].
    apply zget_Some. split; [lia|].
    rewrite lookup_app_r by (rewrite length_fmap, length_seqZ; lia).
    rewrite length_fmap, length_seqZ.
    replace (Z.to_nat (r0 + sumZ (take k Rs) + r) - Z.to_nat r0)%nat
      with (Z.to_nat (sumZ (take k Rs) + r)) by lia.
    rewrite IH. do 2 f_equal. lia.
Qed.

Lemma schedule_lookup (Rs : list Z) (k : nat) rows r :
  Forall (fun r => 0 <= r) Rs ->
  Rs !! k = Some rows -> 0 <= r < rows ->
  zget (schedule Rs) (sumZ (take k Rs) + r) = Some (Z.of_nat k, r).
Proof.
  intros H Hk Hr. unfold schedule.
  rewrite (schedule_from_lookup Rs 0 k rows r) by done. by rewrite Z.add_0_l.
Qed.

Lemma prodN_nonneg (tl : list N) : 0 <= prodN tl.
Proof.
  unfold prodN. induction tl as [|n tl IH]; simpl; [done|].
  apply Z.mul_nonneg_nonneg; [apply N2Z.is_nonneg|done].
Qed.

(** *** Good files load *)

Lemma blob_fits_shape (rows : Z) (b : Blob) tl :
  blob_fits rows b tl -> shape b 0 = Ok rows /\ 1 <= num_axes b.
Proof.
  intros (Hs & _ & _). unfold shape, num_axes. rewrite Hs. simpl.
  split; [done|lia].
Qed.

Lemma good_file_read (p : LayerParameter) tails (f : H5File) rows :
  good_file p tails f rows ->
  exists blobs,
    read_blobs p f = Ok blobs
    /\ Forall2 (blob_fits rows) blobs tails
    /\ forall (j : nat) name,
         top p !! j = Some name ->
         exists d tl, datasets f !! name = Some d /\ tails !! j = Some tl
                      /\ good_dataset rows tl d
                      /\ blobs !! j = Some (mkBlob (Z.of_N <$> dims d) (values d) 0).
Proof.
  intros (Hrows & _ & Hsets). unfold read_blobs.
  induction Hsets as [|name tl names tails (d & Hd & Hdims & Hlen & Hmax) _
                       (blobs & Hb & Hfit & Hlook)].
  - exists []. split_and!; [done|constructor|]. intros j name. done.
  - exists (mkBlob (Z.of_N <$> dims d) (values d) 0 :: blobs). split_and!.
    + simpl. unfold hdf5_load_nd_dataset at 1. rewrite Hd.
      rewrite decide_True.
      2:{ unfold MIN_DATA_DIM, MAX_DATA_DIM. rewrite Hdims in *. simpl in *. lia. }
      simpl. rewrite Hb. done.
    + constructor; [|done]. unfold blob_fits. simpl.
      rewrite Hdims. simpl. rewrite Z2N.id by lia. done.
    + intros [|j] name'; simpl.
      * intros [= <-]. exists d, tl. done.
      * intros Hj. apply Hlook in Hj as (d' & tl' & ?). exists d', tl'. done.
Qed.

Lemma good_blobs_check (p : LayerParameter) tails blobs rows :
  top p <> [] -> length blobs = length (top p) ->
  Forall2 (blob_fits rows) blobs tails ->
  check_blobs p blobs = Ok rows.
Proof.
  intros Htop Hlen Hfit.
  destruct (check_blobs p blobs) as [num|e] eqn:Hc.
  - apply check_blobs_ok in Hc as (b0 & Hb0 & _ & Hs & _).
    destruct (Forall2_lookup_l _ _ _ _ _ Hfit Hb0) as (tl & _ & Hb).
    apply blob_fits_shape in Hb as [Hs' _]. congruence.
  - exfalso. assert (Hf : is_fatal (check_blobs p blobs)) by by exists e.
    apply check_blobs_fatal_iff in Hf; [|done..].
    destruct Hf as [(b0 & Hb0 & Hax)|(b0 & i & bi & Hb0 & _ & Hbi & Hne)].
    + destruct (Forall2_lookup_l _ _ _ _ _ Hfit Hb0) as (tl & _ & Hb).
      apply blob_fits_shape in Hb as [_ Hb]. lia.
    + destruct (Forall2_lookup_l _ _ _ _ _ Hfit Hb0) as (tl & _ & Hb).
      destruct (Forall2_lookup_l _ _ _ _ _ Hfit Hbi) as (tli & _ & Hb').
      apply blob_fits_shape in Hb as [Hb _].
      apply blob_fits_shape in Hb' as [Hb' _]. congruence.
Qed.

Lemma load_good (p : LayerParameter) (disk : Disk) tails name f rows l :
  shuffle p = false -> top p <> [] ->
  h5_files disk !! name = Some f ->
  good_file p tails f rows ->
  exists blobs,
    read_blobs p f = Ok blobs
    /\ LoadHDF5FileData p disk name l
       = Ok (mkLayer (hdf_filenames_ l) (num_files_ l) (current_file_ l)
                     (current_row_ l) blobs (seqZ 0 rows)
                     (file_permutation_ l) (data_transformer_ l) (rng_ l)).
Proof.
  intros Hsh Htop Hf Hgood.
  destruct (good_file_read p tails f rows Hgood) as (blobs & Hb & Hfit & _).
  exists blobs. split; [done|]. apply load_ok.
  exists f, blobs, rows. split_and!; [done|done| | |].
  - by destruct Hgood as (_ & Hc & _).
  - apply (good_blobs_check p tails); [done| |done].
    by eapply read_blobs_length.
  - by rewrite shuffle_if_needed_off.
Qed.

Lemma good_disk_lengths (p : LayerParameter) (disk : Disk) content files Rs tails :
  good_disk p disk content files Rs tails ->
  length (read_filenames content) = length files
  /\ length files = length Rs
  /\ Forall (fun r => 1 <= r) Rs
  /\ 1 <= sumZ Rs.
Proof.
  intros [_ Hn Hf _ Hs].
  split_and!.
  - by eapply Forall2_length.
  - by eapply Forall2_length.
  - clear -Hf. induction Hf as [|f r fs Rs (Hr & _) _ IH]; constructor; done.
  - destruct Hf as [|f r fs Rs (Hr & _) Hf]; [done|]. simpl.
    assert (0 <= sumZ Rs); [|lia].
    apply sumZ_nonneg. clear -Hf.
    induction Hf as [|f' r' fs Rs (Hr & _) _ IH]; constructor; [lia|done].
Qed.

Lemma Forall_ge1_nonneg (Rs : list Z) :
  Forall (fun r => 1 <= r) Rs -> Forall (fun r => 0 <= r) Rs.
Proof. induction 1; constructor; [lia|done]. Qed.

(** The blobs held under the cursor invariant are those of a good file. *)
Lemma good_disk_blobs (p : LayerParameter) (disk : Disk) content files Rs tails
    (k : nat) f rows blobs :
  good_disk p disk content files Rs tails ->
  files !! k = Some f -> Rs !! k = Some rows ->
  read_blobs p f = Ok blobs ->
  good_file p tails f rows
  /\ Forall2 (blob_fits rows) blobs tails
  /\ exists b0, blobs !! 0%nat = Some b0 /\ shape b0 0 = Ok rows.
Proof.
  intros Hd Hf Hr Hb.
  pose proof (Forall2_lookup_lr _ _ _ _ _ _ (good_files _ _ _ _ _ _ Hd) Hf Hr)
    as Hgood.
  destruct (good_file_read p tails f rows Hgood) as (blobs' & Hb' & Hfit & _).
  rewrite Hb in Hb'. injection Hb' as <-.
  split_and!; [done..|].
  apply read_blobs_length in Hb. pose proof (good_top _ _ _ _ _ _ Hd) as Htop.
  destruct blobs as [|b0 blobs]; [destruct (top p); simpl in *; done|].
  exists b0. split; [done|].
  destruct (Forall2_lookup_l _ _ _ 0%nat b0 Hfit eq_refl) as (tl & _ & Hfit0).
  by apply blob_fits_shape in Hfit0 as [? _].
Qed.

(** *** The cursor follows the schedule *)

(** Loading file [k'] of a good disk during a forward call. *)
Lemma reload_good (p : LayerParameter) (disk : Disk) content files Rs tails
    (k' : nat) f' rows' nf cr hb dp tr g :
  good_disk p disk content files Rs tails -> shuffle p = false ->
  files !! k' = Some f' -> Rs !! k' = Some rows' ->
  exists blobs,
    read_blobs p f' = Ok blobs
    /\ (do fi <- vec_get (seqZ 0 (Z.of_nat (length (read_filenames content))))
                         (Z.of_nat k');
        do name <- vec_get (read_filenames content) fi;
        LoadHDF5FileData p disk name
          (mkLayer (read_filenames content) nf (Z.of_nat k') cr hb dp
             (seqZ 0 (Z.of_nat (length (read_filenames content)))) tr g))
       = Ok (mkLayer (read_filenames content) nf (Z.of_nat k') cr blobs
               (seqZ 0 rows')
               (seqZ 0 (Z.of_nat (length (read_filenames content)))) tr g).
Proof.
  intros Hd Hsh Hf Hr.
  destruct (good_disk_lengths _ _ _ _ _ _ Hd) as (Hl1 & Hl2 & _ & _).
  pose proof (Forall2_lookup_lr _ _ _ _ _ _ (good_files _ _ _ _ _ _ Hd) Hf Hr)
    as Hgood.
  destruct (Forall2_lookup_r _ _ _ _ _ (good_names _ _ _ _ _ _ Hd) Hf)
    as (name & Hname & Hdisk).
  apply lookup_lt_Some in Hf as Hk.
  unfold vec_get at 1. rewrite zget_seqZ by lia. simpl. rewrite Z.add_0_l.
  unfold vec_get at 1.
  rewrite (proj2 (zget_Some (read_filenames content) (Z.of_nat k') name))
    by (rewrite Nat2Z.id; split; [lia|done]).
  simpl.
  destruct (load_good p disk tails name f' rows'
              (mkLayer (read_filenames content) nf (Z.of_nat k') cr hb dp
                 (seqZ 0 (Z.of_nat (length (read_filenames content)))) tr g)
              Hsh (good_top _ _ _ _ _ _ Hd) Hdisk Hgood) as (blobs & Hb & Hload).
  exists blobs. split; [done|]. rewrite Hload. done.
Qed.

Lemma rewind_good (p : LayerParameter) (disk : Disk) content files Rs tails
    pos l :
  good_disk p disk content files Rs tails -> shuffle p = false ->
  cursor_inv p (read_filenames content) files Rs pos l ->
  exists s,
    rewind p disk l = Ok s
    /\ selected_inv p (read_filenames content) files Rs pos s
    /\ data_transformer_ s = data_transformer_ l.
Proof.
  intros Hd Hsh (Hnames & Hnum & Hfp & k & f & rows & Hcf & Hf & Hr & Hb
                 & Hdp & Hcr & Hpos).
  destruct (good_disk_lengths _ _ _ _ _ _ Hd) as (Hl1 & Hl2 & Hge1 & HT).
  pose proof (Forall_ge1_nonneg _ Hge1) as Hnn.
  destruct (good_disk_blobs _ _ _ _ _ _ _ _ _ _ Hd Hf Hr Hb)
    as (Hgood & Hfit & b0 & Hb0 & Hs0).
  destruct (sumZ_take_lookup Rs k rows Hnn Hr) as [Hs1 Hs2].
  pose proof (sumZ_take_S Rs k rows Hr) as HsS.
  assert (Hrows : 1 <= rows) by (by destruct Hgood).
  apply lookup_lt_Some in Hf as Hk.
  unfold rewind.
  rewrite (proj2 (vec_get_ok (hdf_blobs_ l) 0 b0))
    by (apply zget_Some; split; [lia|done]).
  simpl. rewrite Hs0. simpl.
  case_decide as Hwrap.
  2:{ exists l. split; [done|]. split; [|done].
      split_and!; [done..|]. exists k, f, rows.
      split_and!; [done..|lia|lia|].
      rewrite <- Hpos. rewrite Z.mod_small; lia. }
  rewrite !shuffle_if_needed_off by done.
  case_decide as Hmany.
  - (* several files: load the next one *)
    assert (Hnext : exists (k' : nat) f' rows',
               files !! k' = Some f' /\ Rs !! k' = Some rows'
               /\ sumZ (take k' Rs) = pos mod sumZ Rs
               /\ (if decide (current_file_ l + 1 = num_files_ l)
                   then 0 else current_file_ l + 1) = Z.of_nat k').
    { case_decide as Hlast.
      - destruct (lookup_lt_is_Some_2 files 0) as [f' Hf']; [lia|].
        destruct (lookup_lt_is_Some_2 Rs 0) as [rows' Hr']; [lia|].
        exists 0%nat, f', rows'. split_and!; [done..| |done].
        simpl. rewrite <- Hpos, Hwrap, <- HsS.
        rewrite sumZ_take_all by lia. by rewrite Z.mod_same by lia.
      - destruct (lookup_lt_is_Some_2 files (S k)) as [f' Hf']; [lia|].
        destruct (lookup_lt_is_Some_2 Rs (S k)) as [rows' Hr']; [lia|].
        exists (S k), f', rows'. split_and!; [done..| |lia].
        destruct (sumZ_take_lookup Rs (S k) rows' Hnn Hr') as [Hs3 Hs4].
        pose proof (Forall_lookup_1 _ _ _ _ Hge1 Hr') as Hrows'. simpl in Hrows'.
        rewrite <- Hpos, Hwrap, <- HsS. rewrite Z.mod_small; lia. }
    destruct Hnext as (k' & f' & rows' & Hf' & Hr' & Hsum & Hk').
    destruct (reload_good p disk content files Rs tails k' f' rows'
                (num_files_ l) (current_row_ l) (hdf_blobs_ l)
                (data_permutation_ l) (data_transformer_ l) (rng_ l)
                Hd Hsh Hf' Hr') as (blobs & Hb' & Hload).
    pose proof (Forall_lookup_1 _ _ _ _ Hge1 Hr') as Hrows'. simpl in Hrows'.
    exists (mkLayer (read_filenames content) (num_files_ l) (Z.of_nat k') 0
              blobs (seqZ 0 rows')
              (seqZ 0 (Z.of_nat (length (read_filenames content))))
              (data_transformer_ l) (rng_ l)).
    split.
    + revert Hk'.
      destruct (decide (current_file_ l + 1 = num_files_ l)); intros Hk'; simpl;
        rewrite <- Hk' in Hload |- *; rewrite Hfp, Hnames, Hload; simpl;
        rewrite shuffle_if_needed_off by done; reflexivity.
    + simpl. split; [|done]. split_and!; [done..|].
      exists k', f', rows'. simpl. split_and!; [done..|lia|lia|lia].
  - (* a single file: start again at row 0 *)
    simpl. rewrite shuffle_if_needed_off by done.
    eexists. split; [reflexivity|]. simpl. split; [|done].
    split_and!; [done..|].
    assert (k = 0%nat) as -> by lia.
    exists 0%nat, f, rows. simpl. split_and!; [done..|lia|lia|].
    rewrite <- Hpos, Hwrap, <- HsS.
    rewrite sumZ_take_all by lia. by rewrite Z.mod_same by lia.
Qed.

Lemma selected_inv_lookup (p : LayerParameter) names files Rs pos s :
  Forall (fun r => 0 <= r) Rs ->
  length names = length files ->
  selected_inv p names files Rs pos s ->
  exists (k : nat) f rows,
    files !! k = Some f /\ Rs !! k = Some rows
    /\ read_blobs p f = Ok (hdf_blobs_ s)
    /\ 0 <= current_row_ s < rows
    /\ zget (schedule Rs) (pos mod sumZ Rs) = Some (Z.of_nat k, current_row_ s)
    /\ zget (file_permutation_ s) (current_file_ s) = Some (Z.of_nat k)
    /\ zget (data_permutation_ s) (current_row_ s) = Some (current_row_ s).
Proof.
  intros Hnn Hlen (Hnames & Hnum & Hfp & k & f & rows & Hcf & Hf & Hr & Hb & Hdp
                   & Hcr & Hpos).
  exists k, f, rows. do 4 (split; [done|]). split; [|split].
  - rewrite <- Hpos. by apply (schedule_lookup Rs k rows).
  - rewrite Hfp, Hcf. apply lookup_lt_Some in Hf.
    rewrite zget_seqZ by lia. f_equal; lia.
  - rewrite Hdp. rewrite zget_seqZ by lia. f_equal; lia.
Qed.

Lemma emit_sample_cursor (p : LayerParameter) (disk : Disk) content files Rs
    tails pos i l tops l' tops' :
  good_disk p disk content files Rs tails -> shuffle p = false ->
  cursor_inv p (read_filenames content) files Rs pos l ->
  emit_sample p disk i (l, tops) = Ok (l', tops') ->
  cursor_inv p (read_filenames content) files Rs (pos + 1) l'.
Proof.
  intros Hd Hsh Hinv (s & r & Hs & _ & -> & _)%emit_sample_ok.
  destruct (rewind_good p disk content files Rs tails pos l Hd Hsh Hinv)
    as (s' & Hs' & Hsel & _).
  rewrite Hs in Hs'. injection Hs' as <-.
  destruct Hsel as (Hnames & Hnum & Hfp & k & f & rows & Hcf & Hf & Hr & Hb
                    & Hdp & Hcr & Hpos).
  split_and!; [done..|]. exists k, f, rows. simpl.
  split_and!; [done..|lia|lia|].
  rewrite Z.add_assoc, Hpos. by rewrite Z.add_mod_idemp_l by
    (destruct (good_disk_lengths _ _ _ _ _ _ Hd) as (_ & _ & _ & ?); lia).
Qed.

Lemma emit_samples_cursor (p : LayerParameter) (disk : Disk) content files Rs
    tails pos n l tops l' tops' :
  good_disk p disk content files Rs tails -> shuffle p = false ->
  cursor_inv p (read_filenames content) files Rs pos l ->
  foldM (emit_sample p disk) (seqZ 0 n) (l, tops) = Ok (l', tops') ->
  cursor_inv p (read_filenames content) files Rs (pos + Z.max n 0) l'.
Proof.
  intros Hd Hsh Hinv Hf.
  apply (for_seqZ_inv_ok
           (fun k acc => cursor_inv p (read_filenames content) files Rs
                           (pos + k) acc.1)) in Hf.
  - by rewrite Z.add_0_l in Hf.
  - simpl. by rewrite Z.add_0_r.
  - intros k [l1 t1] [l2 t2] _ H1 H2. simpl in *.
    rewrite Z.add_assoc. by eapply emit_sample_cursor.
Qed.

Lemma Forward_n_cursor (p : LayerParameter) (disk : Disk) content files Rs
    tails n l tops l' tops' :
  good_disk p disk content files Rs tails -> shuffle p = false ->
  0 <= batch_size p ->
  cursor_inv p (read_filenames content) files Rs 0 l ->
  Forward_n p disk n l tops = Ok (l', tops') ->
  cursor_inv p (read_filenames content) files Rs
    (Z.of_nat n * batch_size p) l'.
Proof.
  intros Hd Hsh HB Hinv. revert l' tops'.
  induction n as [|n IH]; intros l' tops'; simpl.
  - intros [= <- <-]. done.
  - intros ([l1 t1] & H1 & H2)%bind_ok. simpl in H2.
    apply IH in H1. unfold Forward_cpu, for_range in H2.
    apply (emit_samples_cursor _ _ _ _ _ _ _ _ _ _ _ _ Hd Hsh H1) in H2.
    replace (Z.of_nat (S n) * batch_size p)
      with (Z.of_nat n * batch_size p + Z.max (batch_size p) 0) by lia.
    done.
Qed.

(** *** Off the image path the forward call never fails *)

Lemma blob_fits_data_dim (b : Z) (t : Blob) tl :
  blob_fits b t tl -> b <> 0 -> data_dim_of t = Ok (prodN tl).
Proof.
  intros (Hs & _ & _) Hb. by rewrite (data_dim_of_ok t b (Z.of_N <$> tl)).
Qed.

Lemma copy_row_good (p : LayerParameter) tails rows s i (j : nat) tops :
  Forall2 (blob_fits rows) (hdf_blobs_ s) tails ->
  data_permutation_ s = seqZ 0 rows ->
  0 <= current_row_ s < rows ->
  tops_inv p tails tops ->
  0 <= i < batch_size p ->
  (j < length tails)%nat ->
  exists tops',
    copy_row s i (Z.of_nat j) tops = Ok tops' /\ tops_inv p tails tops'.
Proof.
  intros Hblobs Hdp Hcr Htops Hi Hj.
  destruct (lookup_lt_is_Some_2 tails j Hj) as [tl Htl].
  destruct (Forall2_lookup_r _ _ _ _ _ Htops Htl) as (t & Ht & Hfit).
  destruct (Forall2_lookup_r _ _ _ _ _ Hblobs Htl) as (hb & Hhb & Hfitb).
  pose proof (prodN_nonneg tl) as Hdd.
  pose proof (blob_fits_data_dim _ _ _ Hfit ltac:(lia)) as Hdim.
  destruct Hfit as (Hts & Htp & Htl').
  destruct Hfitb as (Hbs & Hbp & Hbl).
  unfold copy_row.
  rewrite (proj2 (vec_get_ok tops (Z.of_nat j) t))
    by (apply zget_Some; rewrite Nat2Z.id; split; [lia|done]).
  simpl. rewrite Hdim. simpl.
  rewrite (proj2 (vec_get_ok (hdf_blobs_ s) (Z.of_nat j) hb))
    by (apply zget_Some; rewrite Nat2Z.id; split; [lia|done]).
  simpl. rewrite Hdp. unfold vec_get at 1. rewrite zget_seqZ by lia. simpl.
  unfold caffe_copy, cpu_data, mutable_cpu_data. rewrite Hbp, Htp.
  set (dd := prodN tl) in *. set (cr := current_row_ s) in *.
  destruct (run_read (blob_mem hb) (0 + (0 + cr) * dd) dd) as [vs|e] eqn:Hvs.
  2:{ unfold run_read in Hvs. rewrite decide_True in Hvs by nia. done. }
  simpl. pose proof (run_read_length _ _ _ _ Hvs) as Hlen.
  destruct (run_write (blob_mem t) (0 + i * dd) vs) as [m|e] eqn:Hm.
  2:{ unfold run_write in Hm. rewrite decide_True in Hm by nia. done. }
  simpl. apply lookup_lt_Some in Ht as Hjt.
  unfold vec_set. rewrite decide_True by lia. rewrite Nat2Z.id.
  eexists. split; [done|].
  unfold tops_inv. rewrite <- (list_insert_id tails j tl Htl).
  apply Forall2_insert; [done|].
  split_and!; [done..|]. simpl.
  rewrite (run_write_length _ _ _ _ Hm). done.
Qed.

Lemma fill_tops_good (p : LayerParameter) tails rows s i tr tops :
  Forall2 (blob_fits rows) (hdf_blobs_ s) tails ->
  length (hdf_blobs_ s) = length (top p) ->
  data_permutation_ s = seqZ 0 rows ->
  0 <= current_row_ s < rows ->
  tops_inv p tails tops ->
  image_path p = false ->
  0 <= i < batch_size p ->
  exists tops',
    fill_tops p s i (tr, tops) = Ok (tr, tops') /\ tops_inv p tails tops'.
Proof.
  intros Hblobs Hlen Hdp Hcr Htops Hpath Hi.
  rewrite fill_tops_rounds. unfold for_range.
  destruct (for_seqZ_inv (fun _ acc => acc.1 = tr /\ tops_inv p tails acc.2)
              (fill_round p s i) 0 (top_size p) (tr, tops))
    as ([tr' tops'] & Hf & Htr & Hinv); [done| |].
  - intros j [tr1 tops1] Hj [Htr1 Hinv1]. simpl in *. subst tr1.
    unfold fill_round. rewrite Hpath. simpl.
    pose proof (Forall2_length _ _ _ Hblobs) as Hbl. unfold top_size in Hj.
    destruct (copy_row_good p tails rows s i (Z.to_nat j) tops1)
      as (tops2 & Hc & Hinv2); [done..|lia|].
    rewrite Z2Nat.id in Hc by lia. rewrite Hc. simpl. eauto.
  - simpl in *. subst tr'. eauto.
Qed.

Lemma emit_sample_good (p : LayerParameter) (disk : Disk) content files Rs
    tails pos i l tops :
  good_disk p disk content files Rs tails -> shuffle p = false ->
  image_path p = false ->
  0 <= i < batch_size p ->
  cursor_inv p (read_filenames content) files Rs pos l ->
  tops_inv p tails tops ->
  exists l' tops',
    emit_sample p disk i (l, tops) = Ok (l', tops')
    /\ cursor_inv p (read_filenames content) files Rs (pos + 1) l'
    /\ tops_inv p tails tops'.
Proof.
  intros Hd Hsh Hpath Hi Hinv Htops.
  destruct (rewind_good p disk content files Rs tails pos l Hd Hsh Hinv)
    as (s & Hs & Hsel & _).
  pose proof Hsel as (_ & _ & _ & k & f & rows & _ & Hf & Hr & Hb & Hdp & Hcr & _).
  destruct (good_disk_blobs _ _ _ _ _ _ _ _ _ _ Hd Hf Hr Hb) as (_ & Hfit & _).
  destruct (fill_tops_good p tails rows s i (data_transformer_ s) tops)
    as (tops' & Hfill & Htops'); [done|by eapply read_blobs_length|done..|].
  assert (He : emit_sample p disk i (l, tops)
               = Ok (mkLayer (hdf_filenames_ s) (num_files_ s) (current_file_ s)
                       (current_row_ s + 1) (hdf_blobs_ s)
                       (data_permutation_ s) (file_permutation_ s)
                       (data_transformer_ s) (rng_ s), tops')).
  { apply emit_sample_ok. exists s, (data_transformer_ s, tops'). done. }
  eexists _, _. split; [exact He|]. split; [|done].
  by eapply emit_sample_cursor.
Qed.

Lemma Forward_cpu_good (p : LayerParameter) (disk : Disk) content files Rs
    tails pos l tops :
  good_disk p disk content files Rs tails -> shuffle p = false ->
  image_path p = false ->
  0 <= batch_size p ->
  cursor_inv p (read_filenames content) files Rs pos l ->
  tops_inv p tails tops ->
  exists l' tops',
    Forward_cpu p disk l tops = Ok (l', tops')
    /\ cursor_inv p (read_filenames content) files Rs (pos + batch_size p) l'
    /\ tops_inv p tails tops'.
Proof.
  intros Hd Hsh Hpath HB Hinv Htops. unfold Forward_cpu, for_range.
  destruct (for_seqZ_inv
              (fun i acc => cursor_inv p (read_filenames content) files Rs
                              (pos + i) acc.1 /\ tops_inv p tails acc.2)
              (emit_sample p disk) 0 (batch_size p) (l, tops))
    as ([l' tops'] & Hf & Hinv' & Htops').
  - simpl. by rewrite Z.add_0_r.
  - intros i [l1 t1] Hi [H1 H2]. simpl in *.
    destruct (emit_sample_good p disk content files Rs tails (pos + i) i l1 t1)
      as (l2 & t2 & He & Hc & Ht); [done..|lia|done|done|].
    exists (l2, t2). simpl. by rewrite Z.add_assoc.
  - exists l', tops'. simpl in *. split; [done|]. split; [|done].
    by replace (pos + batch_size p)
      with (pos + (0 + Z.max (batch_size p) 0)) by lia.
Qed.

Lemma Forward_n_good (p : LayerParameter) (disk : Disk) content files Rs
    tails n l tops :
  good_disk p disk content files Rs tails -> shuffle p = false ->
  image_path p = false ->
  0 <= batch_size p ->
  cursor_inv p (read_filenames content) files Rs 0 l ->
  tops_inv p tails tops ->
  exists l' tops',
    Forward_n p disk n l tops = Ok (l', tops')
    /\ cursor_inv p (read_filenames content) files Rs
         (Z.of_nat n * batch_size p) l'
    /\ tops_inv p tails tops'.
Proof.
  intros Hd Hsh Hpath HB Hinv Htops.
  induction n as [|n (l1 & t1 & H1 & Hc1 & Ht1)]; simpl.
  - exists l, tops. done.
  - rewrite H1. simpl.
    destruct (Forward_cpu_good p disk content files Rs tails _ l1 t1
                Hd Hsh Hpath HB Hc1 Ht1) as (l2 & t2 & H2 & Hc2 & Ht2).
    exists l2, t2. split; [done|]. split; [|done].
    by replace (Z.of_nat (S n) * batch_size p)
      with (Z.of_nat n * batch_size p + batch_size p) by lia.
Qed.

(** *** Setup on a good disk *)

Lemma reshape_top_total (p : LayerParameter) l i ts tops b t :
  zget (hdf_blobs_ l) i = Some b -> 1 <= num_axes b ->
  zget tops i = Some t ->
  is_ok (reshape_top p l i (ts, tops)).
Proof.
  intros Hb Hax Ht. unfold reshape_top.
  rewrite (proj2 (vec_get_ok _ _ _) Hb). simpl.
  unfold vec_resize, num_axes in *.
  unfold vec_set at 1. rewrite decide_True by (rewrite length_resize; lia).
  simpl.
  destruct (for_seqZ_inv
              (fun _ v => length v = length (blob_shape b))
              (fun j v => do d <- shape b j; vec_set v j d)
              1 (Z.of_nat (length (<[Z.to_nat 0:=batch_size p]>
                                     (resize (Z.to_nat (Z.of_nat (length (blob_shape b)))) 0 ts))) - 1)
              (<[Z.to_nat 0:=batch_size p]>
                 (resize (Z.to_nat (Z.of_nat (length (blob_shape b)))) 0 ts)))
    as (ts' & Hts' & _).
  - by rewrite length_insert, length_resize, Nat2Z.id.
  - intros j v Hj Hv.
    rewrite length_insert, length_resize, Nat2Z.id in Hj.
    destruct (zget_lt (blob_shape b) j) as [d Hd]; [lia|].
    rewrite (proj2 (shape_ok b j d) Hd). simpl.
    unfold vec_set. rewrite decide_True by lia.
    eexists. split; [done|]. by rewrite length_insert.
  - rewrite Hts'. simpl. rewrite (proj2 (vec_get_ok _ _ _) Ht). simpl.
    apply zget_bound in Ht. unfold vec_set. rewrite decide_True by lia.
    by eexists.
Qed.

Lemma Reshape_fits (t : Blob) (b : Z) tl :
  0 <= b -> blob_fits b (Reshape t (b :: (Z.of_N <$> tl))) tl.
Proof.
  intros Hb. unfold blob_fits, Reshape. simpl. split_and!; [done..|].
  rewrite length_replicate. fold (prodN tl).
  pose proof (prodN_nonneg tl). nia.
Qed.

Lemma reshape_tops_good (p : LayerParameter) tails rows l tops :
  Forall2 (blob_fits rows) (hdf_blobs_ l) tails ->
  length tops = length tails ->
  top_size p = Z.of_nat (length tails) ->
  0 <= batch_size p ->
  exists r,
    for_range (top_size p) (reshape_top p l) ([], tops) = Ok r
    /\ tops_inv p tails r.2.
Proof.
  intros Hblobs Hlen Hsize HB. unfold for_range.
  destruct (for_seqZ_inv
              (fun i acc =>
                 length acc.2 = length tails
                 /\ forall (j : nat) tl, Z.of_nat j < i -> tails !! j = Some tl ->
                      exists t, acc.2 !! j = Some t
                                /\ blob_fits (batch_size p) t tl)
              (reshape_top p l) 0 (top_size p) ([], tops))
    as ([ts' tops'] & Hf & Hl & Hfit).
  - simpl. split; [done|]. intros j tl Hj. lia.
  - intros i [ts tops1] Hi [Hl1 Hfit1]. simpl in *.
    destruct (lookup_lt_is_Some_2 tails (Z.to_nat i)) as [tl Htl]; [lia|].
    destruct (Forall2_lookup_r _ _ _ _ _ Hblobs Htl) as (b & Hb & Hfitb).
    destruct (lookup_lt_is_Some_2 tops1 (Z.to_nat i)) as [t Ht]; [lia|].
    assert (Hzb : zget (hdf_blobs_ l) i = Some b)
      by (apply zget_Some; split; [lia|done]).
    assert (Hzt : zget tops1 i = Some t)
      by (apply zget_Some; split; [lia|done]).
    pose proof (blob_fits_shape _ _ _ Hfitb) as [_ Hax].
    destruct (reshape_top_total p l i ts tops1 b t Hzb Hax Hzt)
      as ([ts2 tops2] & Hr).
    exists (ts2, tops2). split; [done|].
    apply reshape_top_ok in Hr
      as (b' & t' & d0 & rest & Hb' & Ht' & Hsh & -> & ->).
    rewrite Hzb in Hb'. injection Hb' as <-.
    rewrite Hzt in Ht'. injection Ht' as <-.
    destruct Hfitb as (Hbs & _ & _). rewrite Hbs in Hsh.
    injection Hsh as <- <-. simpl.
    split; [by rewrite length_insert|].
    intros j tl' Hj Htl'.
    destruct (decide (j = Z.to_nat i)) as [->|Hne].
    + rewrite Htl in Htl'. injection Htl' as <-.
      rewrite list_lookup_insert_eq by lia.
      eexists. split; [done|]. by apply Reshape_fits.
    + rewrite list_lookup_insert_ne by lia. apply Hfit1; [lia|done].
  - exists (ts', tops'). split; [done|]. simpl in *.
    apply Forall2_same_length_lookup_2; [done|].
    intros j t tl Ht Htl.
    destruct (Hfit j tl) as (t' & Ht' & Hfit').
    + apply lookup_lt_Some in Htl. lia.
    + done.
    + rewrite Ht in Ht'. by injection Ht' as <-.
Qed.

Lemma setup_good (p : LayerParameter) (disk : Disk) content files Rs tails
    g tops :
  good_disk p disk content files Rs tails -> shuffle p = false ->
  length tops = length (top p) ->
  0 <= batch_size p ->
  exists l0 tops0,
    LayerSetUp p disk g tops = Ok (l0, tops0)
    /\ cursor_inv p (read_filenames content) files Rs 0 l0
    /\ tops_inv p tails tops0
    /\ data_transformer_ l0 = new_DataTransformer.
Proof.
  intros Hd Hsh Hlen HB.
  destruct (good_disk_lengths _ _ _ _ _ _ Hd) as (Hl1 & Hl2 & Hge1 & HT).
  pose proof (good_some _ _ _ _ _ _ Hd) as Hsome.
  destruct files as [|f0 files'] eqn:Hfiles; [done|]. rewrite <- Hfiles in *.
  assert (Hf0 : files !! 0%nat = Some f0) by by rewrite Hfiles.
  destruct (lookup_lt_is_Some_2 Rs 0) as [rows Hr0];
    [rewrite <- Hl2, Hfiles; simpl; lia|].
  destruct (reload_good p disk content files Rs tails 0 f0 rows
              (Z.of_nat (length (read_filenames content))) 0 [] []
              new_DataTransformer g Hd Hsh Hf0 Hr0) as (blobs & Hb & Hload).
  destruct (good_disk_blobs _ _ _ _ _ _ _ _ _ _ Hd Hf0 Hr0 Hb)
    as (Hgood & Hfit & _).
  pose proof (Forall_lookup_1 _ _ _ _ Hge1 Hr0) as Hrows. simpl in Hrows.
  set (l0 := mkLayer (read_filenames content)
               (Z.of_nat (length (read_filenames content))) 0 0 blobs
               (seqZ 0 rows)
               (seqZ 0 (Z.of_nat (length (read_filenames content))))
               new_DataTransformer g).
  destruct (reshape_tops_good p tails rows l0 tops) as (r & Hr & Htops).
  { done. }
  { rewrite Hlen, <- (read_blobs_length _ _ _ Hb). by eapply Forall2_length. }
  { unfold top_size. rewrite <- (read_blobs_length _ _ _ Hb).
    f_equal. by eapply Forall2_length. }
  { done. }
  exists l0, r.2. split; [|split; [|split; [done|done]]].
  - unfold LayerSetUp, read_source.
    rewrite (good_source _ _ _ _ _ _ Hd).
    replace (1 <=? Z.of_nat (length (read_filenames content))) with true
      by (symmetry; apply Z.leb_le; rewrite Hl1, Hfiles; simpl; lia).
    simpl. rewrite identity_permutation_ok. simpl.
    rewrite shuffle_if_needed_off by done. simpl.
    change (Z.of_nat 0) with 0 in Hload.
    apply bind_ok in Hload as (fi & Hfi & (name & Hname & Hload)%bind_ok).
    rewrite Hfi. simpl. rewrite Hname. simpl. rewrite Hload. simpl.
    fold l0. rewrite Hr. done.
  - split_and!; [done..|]. exists 0%nat, f0, rows. simpl.
    split_and!; [done..|lia|lia|done].
Qed.

(** *** The stream on a good disk *)

Lemma stream_selection (p : LayerParameter) (disk : Disk) content files Rs
    tails l0 tops0 n i ln topsn li topsi s :
  good_disk p disk content files Rs tails -> shuffle p = false ->
  1 <= batch_size p ->
  cursor_inv p (read_filenames content) files Rs 0 l0 ->
  Forward_n p disk n l0 tops0 = Ok (ln, topsn) ->
  0 <= i < batch_size p ->
  foldM (emit_sample p disk) (seqZ 0 i) (ln, topsn) = Ok (li, topsi) ->
  rewind p disk li = Ok s ->
  exists (k : nat) f rows,
    files !! k = Some f /\ Rs !! k = Some rows
    /\ read_blobs p f = Ok (hdf_blobs_ s)
    /\ 0 <= current_row_ s < rows
    /\ zget (schedule Rs) ((Z.of_nat n * batch_size p + i) mod sumZ Rs)
       = Some (Z.of_nat k, current_row_ s)
    /\ zget (file_permutation_ s) (current_file_ s) = Some (Z.of_nat k)
    /\ zget (data_permutation_ s) (current_row_ s) = Some (current_row_ s).
Proof.
  intros Hd Hsh HB Hinv Hn Hi Hpre Hs.
  destruct (good_disk_lengths _ _ _ _ _ _ Hd) as (Hl1 & Hl2 & Hge1 & HT).
  apply (Forward_n_cursor _ _ _ _ _ _ _ _ _ _ _ Hd Hsh ltac:(lia) Hinv) in Hn.
  apply (emit_samples_cursor _ _ _ _ _ _ _ _ _ _ _ _ Hd Hsh Hn) in Hpre.
  replace (Z.max i 0) with i in Hpre by lia.
  destruct (rewind_good _ _ _ _ _ _ _ _ Hd Hsh Hpre) as (s' & Hs' & Hsel & _).
  rewrite Hs in Hs'. injection Hs' as <-.
  apply (selected_inv_lookup p _ files Rs _ s (Forall_ge1_nonneg _ Hge1) Hl1 Hsel).
Qed.

Lemma stream_data (p : LayerParameter) (disk : Disk) content files Rs
    tails l0 tops0 n :
  good_disk p disk content files Rs tails -> shuffle p = false ->
  image_path p = false ->
  1 <= batch_size p ->
  cursor_inv p (read_filenames content) files Rs 0 l0 ->
  tops_inv p tails tops0 ->
  exists ln topsn,
    Forward_n p disk (S n) l0 tops0 = Ok (ln, topsn)
    /\ forall i (j : nat) name,
         0 <= i < batch_size p -> top p !! j = Some name ->
         exists (k : nat) r f d t dd,
           zget (schedule Rs) ((Z.of_nat n * batch_size p + i) mod sumZ Rs)
           = Some (Z.of_nat k, r)
           /\ files !! k = Some f
           /\ datasets f !! name = Some d
           /\ topsn !! j = Some t
           /\ data_dim_of t = Ok dd
           /\ slot t i = Ok (row_of (values d) r dd).
Proof.
  intros Hd Hsh Hpath HB Hinv Htops.
  destruct (Forward_n_good p disk content files Rs tails n l0 tops0
              Hd Hsh Hpath ltac:(lia) Hinv Htops) as (l1 & t1 & Hn & Hc1 & Ht1).
  destruct (Forward_cpu_good p disk content files Rs tails _ l1 t1
              Hd Hsh Hpath ltac:(lia) Hc1 Ht1) as (l2 & t2 & Hfw & _ & Ht2).
  exists l2, t2. split; [simpl; rewrite Hn; done|].
  intros i j name Hi Hname.
  (* output [j] before the call *)
  assert (Hjt : (j < length tails)%nat).
  { destruct Hc1 as (_ & _ & _ & k & f & rows & _ & Hf & Hr & Hb & _).
    destruct (good_disk_blobs _ _ _ _ _ _ _ _ _ _ Hd Hf Hr Hb) as (_ & Hfit & _).
    rewrite <- (Forall2_length _ _ _ Hfit), (read_blobs_length _ _ _ Hb).
    by eapply lookup_lt_Some. }
  destruct (lookup_lt_is_Some_2 tails j Hjt) as [tl Htl].
  destruct (Forall2_lookup_r _ _ _ _ _ Ht1 Htl) as (t0 & Ht0 & Hfit0).
  pose proof (blob_fits_shape _ _ _ Hfit0) as [Hsh0 _].
  destruct (forward_copies_row p disk l1 t1 l2 t2 i (Z.of_nat j) t0)
    as (li & topsi & s & hb & row & dd & vs & t' & Hpre & Hs & Hhb & Hrow
        & Hdd & Hvs & Ht' & Hv & Hslot); [done|done| |by left| |done|].
  { apply lookup_lt_Some in Hname. unfold top_size. lia. }
  { apply zget_Some. rewrite Nat2Z.id. split; [lia|done]. }
  destruct (stream_selection p disk content files Rs tails l0 tops0 n i l1 t1
              li topsi s Hd Hsh HB Hinv Hn Hi Hpre Hs)
    as (k & f & rows & Hf & Hr & Hb & Hcr & Hsched & _ & Hperm).
  rewrite Hperm in Hrow. injection Hrow as <-.
  apply zget_Some in Hhb as [_ Hhb]. rewrite Nat2Z.id in Hhb.
  destruct (read_blobs_lookup _ _ _ _ _ Hb Hhb) as (name' & d & Hname' & Hds & ->).
  rewrite Hname in Hname'. injection Hname' as <-.
  apply zget_Some in Ht' as [_ Ht']. rewrite Nat2Z.id in Ht'.
  assert (Hdd' : data_dim_of t' = Ok dd).
  { rewrite (data_dim_of_same_view _ _ Hv). unfold data_dim_of.
    by rewrite Hsh0. }
  exists k, (current_row_ s), f, d, t', dd.
  split_and!; [done..|].
  unfold slot. rewrite Hdd'. simpl. rewrite Hslot. f_equal.
  apply run_read_ok in Hvs as [_ ->]. unfold row_of, cpu_data. simpl.
  by rewrite Z.add_0_l.
Qed.

(** C1.  With shuffle off, on a disk whose manifest names several data files
    that load, have at least one row each and agree on the dimensions of
    their rows, setup succeeds and the sample taken at place [i] of forward
    call [n + 1] is entry [(n * batch_size + i) mod T] of the schedule
    "rows of file 0 in order, rows of file 1 in order, ..." ([T] its
    length), whatever the batch size.  This holds for every sample the run
    reaches, and off the image path every forward call is reached and slot
    [i] of every output then holds that row of that file.  In scenario S2
    (files of 3 and 2 rows, batch size 2) four forward calls give [10,11],
    [12,20], [21,10], [11,12]. *)
Theorem stream_over_files :
  (forall (p : LayerParameter) (disk : Disk) content files Rs tails g tops,
     good_disk p disk content files Rs tails ->
     shuffle p = false ->
     (1 < length files)%nat ->
     length tops = length (top p) ->
     1 <= batch_size p ->
     exists l0 tops0,
       LayerSetUp p disk g tops = Ok (l0, tops0)
       /\ (forall n i ln topsn li topsi s,
             Forward_n p disk n l0 tops0 = Ok (ln, topsn) ->
             0 <= i < batch_size p ->
             foldM (emit_sample p disk) (seqZ 0 i) (ln, topsn) = Ok (li, topsi) ->
             rewind p disk li = Ok s ->
             exists (k : nat) f r,
               zget (schedule Rs)
                    ((Z.of_nat n * batch_size p + i) mod sumZ Rs)
               = Some (Z.of_nat k, r)
               /\ zget (file_permutation_ s) (current_file_ s) = Some (Z.of_nat k)
               /\ zget (data_permutation_ s) (current_row_ s) = Some r
               /\ files !! k = Some f
               /\ read_blobs p f = Ok (hdf_blobs_ s))
       /\ (image_path p = false ->
           forall n, exists ln topsn,
             Forward_n p disk (S n) l0 tops0 = Ok (ln, topsn)
             /\ forall i (j : nat) name,
                  0 <= i < batch_size p -> top p !! j = Some name ->
                  exists (k : nat) r f d t dd,
                    zget (schedule Rs)
                         ((Z.of_nat n * batch_size p + i) mod sumZ Rs)
                    = Some (Z.of_nat k, r)
                    /\ files !! k = Some f
                    /\ datasets f !! name = Some d
                    /\ topsn !! j = Some t
                    /\ data_dim_of t = Ok dd
                    /\ slot t i = Ok (row_of (values d) r dd)))
  /\ (let s2 := @run example_runtime (Examples.data_only 2) Examples.s2_disk tt
                  [Examples.fresh_top] in
      outputs (s2 1%nat) = Ok [[10; 11]]
      /\ outputs (s2 2%nat) = Ok [[12; 20]]
      /\ outputs (s2 3%nat) = Ok [[21; 10]]
      /\ outputs (s2 4%nat) = Ok [[11; 12]]).
Proof.
  split.
  - intros p disk content files Rs tails g tops Hd Hsh _ Hlen HB.
    destruct (setup_good p disk content files Rs tails g tops Hd Hsh Hlen
                ltac:(lia)) as (l0 & tops0 & H0 & Hinv & Htops & _).
    exists l0, tops0. split; [done|]. split.
    + intros n i ln topsn li topsi s Hn Hi Hpre Hs.
      destruct (stream_selection p disk content files Rs tails l0 tops0 n i
                  ln topsn li topsi s Hd Hsh HB Hinv Hn Hi Hpre Hs)
        as (k & f & rows & Hf & Hr & Hb & Hcr & Hsched & Hfp & Hperm).
      exists k, f, (current_row_ s). done.
    + intros Hpath n.
      by apply (stream_data p disk content files Rs tails).
  - simpl. split_and!; vm_compute; reflexivity.
Qed.

(** *** A single file *)

Lemma rewind_single (p : LayerParameter) (disk disk' : Disk) l :
  num_files_ l <= 1 -> rewind p disk' l = rewind p disk l.
Proof.
  intros Hn. unfold rewind.
  destruct (vec_get (hdf_blobs_ l) 0) as [b0|]; simpl; [|done].
  destruct (shape b0 0) as [rows|]; simpl; [|done].
  case_decide; [|done]. rewrite !decide_False by lia. done.
Qed.

Lemma emit_sample_single (p : LayerParameter) (disk disk' : Disk) i l tops :
  num_files_ l <= 1 ->
  emit_sample p disk' i (l, tops) = emit_sample p disk i (l, tops).
Proof. intros Hn. unfold emit_sample. by rewrite (rewind_single p disk disk'). Qed.

Lemma emit_sample_num_files (p : LayerParameter) (disk : Disk) i l tops l' tops' :
  num_files_ l <= 1 ->
  emit_sample p disk i (l, tops) = Ok (l', tops') ->
  num_files_ l' = num_files_ l.
Proof.
  intros Hn (s & r & Hs & _ & -> & _)%emit_sample_ok. simpl.
  apply rewind_ok in Hs as (rows & _ & [[_ ->]|(_ & l1 & [(? & _)|[_ ->]] & ->)]);
    [done|lia|done].
Qed.

Lemma emit_samples_single (p : LayerParameter) (disk disk' : Disk) xs l tops :
  num_files_ l <= 1 ->
  foldM (emit_sample p disk') xs (l, tops)
  = foldM (emit_sample p disk) xs (l, tops)
  /\ forall l' tops',
       foldM (emit_sample p disk) xs (l, tops) = Ok (l', tops') ->
       num_files_ l' <= 1.
Proof.
  revert l tops. induction xs as [|i xs IH]; intros l tops Hn; cbn [foldM].
  - split; [done|]. intros l' tops' [= <- <-]. done.
  - rewrite (emit_sample_single p disk disk') by done.
    destruct (emit_sample p disk i (l, tops)) as [[l1 t1]|e] eqn:He;
      cbn [bind]; [|done].
    apply emit_sample_num_files in He; [|done].
    apply IH. lia.
Qed.

Lemma Forward_n_single (p : LayerParameter) (disk disk' : Disk) n l tops :
  num_files_ l <= 1 ->
  Forward_n p disk' n l tops = Forward_n p disk n l tops
  /\ forall l' tops',
       Forward_n p disk n l tops = Ok (l', tops') -> num_files_ l' <= 1.
Proof.
  intros Hn. induction n as [|n [IH1 IH2]]; simpl.
  - split; [done|]. intros l' tops' [= <- <-]. done.
  - rewrite IH1.
    destruct (Forward_n p disk n l tops) as [[l1 t1]|e]; simpl; [|done].
    unfold Forward_cpu, for_range.
    apply emit_samples_single. by eapply IH2.
Qed.

Lemma schedule_single (rows pos : Z) k r :
  1 <= rows ->
  zget (schedule [rows]) (pos mod sumZ [rows]) = Some (k, r) ->
  k = 0 /\ r = pos mod rows.
Proof.
  intros Hrows. simpl. rewrite Z.add_0_r.
  pose proof (Z.mod_pos_bound pos rows ltac:(lia)) as Hm.
  pose proof (schedule_lookup [rows] 0 rows (pos mod rows)) as Hl.
  simpl in Hl. rewrite Z.add_0_l in Hl. rewrite Hl; [|by repeat constructor; lia|done..].
  intros [= <- <-]. done.
Qed.

(** C5.  With shuffle off, on a disk whose manifest names one data file that
    loads and has [rows] rows, at least one: the sample taken at place [i]
    of forward call [n + 1] is row [(n * batch_size + i) mod rows] of the
    file, so the row indices run 0, 1, ..., rows - 1, 0, 1, ... with period
    [rows]; this holds for every sample the run reaches, and off the image
    path every forward call is reached and slot [i] of every output holds
    that row.  The blobs stay those read at setup and the forward calls do
    not depend on the disk: the file is never loaded again.  In scenario S1
    (5 rows, batch size 2) three forward calls give rows [0,1], [2,3]
    and [4,0]. *)
Theorem single_file_period :
  (forall (p : LayerParameter) (disk : Disk) content f rows tails g tops,
     good_disk p disk content [f] [rows] tails ->
     shuffle p = false ->
     length tops = length (top p) ->
     1 <= batch_size p ->
     exists l0 tops0,
       LayerSetUp p disk g tops = Ok (l0, tops0)
       /\ (forall n i ln topsn li topsi s,
             Forward_n p disk n l0 tops0 = Ok (ln, topsn) ->
             0 <= i < batch_size p ->
             foldM (emit_sample p disk) (seqZ 0 i) (ln, topsn) = Ok (li, topsi) ->
             rewind p disk li = Ok s ->
             zget (data_permutation_ s) (current_row_ s)
             = Some ((Z.of_nat n * batch_size p + i) mod rows)
             /\ read_blobs p f = Ok (hdf_blobs_ s))
       /\ (image_path p = false ->
           forall n, exists ln topsn,
             Forward_n p disk (S n) l0 tops0 = Ok (ln, topsn)
             /\ forall i (j : nat) name,
                  0 <= i < batch_size p -> top p !! j = Some name ->
                  exists d t dd,
                    datasets f !! name = Some d
                    /\ topsn !! j = Some t
                    /\ data_dim_of t = Ok dd
                    /\ slot t i
                       = Ok (row_of (values d)
                               ((Z.of_nat n * batch_size p + i) mod rows) dd))
       /\ (forall disk' n,
             Forward_n p disk' n l0 tops0 = Forward_n p disk n l0 tops0))
  /\ (let s1 := @run example_runtime (Examples.data_only 2) Examples.s1_disk tt
                  [Examples.fresh_top] in
      outputs (s1 1%nat) = Ok [[0; 0; 1; 1]]
      /\ outputs (s1 2%nat) = Ok [[2; 2; 3; 3]]
      /\ outputs (s1 3%nat) = Ok [[4; 4; 0; 0]]).
Proof.
  split.
  - intros p disk content f rows tails g tops Hd Hsh Hlen HB.
    destruct (setup_good p disk content [f] [rows] tails g tops Hd Hsh Hlen
                ltac:(lia)) as (l0 & tops0 & H0 & Hinv & Htops & _).
    destruct (good_disk_lengths _ _ _ _ _ _ Hd) as (Hl1 & _ & Hge1 & _).
    assert (Hrows : 1 <= rows) by (by inversion Hge1).
    exists l0, tops0. split; [done|]. split_and!.
    + intros n i ln topsn li topsi s Hn Hi Hpre Hs.
      destruct (stream_selection p disk content [f] [rows] tails l0 tops0 n i
                  ln topsn li topsi s Hd Hsh HB Hinv Hn Hi Hpre Hs)
        as (k & f' & rows' & Hf & Hr & Hb & Hcr & Hsched & Hfp & Hperm).
      apply schedule_single in Hsched as [_ Hrow]; [|done].
      destruct k as [|k]; [|done]. injection Hf as <-.
      by rewrite Hperm, Hrow.
    + intros Hpath n.
      destruct (stream_data p disk content [f] [rows] tails l0 tops0 n
                  Hd Hsh Hpath HB Hinv Htops) as (ln & topsn & Hn & Hdata).
      exists ln, topsn. split; [done|].
      intros i j name Hi Hname.
      destruct (Hdata i j name Hi Hname)
        as (k & r & f' & d & t & dd & Hsched & Hf & Hds & Ht & Hdd & Hslot).
      apply schedule_single in Hsched as [_ ->]; [|done].
      destruct k as [|k]; [|done]. injection Hf as <-.
      exists d, t, dd. done.
    + intros disk' n. apply Forward_n_single.
      destruct Hinv as (_ & -> & _). simpl in Hl1. lia.
  - simpl. split_and!; vm_compute; reflexivity.
Qed.

(** *** The image path *)

(** Each round on the image path moves the data pointer of output 0 on from
    where the round before left it. *)
Lemma transform_row_moves_pointer l i tr (tops : list Blob) tr' tops' t :
  transform_row l i 0 (tr, tops) = Ok (tr', tops') ->
  zget tops 0 = Some t ->
  exists t' dd,
    zget tops' 0 = Some t'
    /\ data_dim_of t = Ok dd
    /\ blob_ptr t' = blob_ptr t + i * dd.
Proof.
  intros (t0 & dd & hb & row & img & out & m & Ht0 & Hdd & _ & _ & _ & _ & _ & ->)
    %transform_row_ok Ht.
  rewrite Ht in Ht0. injection Ht0 as <-.
  eexists _, dd. split_and!; [|done|].
  - apply zget_Some. split; [lia|].
    apply list_lookup_insert_eq. apply zget_bound in Ht. simpl. lia.
  - done.
Qed.

(** C3 (the code departs from the specification, which has the transformer
    write sample [i] into slot [i] of output 0, at offset [i * data_dim], and
    leaves the data pointer of output 0 where it was).  On the image path,
    with a file of four one-pixel images whose rows are [1,2,3], [4,5,6],
    [7,8,9] and [10,11,12], so that [data_dim] is 3:
    - batch size 2: after the first forward call the data pointer of output 0
      is at element 3, not back at 0; the second forward call starts from
      there, puts its first sample [7,8,9] at offset 3 and then writes
      beyond the 6 elements of the buffer;
    - batch size 4: the first three rounds put the samples at offsets 0, 3
      and 9 (slot 3) and leave slot 2 as it was, and the fourth round writes
      beyond the 12 elements of the buffer. *)
Theorem transformer_slots_drift :
  let run2 := @run example_runtime (Examples.image_param 2)
                Examples.image_disk tt [Examples.fresh_top] in
  let setup4 := @LayerSetUp example_runtime (Examples.image_param 4)
                  Examples.image_disk tt [Examples.fresh_top] in
  Examples.output0 (run2 1%nat) = Ok (3, [1; 2; 3; 4; 5; 6])
  /\ Examples.output0
       (do r <- run2 1%nat;
        foldM (emit_sample (Examples.image_param 2) Examples.image_disk)
              (seqZ 0 1) r)
     = Ok (3, [1; 2; 3; 7; 8; 9])
  /\ run2 2%nat = Fatal Undefined
  /\ Examples.output0
       (do r <- setup4;
        foldM (emit_sample (Examples.image_param 4) Examples.image_disk)
              (seqZ 0 3) r)
     = Ok (9, [1; 2; 3; 4; 5; 6; 0; 0; 0; 7; 8; 9])
  /\ (do r <- setup4;
      Forward_cpu (Examples.image_param 4) Examples.image_disk r.1 r.2)
     = Fatal Undefined.
Proof. simpl. split_and!; vm_compute; reflexivity. Qed.

(** ** Further properties *)

(** *** The names of the manifest *)

Lemma tokens_of_words (s : list ascii) ts :
  tokens_of s ts ->
  Forall (fun w => w <> [] /\ Forall (fun c => isspace c = false) w) ts.
Proof. induction 1; [constructor|done|constructor; done]. Qed.

Lemma read_filenames_words (content : string) :
  Forall is_word (read_filenames content).
Proof.
  pose proof (tokens_of_words _ _ (read_filenames_tokens content)) as H.
  apply Forall_fmap in H. eapply Forall_impl; [exact H|].
  intros name [Hne Hw]. simpl in *. split; [|done].
  intros ->. by apply Hne.
Qed.

Lemma manifest_chars_tokens (names : list string) :
  Forall is_word names ->
  tokens_of (manifest_chars names) (list_ascii_of_string <$> names).
Proof.
  unfold manifest_chars. induction 1 as [|name names [Hne Hw] _ IH]; simpl.
  - constructor.
  - rewrite <- app_assoc. apply tokens_word.
    + intros Hnil. apply Hne.
      rewrite <- (string_of_list_ascii_of_string name). by rewrite Hnil.
    + done.
    + simpl. reflexivity.
    + simpl. apply tokens_space; [reflexivity|done].
Qed.

(** X1.  Every name that setup keeps from the manifest is non-empty and free
    of white space: a path with a space in it is split into several names. *)
Theorem manifest_names_are_words (p : LayerParameter) (disk : Disk) g tops
    l tops' :
  LayerSetUp p disk g tops = Ok (l, tops') ->
  Forall is_word (hdf_filenames_ l).
Proof.
  intros (names & fi & name & l1 & r & Hn & _ & _ & Hl & -> & _)%setup_ok.
  apply read_source_ok in Hn as (content & _ & -> & _).
  apply load_ok in Hl as (f & blobs & num & _ & _ & _ & _ & ->). simpl.
  apply read_filenames_words.
Qed.

(** X2.  A manifest written with one name per line, each name non-empty and
    free of white space, is read back by setup as the same names in the same
    order. *)
Theorem manifest_round_trip (p : LayerParameter) (disk : Disk) g tops
    l tops' (names : list string) :
  Forall is_word names ->
  text_files disk !! source p = Some (manifest_text names) ->
  LayerSetUp p disk g tops = Ok (l, tops') ->
  hdf_filenames_ l = names /\ num_files_ l = Z.of_nat (length names).
Proof.
  intros Hw Hsrc (ns & fi & name & l1 & r & Hn & _ & _ & Hl & -> & _)%setup_ok.
  apply read_source_ok in Hn as (content & Hc & -> & _).
  rewrite Hsrc in Hc. injection Hc as <-.
  apply load_ok in Hl as (f & blobs & num & _ & _ & _ & _ & ->). simpl.
  assert (Hr : names = read_filenames (manifest_text names)).
  { apply tokens_read_filenames. unfold manifest_text.
    rewrite list_ascii_of_string_of_list_ascii.
    by apply manifest_chars_tokens. }
  by rewrite <- Hr.
Qed.

(** *** What a load leaves behind *)

Lemma check_blobs_all (p : LayerParameter) blobs rows :
  length blobs = length (top p) ->
  check_blobs p blobs = Ok rows ->
  Forall (fun b => shape b 0 = Ok rows) blobs.
Proof.
  intros Hlen (b0 & Hb0 & _ & Hs0 & Hrest)%check_blobs_ok.
  apply Forall_lookup. intros j b Hj.
  destruct j as [|j].
  - rewrite Hb0 in Hj. by injection Hj as <-.
  - destruct (Hrest (Z.of_nat (S j))) as (bi & Hbi & Hsi).
    + apply lookup_lt_Some in Hj. unfold top_size. lia.
    + apply zget_Some in Hbi as [_ Hbi]. rewrite Nat2Z.id in Hbi.
      rewrite Hj in Hbi. by injection Hbi as <-.
Qed.

Lemma check_blobs_rows (p : LayerParameter) blobs rows l :
  hdf_blobs_ l = blobs ->
  check_blobs p blobs = Ok rows -> rows_in_current_file l = Ok rows.
Proof.
  intros <- (b0 & Hb0 & _ & Hs0 & _)%check_blobs_ok.
  apply rows_in_current_file_ok. by exists b0.
Qed.

(** X3.  A load that returns replaces the blobs, the row permutation and
    (when shuffling) the generator, and nothing else.  There is one blob per
    output name, all blobs have the same number of rows, and the row
    permutation is a permutation of the row indices: the identity when
    shuffling is off. *)
Theorem load_postcondition (p : LayerParameter) (disk : Disk) name l l' :
  LoadHDF5FileData p disk name l = Ok l' ->
  (hdf_filenames_ l' = hdf_filenames_ l
   /\ num_files_ l' = num_files_ l
   /\ current_file_ l' = current_file_ l
   /\ current_row_ l' = current_row_ l
   /\ file_permutation_ l' = file_permutation_ l
   /\ data_transformer_ l' = data_transformer_ l)
  /\ length (hdf_blobs_ l') = length (top p)
  /\ exists rows,
       0 <= rows
       /\ Forall (fun b => shape b 0 = Ok rows) (hdf_blobs_ l')
       /\ Permutation (seqZ 0 rows) (data_permutation_ l')
       /\ (shuffle p = false ->
           data_permutation_ l' = seqZ 0 rows /\ rng_ l' = rng_ l).
Proof.
  intros (f & blobs & num & Hf & Hrb & Hcl & Hcb & ->)%load_ok. simpl.
  pose proof (read_blobs_length _ _ _ Hrb) as Hlen.
  split; [done|]. split; [done|].
  exists num. split_and!.
  - pose proof Hcb as (b0 & Hb0 & _ & Hs0 & _)%check_blobs_ok.
    by eapply read_blobs_nonneg.
  - by eapply check_blobs_all.
  - apply shuffle_if_needed_perm.
  - intros Hs. by rewrite shuffle_if_needed_off.
Qed.

(** *** The invariant of the layer *)

Lemma load_layer_inv (p : LayerParameter) (disk : Disk) name l l' fi :
  LoadHDF5FileData p disk name l = Ok l' ->
  num_files_ l = Z.of_nat (length (hdf_filenames_ l)) ->
  Permutation (seqZ 0 (num_files_ l)) (file_permutation_ l) ->
  0 <= current_file_ l < num_files_ l ->
  zget (file_permutation_ l) (current_file_ l) = Some fi ->
  zget (hdf_filenames_ l) fi = Some name ->
  layer_inv p disk l'.
Proof.
  intros (f & blobs & num & Hf & Hrb & Hcl & Hcb & ->)%load_ok Hn Hp Hc Hfi Hnm.
  unfold layer_inv. simpl. split_and!; [done|done|lia|lia| |].
  - by exists fi, name, f.
  - exists num. split_and!; [done| |apply shuffle_if_needed_perm].
    pose proof Hcb as (b0 & Hb0 & _ & Hs0 & _)%check_blobs_ok.
    by eapply read_blobs_nonneg.
Qed.

Lemma setup_layer_inv (p : LayerParameter) (disk : Disk) g tops l tops' :
  LayerSetUp p disk g tops = Ok (l, tops') -> layer_inv p disk l.
Proof.
  intros (names & fi & name & l1 & r & Hn & Hfi & Hnm & Hl & -> & _)%setup_ok.
  apply read_source_ok in Hn as (content & _ & -> & Hlen).
  apply vec_get_ok in Hfi, Hnm.
  pose proof (load_layer_inv _ _ _ _ _ fi Hl) as H. simpl in H.
  destruct H as (H1 & H2 & H3 & H4 & H5);
    [done|apply shuffle_if_needed_perm|lia|done|done|].
  unfold layer_inv. simpl. split_and!; [done|done|lia|lia|done|done].
Qed.

Lemma rewind_layer_inv (p : LayerParameter) (disk : Disk) l s :
  layer_inv p disk l -> rewind p disk l = Ok s -> layer_inv p disk s.
Proof.
  intros Hinv (rows & Hrows & Hcase)%rewind_ok.
  destruct Hcase as [[_ ->]|(Heq & l1 & Hl1 & ->)]; [done|].
  assert (Hinv1 : layer_inv p disk l1).
  { destruct Hl1 as [(Hmany & fi & name & Hfi & Hnm & Hload)|[_ ->]]; [|done].
    destruct Hinv as (Hn & Hp & Hc & _ & _).
    pose proof (load_layer_inv _ _ _ _ _ fi Hload) as H. simpl in H.
    apply H; [done| | |done|done].
    - case_decide; simpl; [|done].
      etrans; [exact Hp|]. apply shuffle_if_needed_perm.
    - case_decide; lia. }
  destruct Hinv1 as (Hn & Hp & Hc & Hf & rows1 & Hcb & Hpos & Hdp).
  unfold layer_inv. simpl. split_and!; [done|done|lia|lia|done|].
  exists rows1. split_and!; [done|done|].
  etrans; [exact Hdp|]. apply shuffle_if_needed_perm.
Qed.

Lemma emit_sample_layer_inv (p : LayerParameter) (disk : Disk) i l tops
    l' tops' :
  layer_inv p disk l -> emit_sample p disk i (l, tops) = Ok (l', tops') ->
  layer_inv p disk l'.
Proof.
  intros Hinv (s & r & Hs & _ & -> & _)%emit_sample_ok.
  by apply (rewind_layer_inv p disk l s Hinv) in Hs.
Qed.

Lemma Forward_cpu_layer_inv (p : LayerParameter) (disk : Disk) l tops
    l' tops' :
  layer_inv p disk l -> Forward_cpu p disk l tops = Ok (l', tops') ->
  layer_inv p disk l'.
Proof.
  intros Hinv Hf. unfold Forward_cpu, for_range in Hf.
  apply (foldM_inv_ok (fun acc => layer_inv p disk acc.1)) in Hf; [done| |done].
  intros i [l1 t1] [l2 t2] _ H1 H2. simpl in *.
  by eapply emit_sample_layer_inv.
Qed.

Lemma Forward_n_layer_inv (p : LayerParameter) (disk : Disk) n l tops
    l' tops' :
  layer_inv p disk l -> Forward_n p disk n l tops = Ok (l', tops') ->
  layer_inv p disk l'.
Proof.
  revert l' tops'. induction n as [|n IH]; simpl; intros l' tops' Hinv.
  - intros [= <- <-]. done.
  - intros ([l1 t1] & H1 & H2)%bind_ok. simpl in H2.
    eapply Forward_cpu_layer_inv; [|done]. by eapply IH.
Qed.

(** X4.  After setup and any number of forward calls that return, whether
    shuffling is on or off: the file permutation is a permutation of the
    indices of the manifest, the file cursor is one of these indices, the
    blobs held are those of the file the cursor designates, all of them agree
    on the number of rows, and the row permutation is a permutation of the
    row indices of that file. *)
Theorem run_layer_inv (p : LayerParameter) (disk : Disk) g tops n l tops' :
  run p disk g tops n = Ok (l, tops') -> layer_inv p disk l.
Proof.
  unfold run. intros ([l0 t0] & H0 & Hn)%bind_ok. simpl in Hn.
  apply setup_layer_inv in H0. by eapply Forward_n_layer_inv.
Qed.

(** *** Shuffling off *)

Lemma load_unshuffled (p : LayerParameter) (disk : Disk) name l l' g :
  shuffle p = false ->
  LoadHDF5FileData p disk name l = Ok l' ->
  rng_ l = g -> file_permutation_ l = seqZ 0 (num_files_ l) ->
  unshuffled_inv g l'.
Proof.
  intros Hs (f & blobs & num & Hf & Hrb & Hcl & Hcb & ->)%load_ok Hg Hfp.
  rewrite shuffle_if_needed_off by done.
  unfold unshuffled_inv. simpl. split_and!; [done|done|].
  exists num. split; [|done]. by eapply check_blobs_rows.
Qed.

Lemma setup_unshuffled (p : LayerParameter) (disk : Disk) g tops l tops' :
  shuffle p = false ->
  LayerSetUp p disk g tops = Ok (l, tops') -> unshuffled_inv g l.
Proof.
  intros Hs (names & fi & name & l1 & r & _ & _ & _ & Hl & -> & _)%setup_ok.
  rewrite shuffle_if_needed_off in Hl by done.
  apply (load_unshuffled p disk name _ l1 g Hs) in Hl; [|done|done].
  destruct Hl as (H1 & H2 & H3). unfold unshuffled_inv. by simpl.
Qed.

Lemma rewind_unshuffled (p : LayerParameter) (disk : Disk) g l s :
  shuffle p = false ->
  unshuffled_inv g l -> rewind p disk l = Ok s -> unshuffled_inv g s.
Proof.
  intros Hs Hinv (rows & Hrows & Hcase)%rewind_ok.
  destruct Hcase as [[_ ->]|(Heq & l1 & Hl1 & ->)]; [done|].
  assert (Hinv1 : unshuffled_inv g l1).
  { destruct Hl1 as [(Hmany & fi & name & Hfi & Hnm & Hload)|[_ ->]]; [|done].
    destruct Hinv as (Hg & Hfp & _).
    rewrite shuffle_if_needed_off in Hload by done.
    apply (load_unshuffled p disk name _ l1 g Hs) in Hload; [done| |].
    - simpl. by case_decide.
    - simpl. by case_decide. }
  destruct Hinv1 as (Hg & Hfp & Hdp).
  rewrite shuffle_if_needed_off by done.
  unfold unshuffled_inv. by simpl.
Qed.

Lemma Forward_cpu_unshuffled (p : LayerParameter) (disk : Disk) g l tops
    l' tops' :
  shuffle p = false ->
  unshuffled_inv g l -> Forward_cpu p disk l tops = Ok (l', tops') ->
  unshuffled_inv g l'.
Proof.
  intros Hs Hinv Hf. unfold Forward_cpu, for_range in Hf.
  apply (foldM_inv_ok (fun acc => unshuffled_inv g acc.1)) in Hf; [done| |done].
  intros i [l1 t1] [l2 t2] _ H1 (s & r & Hrw & _ & -> & _)%emit_sample_ok.
  simpl in *.
  by apply (rewind_unshuffled p disk g l1 s Hs H1) in Hrw.
Qed.

(** X5.  With shuffling off, after setup and any number of forward calls
    that return, the generator is the one the layer was set up with, and the
    file permutation and the row permutation are the identity: files are
    visited in the order of the manifest and rows in the order of the
    file. *)
Theorem run_unshuffled (p : LayerParameter) (disk : Disk) g tops n l tops' :
  shuffle p = false ->
  run p disk g tops n = Ok (l, tops') ->
  unshuffled_inv g l.
Proof.
  intros Hs. unfold run. intros ([l0 t0] & H0 & Hn)%bind_ok. simpl in Hn.
  apply (setup_unshuffled p disk g tops l0 t0 Hs) in H0.
  revert l tops' Hn. induction n as [|n IH]; simpl; intros l tops'.
  - by intros [= <- <-].
  - intros ([l1 t1] & H1 & H2)%bind_ok. simpl in H2.
    eapply Forward_cpu_unshuffled; [done| |done]. by eapply IH.
Qed.

(** *** The row cursor after a forward call *)

Lemma emit_sample_row_pos (p : LayerParameter) (disk : Disk) i l tops
    l' tops' :
  row_inv p l -> emit_sample p disk i (l, tops) = Ok (l', tops') ->
  1 <= current_row_ l'.
Proof.
  intros Hinv (s & r & Hs & _ & -> & _)%emit_sample_ok.
  destruct (rewind_row_inv p disk l s Hinv Hs) as (rows & _ & H0 & _).
  simpl. lia.
Qed.

Lemma Forward_cpu_row_pos (p : LayerParameter) (disk : Disk) l tops l' tops' :
  row_inv p l -> 1 <= batch_size p ->
  Forward_cpu p disk l tops = Ok (l', tops') ->
  1 <= current_row_ l'.
Proof.
  intros Hinv Hb Hf. unfold Forward_cpu, for_range in Hf.
  replace (batch_size p) with (batch_size p - 1 + 1) in Hf by lia.
  rewrite seqZ_snoc, foldM_app in Hf by lia.
  apply bind_ok in Hf as ([l1 t1] & H1 & H2).
  apply (foldM_inv_ok (fun acc => row_inv p acc.1)) in H1; [| |done].
  - simpl in H2. apply bind_ok in H2 as ([l2 t2] & H2 & [= <- <-]).
    by eapply emit_sample_row_pos.
  - intros i [la ta] [lb tb] _ Ha Hb'. simpl in *.
    by eapply emit_sample_row_inv.
Qed.

(** X6.  After setup and at least one forward call with a batch size of at
    least one, the file in memory has at least one row and the row cursor
    is past its first row, and not past its last. *)
Theorem forward_row_positive (p : LayerParameter) (disk : Disk) g tops n
    l tops' :
  1 <= batch_size p ->
  run p disk g tops (S n) = Ok (l, tops') ->
  exists rows,
    rows_in_current_file l = Ok rows
    /\ 1 <= current_row_ l <= rows.
Proof.
  intros Hb. unfold run. intros ([l0 t0] & H0 & Hn)%bind_ok.
  simpl in Hn. apply bind_ok in Hn as ([l1 t1] & H1 & H2). simpl in H2.
  apply setup_row_inv in H0 as [Hinv _].
  pose proof (Forward_n_row_inv p disk n l0 t0 l1 t1 Hinv H1) as Hinv1.
  pose proof (Forward_cpu_row_inv p disk l1 t1 l tops' Hinv1 H2)
    as (_ & rows & Hrows & Hcr & _).
  pose proof (Forward_cpu_row_pos p disk l1 t1 l tops' Hinv1 Hb H2).
  exists rows. split; [done|lia].
Qed.

(** X7.  When the only file has no rows, every forward call with a batch
    size of at least one ends the run: the wrap resets the cursor to row 0
    of a file that has no row 0. *)
Theorem empty_single_file_fatal (p : LayerParameter) (disk : Disk) l tops :
  row_inv p l ->
  rows_in_current_file l = Ok 0 ->
  num_files_ l <= 1 ->
  1 <= batch_size p ->
  is_fatal (Forward_cpu p disk l tops).
Proof.
  intros Hinv Hrows Hnf Hb.
  destruct (Forward_cpu p disk l tops) as [[l' tops']|e] eqn:Hf;
    [|by exists e].
  exfalso. unfold Forward_cpu, for_range in Hf.
  rewrite (seqZ_cons 0 (batch_size p)) in Hf by lia. simpl in Hf.
  apply bind_ok in Hf as ([l1 t1] & H1 & _).
  apply emit_sample_ok in H1 as (s & r & Hs & Hr & _).
  destruct Hinv as (Htop & rows & Hrows' & Hcr & Hlen).
  rewrite Hrows in Hrows'. injection Hrows' as <-.
  destruct (fill_tops_selects _ _ _ _ _ Hr Htop) as (row & Hrow%zget_bound).
  apply rewind_ok in Hs as (rows' & Hrows' & Hcase).
  rewrite Hrows in Hrows'. injection Hrows' as <-.
  destruct Hcase as [[Hne _]|(_ & l1' & Hl1 & ->)]; [lia|].
  destruct Hl1 as [(Hmany & _)|[_ ->]]; [lia|].
  simpl in Hrow.
  rewrite <- (Permutation_length (shuffle_if_needed_perm p _ _)) in Hrow.
  lia.
Qed.

(** *** A forward call inside the file in memory *)

Lemma rewind_within (p : LayerParameter) (disk : Disk) l rows :
  rows_in_current_file l = Ok rows -> current_row_ l <> rows ->
  rewind p disk l = Ok l.
Proof.
  unfold rows_in_current_file, rewind. intros Hrows Hne.
  destruct (vec_get (hdf_blobs_ l) 0) as [b0|]; [|done]. simpl in *.
  rewrite Hrows. simpl. by case_decide.
Qed.

Lemma emit_sample_within (p : LayerParameter) (disk : Disk) i l tops rows :
  rows_in_current_file l = Ok rows -> current_row_ l <> rows ->
  emit_sample p disk i (l, tops)
  = do r <- fill_tops p l i (data_transformer_ l, tops);
    Ok (advance_rows l 1 r.1, r.2).
Proof.
  intros Hrows Hne. unfold emit_sample.
  by rewrite (rewind_within p disk l rows).
Qed.

Lemma emit_samples_within (p : LayerParameter) (disk disk' : Disk) (n : nat) :
  forall a l tops rows,
    rows_in_current_file l = Ok rows ->
    current_row_ l + Z.of_nat n <= rows ->
    foldM (emit_sample p disk') (seqZ a (Z.of_nat n)) (l, tops)
    = foldM (emit_sample p disk) (seqZ a (Z.of_nat n)) (l, tops)
    /\ forall l' tops',
         foldM (emit_sample p disk) (seqZ a (Z.of_nat n)) (l, tops)
         = Ok (l', tops') ->
         l' = advance_rows l (Z.of_nat n) (data_transformer_ l').
Proof.
  induction n as [|n IH]; intros a l tops rows Hrows Hle.
  - simpl. split; [done|]. intros l' tops' [= <- <-].
    unfold advance_rows. destruct l. simpl. f_equal. lia.
  - rewrite (seqZ_cons a (Z.of_nat (S n))) by lia.
    replace (Z.pred (Z.of_nat (S n))) with (Z.of_nat n) by lia.
    cbn [foldM].
    rewrite !(emit_sample_within p _ a l tops rows) by (done || lia).
    destruct (fill_tops p l a (data_transformer_ l, tops)) as [r|e];
      cbn [bind]; [|by split].
    destruct (IH (Z.succ a) (advance_rows l 1 r.1) r.2 rows) as [IH1 IH2].
    + done.
    + simpl. lia.
    + split; [done|]. intros l' tops' Hf. rewrite (IH2 l' tops' Hf).
      unfold advance_rows. simpl. f_equal. lia.
Qed.

(** X8.  A forward call that fits in the rows left of the file in memory
    opens no file and shuffles nothing: its outcome is the same whatever the
    disk holds, and when it returns, only the row cursor, moved on by the
    batch size, and the transformer may differ from before. *)
Theorem forward_within_file (p : LayerParameter) (disk disk' : Disk) l tops
    rows :
  rows_in_current_file l = Ok rows ->
  0 <= batch_size p ->
  current_row_ l + batch_size p <= rows ->
  Forward_cpu p disk' l tops = Forward_cpu p disk l tops
  /\ forall l' tops',
       Forward_cpu p disk l tops = Ok (l', tops') ->
       l' = advance_rows l (batch_size p) (data_transformer_ l').
Proof.
  intros Hrows Hb Hle. unfold Forward_cpu, for_range.
  pose proof (emit_samples_within p disk disk' (Z.to_nat (batch_size p))
                0 l tops rows Hrows) as H.
  rewrite Z2Nat.id in H by done. by apply H.
Qed.

(** *** What a forward call leaves of the outputs *)

Lemma Forall2_diag {A : Type} (P : A -> A -> Prop) (l : list A) :
  (forall a, P a a) -> Forall2 P l l.
Proof. intros HP. induction l; constructor; auto. Qed.

Lemma Forall2_insert_diag {A : Type} (P : A -> A -> Prop) (l : list A)
    (k : nat) (x x' : A) :
  (forall a, P a a) -> l !! k = Some x -> P x x' ->
  Forall2 P l (<[k := x']> l).
Proof.
  intros HP Hk Hx. rewrite <- (list_insert_id l k x) at 1 by done.
  apply Forall2_insert; [by apply Forall2_diag|done].
Qed.

Lemma same_buffer_refl (t : Blob) : same_buffer t t.
Proof. done. Qed.

Lemma same_buffer_trans (t1 t2 t3 : Blob) :
  same_buffer t1 t2 -> same_buffer t2 t3 -> same_buffer t1 t3.
Proof. intros [H1 H2] [H3 H4]. split; congruence. Qed.

Lemma same_view_buffer (t t' : Blob) : same_view t t' -> same_buffer t t'.
Proof. intros (H1 & _ & H2). by split. Qed.

Lemma fill_round_outputs (p : LayerParameter) l i j acc r :
  fill_round p l i j acc = Ok r ->
  Forall2 same_buffer acc.2 r.2
  /\ (image_path p = false \/ j <> 0 ->
      Forall2 same_view acc.2 r.2 /\ r.1 = acc.1).
Proof.
  unfold fill_round. destruct acc as [tr tops], r as [tr' tops'].
  destruct (image_path p && bool_decide (j = 0)) eqn:Hpath.
  - intros (t & dd & hb & row & img & out & m & Ht & _ & _ & _ & _ & _ & Hw
            & ->)%transform_row_ok.
    apply zget_Some in Ht as [_ Ht]. simpl. split.
    + eapply Forall2_insert_diag; [apply same_buffer_refl|done|].
      split; [done|]. simpl. by apply run_write_length in Hw.
    + apply andb_true_iff in Hpath as [Hi Hj%bool_decide_eq_true].
      intros [Hi'|Hj']; [congruence|done].
  - intros (tops'' & Hc & [= <- <-])%bind_ok. simpl in *.
    apply copy_row_ok in Hc
      as (t & dd & hb & row & vs & m & Ht & _ & _ & _ & _ & Hw & ->).
    apply zget_Some in Ht as [_ Ht].
    assert (Hv : same_view t (set_mem t m)).
    { split_and!; [done|done|]. simpl. by apply run_write_length in Hw. }
    split; [|intros _; split; [|done]].
    + eapply Forall2_insert_diag; [apply same_buffer_refl|done|].
      by apply same_view_buffer.
    + eapply Forall2_insert_diag; [apply same_view_refl|done|done].
Qed.

Lemma fill_tops_outputs (p : LayerParameter) l i acc r :
  fill_tops p l i acc = Ok r ->
  Forall2 same_buffer acc.2 r.2
  /\ (image_path p = false -> Forall2 same_view acc.2 r.2 /\ r.1 = acc.1).
Proof.
  rewrite fill_tops_rounds. unfold for_range. intros Hf.
  apply (foldM_inv_ok
           (fun a => Forall2 same_buffer acc.2 a.2
                     /\ (image_path p = false ->
                         Forall2 same_view acc.2 a.2 /\ a.1 = acc.1)))
    in Hf; [done| |].
  - intros j a a' _ [H1 H2] [H3 H4]%fill_round_outputs. split.
    + eapply Forall2_trans; [|exact H1|exact H3]. apply same_buffer_trans.
    + intros Hi. destruct (H2 Hi) as [H5 H6].
      destruct (H4 (or_introl Hi)) as [H7 H8]. split; [|congruence].
      eapply Forall2_trans; [|exact H5|exact H7]. apply same_view_trans.
  - split; [apply Forall2_diag, same_buffer_refl|].
    intros _. split; [apply Forall2_diag, same_view_refl|done].
Qed.

Lemma emit_sample_outputs (p : LayerParameter) (disk : Disk) i l tops
    l' tops' :
  emit_sample p disk i (l, tops) = Ok (l', tops') ->
  Forall2 same_buffer tops tops'
  /\ (image_path p = false ->
      Forall2 same_view tops tops'
      /\ data_transformer_ l' = data_transformer_ l).
Proof.
  intros (s & r & Hs & [H1 H2]%fill_tops_outputs & -> & ->)%emit_sample_ok.
  simpl in *. split; [done|]. intros Hi. destruct (H2 Hi) as [H3 H4].
  split; [done|]. rewrite H4.
  apply rewind_ok in Hs as (rows & _ & [[_ ->]|(_ & l1 & Hl1 & ->)]);
    [done|]. simpl.
  destruct Hl1 as [(_ & fi & name & _ & _ & Hl)|[_ ->]]; [|done].
  apply load_ok in Hl as (f & blobs & num & _ & _ & _ & _ & ->). done.
Qed.

Lemma Forward_cpu_outputs (p : LayerParameter) (disk : Disk) l tops
    l' tops' :
  Forward_cpu p disk l tops = Ok (l', tops') ->
  Forall2 same_buffer tops tops'
  /\ (image_path p = false ->
      Forall2 same_view tops tops'
      /\ data_transformer_ l' = data_transformer_ l).
Proof.
  unfold Forward_cpu, for_range. intros Hf.
  apply (foldM_inv_ok
           (fun a => Forall2 same_buffer tops a.2
                     /\ (image_path p = false ->
                         Forall2 same_view tops a.2
                         /\ data_transformer_ a.1 = data_transformer_ l)))
    in Hf; [done| |].
  - intros i [l1 t1] [l2 t2] _ [H1 H2] [H3 H4]%emit_sample_outputs.
    simpl in *. split.
    + eapply Forall2_trans; [|exact H1|exact H3]. apply same_buffer_trans.
    + intros Hi. destruct (H2 Hi) as [H5 H6]. destruct (H4 Hi) as [H7 H8].
      split; [|congruence].
      eapply Forall2_trans; [|exact H5|exact H7]. apply same_view_trans.
  - split; [apply Forall2_diag, same_buffer_refl|].
    intros _. split; [apply Forall2_diag, same_view_refl|done].
Qed.

(** X9.  A forward call that returns leaves as many outputs as it was
    given, each with the shape and the number of allocated elements it had:
    the layer never reshapes or reallocates an output after setup, on the
    image path either. *)
Theorem forward_keeps_buffers (p : LayerParameter) (disk : Disk) l tops
    l' tops' :
  Forward_cpu p disk l tops = Ok (l', tops') ->
  Forall2 same_buffer tops tops'.
Proof. by intros [H _]%Forward_cpu_outputs. Qed.

(** X10.  Off the image path a forward call that returns moves no output's
    data pointer and does not touch the transformer. *)
Theorem forward_plain_keeps_views (p : LayerParameter) (disk : Disk) l tops
    l' tops' :
  image_path p = false ->
  Forward_cpu p disk l tops = Ok (l', tops') ->
  Forall2 same_view tops tops'
  /\ data_transformer_ l' = data_transformer_ l.
Proof. intros Hi [_ H]%Forward_cpu_outputs. by apply H. Qed.

(** *** One sample on the image path *)

Lemma data_dim_of_shape (t t' : Blob) :
  blob_shape t' = blob_shape t -> data_dim_of t' = data_dim_of t.
Proof. unfold data_dim_of, shape, count. by intros ->. Qed.

Lemma fill_tops_image (p : LayerParameter) l i tr tops r t :
  image_path p = true -> top p <> [] ->
  zget tops 0 = Some t ->
  fill_tops p l i (tr, tops) = Ok r ->
  exists dd hb row img out t',
    data_dim_of t = Ok dd
    /\ zget (hdf_blobs_ l) 0 = Some hb
    /\ zget (data_permutation_ l) (current_row_ l) = Some row
    /\ make_image hb row dd = Ok img
    /\ Transform tr img = (r.1, out)
    /\ zget r.2 0 = Some t'
    /\ blob_shape t' = blob_shape t
    /\ blob_ptr t' = blob_ptr t + i * dd
    /\ run_read (blob_mem t') (blob_ptr t') (Z.of_nat (length out)) = Ok out.
Proof.
  intros Hi Htop Ht. rewrite fill_tops_rounds. unfold for_range.
  assert (Hsz : 0 < top_size p).
  { unfold top_size. destruct (top p); [done|]. simpl. lia. }
  rewrite seqZ_cons by done. cbn [foldM].
  intros ([tr1 tops1] & H1 & H2)%bind_ok.
  unfold fill_round in H1. rewrite Hi in H1.
  rewrite bool_decide_eq_true_2 in H1 by done. simpl in H1.
  apply transform_row_ok in H1
    as (t0 & dd & hb & row & img & out & m & Ht0 & Hdd & Hhb & Hrow & Himg
        & Htr & Hw & ->).
  rewrite Ht in Ht0. injection Ht0 as <-.
  assert (Hr1 : r.1 = tr1).
  { apply (foldM_inv_ok (fun a => a.1 = tr1)) in H2; [done| |done].
    intros j a a' Hj%elem_of_seqZ Ha [_ H]%fill_round_outputs.
    destruct H as [_ H]; [right; lia|]. congruence. }
  assert (Hr2 : r.2 !! 0%nat
                = Some (mkBlob (blob_shape t) m (blob_ptr t + i * dd))).
  { rewrite (fill_rounds_frame _ _ _ _ _ _ 0%nat H2).
    - simpl. apply list_lookup_insert_eq. apply zget_bound in Ht. lia.
    - intros j Hj%elem_of_seqZ. lia. }
  exists dd, hb, row, img, out, (mkBlob (blob_shape t) m (blob_ptr t + i * dd)).
  split_and!; [done|done|done|done|by rewrite Hr1| |done|done|].
  - apply zget_Some. by split.
  - simpl. by eapply run_read_write_same.
Qed.

(** X11.  One sample on the image path.  After the wrap check, the image
    is built from the selected row of blob 0 and handed to the transformer;
    the data pointer of output 0 is moved on by [i] samples from where it
    stood, the transformer's result is written there, and it is still there
    when the other outputs have been filled.  The shape of output 0 is
    unchanged and the layer keeps the transformer that [Transform]
    returned. *)
Theorem image_sample (p : LayerParameter) (disk : Disk) i l tops l' tops' t :
  image_path p = true -> top p <> [] ->
  zget tops 0 = Some t ->
  emit_sample p disk i (l, tops) = Ok (l', tops') ->
  exists s dd hb row img out t',
    rewind p disk l = Ok s
    /\ data_dim_of t = Ok dd
    /\ zget (hdf_blobs_ s) 0 = Some hb
    /\ zget (data_permutation_ s) (current_row_ s) = Some row
    /\ make_image hb row dd = Ok img
    /\ Transform (data_transformer_ s) img = (data_transformer_ l', out)
    /\ zget tops' 0 = Some t'
    /\ blob_shape t' = blob_shape t
    /\ blob_ptr t' = blob_ptr t + i * dd
    /\ run_read (blob_mem t') (blob_ptr t') (Z.of_nat (length out)) = Ok out.
Proof.
  intros Hi Htop Ht (s & r & Hs & Hr & -> & ->)%emit_sample_ok.
  destruct (fill_tops_image p s i _ tops r t Hi Htop Ht Hr)
    as (dd & hb & row & img & out & t' & H).
  exists s, dd, hb, row, img, out, t'. by split.
Qed.

Lemma emit_samples_image_drift (p : LayerParameter) (disk : Disk) n l tops
    l' tops' t dd :
  image_path p = true -> top p <> [] ->
  0 <= n ->
  zget tops 0 = Some t ->
  data_dim_of t = Ok dd ->
  foldM (emit_sample p disk) (seqZ 0 n) (l, tops) = Ok (l', tops') ->
  exists t',
    zget tops' 0 = Some t'
    /\ blob_shape t' = blob_shape t
    /\ 2 * (blob_ptr t' - blob_ptr t) = dd * n * (n - 1).
Proof.
  intros Hi Htop Hb Ht Hdd Hf.
  apply (for_seqZ_inv_ok
           (fun i acc => exists ti,
              zget acc.2 0 = Some ti
              /\ blob_shape ti = blob_shape t
              /\ 2 * (blob_ptr ti - blob_ptr t) = dd * i * (i - 1))) in Hf.
  - replace (0 + Z.max n 0) with n in Hf by lia.
    done.
  - exists t. split_and!; [done|done|lia].
  - intros i [l1 t1] [l2 t2] Hir (ti & Hti & Hsh & Hptr) Hstep. simpl in *.
    apply emit_sample_ok in Hstep as (s & r & Hs & Hr & -> & ->).
    destruct (fill_tops_image p s i _ t1 r ti Hi Htop Hti Hr)
      as (dd' & _ & _ & _ & _ & t' & Hdd' & _ & _ & _ & _ & Ht' & Hsh' & Hp'
          & _).
    rewrite (data_dim_of_shape t ti Hsh), Hdd in Hdd'. injection Hdd' as <-.
    exists t'. split_and!; [done|congruence|]. rewrite Hp'. nia.
Qed.

(** X12.  On the image path the data pointer of output 0 is never set
    back: sample [i] moves it on by [i] samples from where sample [i - 1]
    left it.  A forward call of batch size [B] therefore leaves it
    [B * (B - 1) / 2] samples further than it found it, where one sample is
    the element count of output 0 over its first dimension; the shape of
    the output is unchanged. *)
Theorem forward_image_pointer_drift (p : LayerParameter) (disk : Disk) l tops
    l' tops' t dd :
  image_path p = true -> top p <> [] ->
  0 <= batch_size p ->
  zget tops 0 = Some t ->
  data_dim_of t = Ok dd ->
  Forward_cpu p disk l tops = Ok (l', tops') ->
  exists t',
    zget tops' 0 = Some t'
    /\ blob_shape t' = blob_shape t
    /\ 2 * (blob_ptr t' - blob_ptr t) = dd * batch_size p * (batch_size p - 1).
Proof.
  intros Hi Htop Hb Ht Hdd Hf.
  by eapply emit_samples_image_drift.
Qed.

(** *** A source with fewer than three channels *)

Lemma zget_None_ge {A : Type} (l : list A) (i : Z) :
  Z.of_nat (length l) <= i -> zget l i = None.
Proof.
  intros Hi. unfold zget. case_decide; [|done].
  apply lookup_ge_None_2. lia.
Qed.

Lemma fill_channel_ok (H W C c : Z) (img_data : list Dtype) val m :
  0 <= H -> 0 <= W ->
  Z.of_nat (length img_data) = C * H * W ->
  0 <= c < C -> c < 3 ->
  (forall h w, val c h w
     = cast_uint8 (default zero (zget img_data (c * W * H + h * W + w)))) ->
  image_inv H W val (fun _ _ _ => False) m ->
  exists m',
    for_range H (fun h =>
      for_range W (fun w cv_img =>
        do x <- vec_at img_data (c * W * H + h * W + w);
        mat_set cv_img h w c (cast_uint8 x))) m = Ok m'
    /\ image_inv H W val (fun _ _ _ => False) m'.
Proof.
  intros HH HW Hlen Hc Hc3 Hval Hinv. unfold for_range.
  assert (Hstep : forall h w m1, 0 <= h < H -> 0 <= w < W ->
            image_inv H W val (fun _ _ _ => False) m1 ->
            exists m2,
              (do x <- vec_at img_data (c * W * H + h * W + w);
               mat_set m1 h w c (cast_uint8 x)) = Ok m2
              /\ image_inv H W val (fun _ _ _ => False) m2).
  { intros h w m1 Hh Hw Hinv1.
    assert (Hidx : 0 <= c * W * H + h * W + w < C * H * W).
    { assert (0 <= c * (W * H)) by nia.
      assert (h * W + w < W * H) by nia.
      assert ((c + 1) * (W * H) <= C * (W * H)) by nia.
      nia. }
    destruct (zget_lt img_data (c * W * H + h * W + w)) as [x Hx]; [lia|].
    apply vec_at_ok in Hx as Hx'. rewrite Hx'. simpl.
    destruct (mat_set_inv H W val _ m1 c h w Hinv1) as (m2 & Hset & Hinv2);
      [lia..|].
    exists m2. split.
    - rewrite <- Hset, Hval. by rewrite Hx.
    - eapply image_inv_weaken; [exact Hinv2|]. intros; done. }
  destruct (for_seqZ_inv
              (fun (_ : Z) m => image_inv H W val (fun _ _ _ => False) m)
              (fun h => foldM (fun w cv_img =>
                 do x <- vec_at img_data (c * W * H + h * W + w);
                 mat_set cv_img h w c (cast_uint8 x)) (seqZ 0 W))
              0 H m) as (m' & Hm' & Hinv'); [done| |by exists m'].
  intros h m1 Hh Hinv1.
  destruct (for_seqZ_inv
              (fun (_ : Z) m => image_inv H W val (fun _ _ _ => False) m)
              (fun w cv_img =>
                 do x <- vec_at img_data (c * W * H + h * W + w);
                 mat_set cv_img h w c (cast_uint8 x))
              0 W m1) as (m2 & Hm2 & Hinv2); [done| |by exists m2].
  intros w m3 Hw Hinv3. apply Hstep; [lia|lia|done].
Qed.

Lemma fill_channel_fails (H W C : Z) (img_data : list Dtype) m :
  1 <= H -> 1 <= W ->
  Z.of_nat (length img_data) = C * H * W ->
  for_range H (fun h =>
    for_range W (fun w cv_img =>
      do x <- vec_at img_data (C * W * H + h * W + w);
      mat_set cv_img h w C (cast_uint8 x))) m = Fatal OutOfRange.
Proof.
  intros HH HW Hlen. unfold for_range.
  rewrite (seqZ_cons 0 H) by lia. cbn [foldM].
  rewrite (seqZ_cons 0 W) by lia. cbn [foldM].
  unfold vec_at. rewrite zget_None_ge by lia. done.
Qed.

(** X13.  The image is always built with three channels.  A source blob
    of shape [(N, C, H, W)] with fewer than three channels and at least one
    pixel, read with a row of [C * H * W] elements, ends the run: the
    channels below [C] are copied, and the first element of channel [C] is
    one past the end of the row, where [vector::at] throws. *)
Theorem make_image_few_channels (hb : Blob) (N C H W row : Z) :
  blob_shape hb = [N; C; H; W] ->
  0 <= C < 3 -> 1 <= H -> 1 <= W ->
  blob_ptr hb = 0 ->
  Z.of_nat (length (blob_mem hb)) = N * C * H * W ->
  0 <= row < N ->
  make_image hb row (C * H * W) = Fatal OutOfRange.
Proof.
  intros Hsh HC HH HW Hptr Hlen Hrow.
  assert (0 <= H * W) by nia.
  assert (0 <= C * H * W) by nia.
  assert (Hfit : 0 <= row * (C * H * W)
                 /\ row * (C * H * W) + C * H * W <= N * C * H * W) by nia.
  unfold make_image, cpu_data. rewrite Hsh, Hptr. simpl.
  rewrite !Z.add_0_l.
  destruct (run_read (blob_mem hb) (row * (C * H * W)) (C * H * W))
    as [img|e] eqn:Himg.
  2:{ unfold run_read in Himg. rewrite decide_True in Himg by lia. done. }
  simpl. pose proof (run_read_length _ _ _ _ Himg) as Hl.
  set (val := fun c h w =>
         cast_uint8 (default zero (zget img (c * W * H + h * W + w)))).
  unfold for_range at 1.
  replace 3 with (C + (3 - C)) at 1 by lia.
  rewrite seqZ_app, foldM_app by lia.
  destruct (for_seqZ_inv
              (fun (_ : Z) m => image_inv H W val (fun _ _ _ => False) m)
              (fun c => for_range H (fun h =>
                 for_range W (fun w cv_img =>
                   do x <- vec_at img (c * W * H + h * W + w);
                   mat_set cv_img h w c (cast_uint8 x))))
              0 C (new_Mat H W)) as (m & Hm & Hinv).
  - apply new_Mat_inv; lia.
  - intros c m Hc Hinv.
    apply (fill_channel_ok H W C c img val m); [lia|lia|done|lia|lia|done|done].
  - rewrite Hm. cbn [bind].
    rewrite (seqZ_cons (0 + C) (3 - C)) by lia. cbn [foldM].
    rewrite Z.add_0_l. by rewrite (fill_channel_fails H W C img m).
Qed.


(** *** Files are opened when the cursor reaches them *)

Lemma load_depends_on_file (p : LayerParameter) (disk disk' : Disk) name l :
  h5_files disk' !! name = h5_files disk !! name ->
  LoadHDF5FileData p disk' name l = LoadHDF5FileData p disk name l.
Proof. unfold LoadHDF5FileData. by intros ->. Qed.

(** X15.  Setup opens the manifest and the one data file that the file
    permutation puts first, and nothing else: two disks that agree on these
    two files give the same outcome, so a file of the manifest that is
    missing or malformed goes unnoticed unless it comes first. *)
Theorem setup_reads_first_file_only (p : LayerParameter) (disk disk' : Disk)
    g tops :
  text_files disk' !! source p = text_files disk !! source p ->
  (forall content fi name,
     text_files disk !! source p = Some content ->
     zget (shuffle_if_needed p g
             (seqZ 0 (Z.of_nat (length (read_filenames content))))).2 0
     = Some fi ->
     zget (read_filenames content) fi = Some name ->
     h5_files disk' !! name = h5_files disk !! name) ->
  LayerSetUp p disk' g tops = LayerSetUp p disk g tops.
Proof.
  intros Htext Hfile. unfold LayerSetUp, read_source. rewrite Htext.
  destruct (text_files disk !! source p) as [content|] eqn:Hc; [|done].
  cbn zeta.
  destruct (check (1 <=? Z.of_nat (length (read_filenames content)))
              NoFilenames) as [u|e]; [|done].
  cbn [bind]. rewrite identity_permutation_ok. cbn [bind].
  specialize (Hfile content).
  destruct (shuffle_if_needed p g
              (seqZ 0 (Z.of_nat (length (read_filenames content)))))
    as [g' fp]. cbn [file_permutation_ current_file_ hdf_filenames_].
  simpl in Hfile.
  destruct (vec_get fp 0) as [fi|e] eqn:Hfi; [|done]. cbn [bind].
  destruct (vec_get (read_filenames content) fi) as [name|e] eqn:Hnm; [|done].
  cbn [bind]. apply vec_get_ok in Hfi, Hnm.
  by rewrite (load_depends_on_file p disk disk' name _
                (Hfile fi name eq_refl Hfi Hnm)).
Qed.

(** X16.  A data file that cannot be opened is found out by the forward
    call that reaches it: when the rows of the file in memory are used up
    and the next file of the (possibly reshuffled) file permutation is not
    on the disk, the call ends the run with the failed-to-open error for
    that file. *)
Theorem forward_missing_file (p : LayerParameter) (disk : Disk) l tops
    rows fi name :
  rows_in_current_file l = Ok rows ->
  current_row_ l = rows ->
  1 < num_files_ l ->
  1 <= batch_size p ->
  zget (next_file_permutation p l) (next_file l) = Some fi ->
  zget (hdf_filenames_ l) fi = Some name ->
  h5_files disk !! name = None ->
  Forward_cpu p disk l tops = Fatal (FailedOpenHDF5 name).
Proof.
  intros Hrows Hcr Hmany Hb Hfi Hnm Hmiss.
  unfold Forward_cpu, for_range.
  rewrite (seqZ_cons 0 (batch_size p)) by lia. cbn [foldM].
  assert (Hrw : rewind p disk l = Fatal (FailedOpenHDF5 name)).
  { unfold rewind. unfold rows_in_current_file in Hrows.
    destruct (vec_get (hdf_blobs_ l) 0) as [b0|]; [|done]. cbn [bind] in *.
    rewrite Hrows. cbn [bind].
    rewrite decide_True by done. rewrite (decide_True (P := 1 < num_files_ l))
      by done.
    unfold next_file, next_file_permutation in Hfi.
    destruct (decide (current_file_ l + 1 = num_files_ l)) as [He|He].
    - destruct (shuffle_if_needed p (rng_ l) (file_permutation_ l))
        as [g fp]. simpl in Hfi.
      apply vec_get_ok in Hfi, Hnm. rewrite Hfi. cbn [bind]. rewrite Hnm.
      cbn [bind]. unfold LoadHDF5FileData. by rewrite Hmiss.
    - apply vec_get_ok in Hfi, Hnm. rewrite Hfi. cbn [bind]. rewrite Hnm.
      cbn [bind]. unfold LoadHDF5FileData. by rewrite Hmiss. }
  unfold emit_sample. by rewrite Hrw.
Qed.

(** *** The manifest is read once *)

Lemma Forward_cpu_names (p : LayerParameter) (disk : Disk) l tops l' tops' :
  Forward_cpu p disk l tops = Ok (l', tops') ->
  hdf_filenames_ l' = hdf_filenames_ l /\ num_files_ l' = num_files_ l.
Proof.
  unfold Forward_cpu, for_range. intros Hf.
  apply (foldM_inv_ok
           (fun a => hdf_filenames_ a.1 = hdf_filenames_ l
                     /\ num_files_ a.1 = num_files_ l)) in Hf; [done| |done].
  intros i [l1 t1] [l2 t2] _ [H1 H2] (s & r & Hs & _ & -> & _)%emit_sample_ok.
  simpl in *.
  apply rewind_ok in Hs as (rows & _ & [[_ ->]|(_ & l3 & Hl3 & ->)]);
    [done|]. simpl.
  destruct Hl3 as [(_ & fi & name & _ & _ & Hl)|[_ ->]]; [|done].
  apply load_ok in Hl as (f & blobs & num & _ & _ & _ & _ & ->). done.
Qed.

(** X17.  The manifest is read at setup and never again: after any number
    of forward calls that return, the layer holds the names that the
    manifest held at setup, at least one, and their count. *)
Theorem run_keeps_manifest (p : LayerParameter) (disk : Disk) g tops n
    l tops' :
  run p disk g tops n = Ok (l, tops') ->
  exists content,
    text_files disk !! source p = Some content
    /\ hdf_filenames_ l = read_filenames content
    /\ num_files_ l = Z.of_nat (length (read_filenames content))
    /\ 1 <= num_files_ l.
Proof.
  unfold run. intros ([l0 t0] & H0 & Hn)%bind_ok. simpl in Hn.
  apply setup_ok in H0
    as (ns & fi & name & l1 & r & Hns & _ & _ & Hl & -> & _).
  apply read_source_ok in Hns as (content & Hc & -> & Hlen).
  apply load_ok in Hl as (f & blobs & num & _ & _ & _ & _ & ->).
  exists content. split; [done|].
  revert l tops' Hn. induction n as [|n IH]; simpl; intros l tops'.
  - intros [= <- <-]. simpl. by split_and!.
  - intros ([l2 t2] & H2 & H3)%bind_ok. simpl in H3.
    apply Forward_cpu_names in H3 as [-> ->]. by eapply IH.
Qed.

(** *** Joining two manifests *)

Lemma tokens_app (s1 s2 : list ascii) t1 t2 c :
  tokens_of s1 t1 -> isspace c = true -> tokens_of s2 t2 ->
  tokens_of (s1 ++ c :: s2) (t1 ++ t2).
Proof.
  intros H1 Hc H2. induction H1 as [|c0 s ts Hc0 _ IH|w s ts Hw Hns Hhd _ IH].
  - simpl. by apply tokens_space.
  - simpl. by apply tokens_space.
  - rewrite <- app_assoc. simpl. apply tokens_word; [done|done| |done].
    destruct s; simpl; done.
Qed.

Lemma list_ascii_of_string_app (a b : string) :
  list_ascii_of_string (a ++ b)
  = list_ascii_of_string a ++ list_ascii_of_string b.
Proof. induction a as [|c a IH]; simpl; [done|]. by rewrite IH. Qed.

(** X18.  Two manifests joined by one white-space character, a newline
    say, name the files of the first followed by the files of the second:
    the reading loop treats the end of the text and white space alike. *)
Theorem manifest_join (a b : string) (c : ascii) :
  isspace c = true ->
  read_filenames (a ++ String c b) = read_filenames a ++ read_filenames b.
Proof.
  intros Hc. symmetry. apply tokens_read_filenames.
  rewrite list_ascii_of_string_app, fmap_app. simpl.
  apply tokens_app; [|done|]; apply read_filenames_tokens.
Qed.

End Properties.

Lemma load_fails_iff_shape_violation_witness :
  is_fatal (@LoadHDF5FileData example_runtime (Examples.data_only 2)
              Examples.s1_disk "a.h5" Examples.blank_layer)
  <-> @shape_violation example_runtime
        [@mkBlob example_runtime [5; 2] [0; 0; 1; 1; 2; 2; 3; 3; 4; 4] 0].
Proof.
  apply (proj1 (proj2 (proj2 (proj2 load_fails_iff_shape_violation)))
           (Examples.data_only 2) Examples.s1_disk "a.h5"%string
           Examples.blank_layer Examples.s1_file).
  - discriminate.
  - reflexivity.
  - reflexivity.
  - vm_compute. discriminate.
Defined.

(** C7, as stated, fails: a data file that cannot be opened makes the load
    fail although no output violates the validation. *)
Lemma load_fails_without_shape_violation :
  ~ @load_fails_only_on_violation example_runtime (Examples.data_only 2)
      Examples.missing_disk "missing.h5" Examples.blank_layer.
Proof.
  intros [H _].
  destruct H as (f & blobs & Hf & _).
  - exists (FailedOpenHDF5 "missing.h5"). reflexivity.
  - vm_compute in Hf. discriminate.
Qed.

(** C8, as stated, fails: the manifest opens and names one file, that file is
    not there, and setup fails. *)
Lemma setup_fails_with_usable_manifest :
  ~ @setup_fails_only_on_manifest example_runtime (Examples.data_only 2)
      Examples.missing_disk tt [Examples.fresh_top].
Proof.
  intros [H _].
  destruct H as [H|(content & Hc & Ht)].
  - exists (FailedOpenHDF5 "missing.h5"). reflexivity.
  - vm_compute in H. discriminate.
  - vm_compute in Hc. injection Hc as <-.
    pose proof (tokens_read_words _ _ Ht 11%nat) as Hr.
    vm_compute in Hr. specialize (Hr ltac:(lia)). discriminate.
Qed.

Lemma setup_top_shapes_witness :
  (exists first name f,
      zget (file_permutation_ Examples.s1_start.1) 0 = Some first
      /\ zget (hdf_filenames_ Examples.s1_start.1) first = Some name
      /\ h5_files Examples.s1_disk !! name = Some f
      /\ read_blobs (Examples.data_only 2) f
         = Ok (hdf_blobs_ Examples.s1_start.1))
  /\ length (hdf_blobs_ Examples.s1_start.1)
     = length (top (Examples.data_only 2))
  /\ forall (j : nat) b,
       hdf_blobs_ Examples.s1_start.1 !! j = Some b ->
       exists t d0 rest,
         Examples.s1_start.2 !! j = Some t
         /\ blob_shape b = d0 :: rest
         /\ blob_shape t = batch_size (Examples.data_only 2) :: rest
         /\ num_axes t = num_axes b.
Proof.
  apply (@setup_top_shapes example_runtime (Examples.data_only 2)
           Examples.s1_disk tt [Examples.fresh_top]).
  vm_compute. reflexivity.
Defined.

Lemma image_is_pixel_major_witness :
  exists m,
    @make_image example_runtime
      (@mkBlob example_runtime [1; 3; 1; 2] [1; 2; 3; 4; 5; 6] 0) 0 (3 * 1 * 2)
    = Ok m
    /\ mat_rows m = 1 /\ mat_cols m = 2
    /\ forall c h w, 0 <= c < 3 -> 0 <= h < 1 -> 0 <= w < 2 ->
         exists x, zget [1; 2; 3; 4; 5; 6]
                     (0 * (3 * 1 * 2) + (c * 1 * 2 + h * 2 + w)) = Some x
                   /\ mat_at m h w c = Some (byte_of_Z x).
Proof.
  apply (proj1 (@image_is_pixel_major example_runtime)
           (@mkBlob example_runtime [1; 3; 1; 2] [1; 2; 3; 4; 5; 6] 0) 1 1 2 0).
  - reflexivity.
  - lia.
  - lia.
  - reflexivity.
  - reflexivity.
  - lia.
Defined.

Lemma image_reads_in_range_witness :
  exists img,
    @data_dim_of example_runtime
      (@mkBlob example_runtime [4; 3; 1; 2] (replicate 24 0) 0)
    = Ok (3 * 1 * 2)
    /\ vec_get [1; 3; 1; 2] 2 = Ok 1
    /\ vec_get [1; 3; 1; 2] 3 = Ok 2
    /\ run_read [1; 2; 3; 4; 5; 6] (0 + 0 * (3 * 1 * 2)) (3 * 1 * 2) = Ok img
    /\ Z.of_nat (length img) = 3 * 1 * 2
    /\ (forall c h w, 0 <= c < 3 -> 0 <= h < 1 -> 0 <= w < 2 ->
          0 <= c * 2 * 1 + h * 2 + w < 3 * 1 * 2
          /\ is_ok (vec_at img (c * 2 * 1 + h * 2 + w)))
    /\ is_ok (@make_image example_runtime
                (@mkBlob example_runtime [1; 3; 1; 2] [1; 2; 3; 4; 5; 6] 0)
                0 (3 * 1 * 2)).
Proof.
  apply (@image_reads_in_range example_runtime
           (@mkBlob example_runtime [1; 3; 1; 2] [1; 2; 3; 4; 5; 6] 0)
           (@mkBlob example_runtime [4; 3; 1; 2] (replicate 24 0) 0)
           1 4 1 2 0).
  - reflexivity.
  - reflexivity.
  - lia.
  - lia.
  - lia.
  - reflexivity.
  - reflexivity.
  - lia.
Defined.

(** C2, as stated, fails: one file of two rows and a batch of two; after the
    first forward call the row index is 2, the number of rows. *)
Lemma row_index_reaches_rows :
  ~ @row_below_rows example_runtime (Examples.data_only 2)
      Examples.two_rows_disk tt [Examples.fresh_top] 1.
Proof.
  intros H.
  destruct (H Examples.two_rows_after_one.1 Examples.two_rows_after_one.2)
    as (rows & Hrows & Hlt).
  - vm_compute. reflexivity.
  - vm_compute in Hrows. injection Hrows as <-.
    vm_compute in Hlt. discriminate.
Qed.

Lemma row_index_within_rows_witness :
  exists rows,
    rows_in_current_file Examples.two_rows_after_one.1 = Ok rows
    /\ 0 <= current_row_ Examples.two_rows_after_one.1 <= rows
    /\ (1%nat = O -> current_row_ Examples.two_rows_after_one.1 = 0).
Proof.
  apply (@row_index_within_rows example_runtime (Examples.data_only 2)
           Examples.two_rows_disk tt [Examples.fresh_top] 1
           Examples.two_rows_after_one.1 Examples.two_rows_after_one.2).
  vm_compute. reflexivity.
Defined.

Lemma copied_slot_is_source_row_witness :
  exists li topsi s hb row dd vs t',
    foldM (emit_sample (Examples.data_only 2) Examples.s1_disk)
          (seqZ 0 1) (Examples.s1_start.1, Examples.s1_start.2)
    = Ok (li, topsi)
    /\ rewind (Examples.data_only 2) Examples.s1_disk li = Ok s
    /\ zget (hdf_blobs_ s) 0 = Some hb
    /\ zget (data_permutation_ s) (current_row_ s) = Some row
    /\ int_div (count (@mkBlob example_runtime [2; 2] [0; 0; 0; 0] 0))
               (batch_size (Examples.data_only 2)) = Ok dd
    /\ run_read (blob_mem hb) (cpu_data hb + row * dd) dd = Ok vs
    /\ zget Examples.s1_after_one.2 0 = Some t'
    /\ same_view (@mkBlob example_runtime [2; 2] [0; 0; 0; 0] 0) t'
    /\ run_read (blob_mem t') (blob_ptr t' + 1 * dd) dd = Ok vs.
Proof.
  apply (proj1 (@copied_slot_is_source_row example_runtime)
           (Examples.data_only 2) Examples.s1_disk
           Examples.s1_start.1 Examples.s1_start.2
           Examples.s1_after_one.1 Examples.s1_after_one.2 1 0).
  - vm_compute. reflexivity.
  - vm_compute. split; first [discriminate|reflexivity].
  - vm_compute. split; first [discriminate|reflexivity].
  - left. reflexivity.
  - vm_compute. reflexivity.
  - vm_compute. reflexivity.
Defined.

(** The disks of S1 and S2 are good disks. *)
Lemma s2_disk_good :
  @good_disk example_runtime (Examples.data_only 2) Examples.s2_disk
    "a.h5 b.h5" [Examples.s2_file_a; Examples.s2_file_b] [3; 2] [[1%N]].
Proof.
  constructor.
  - reflexivity.
  - repeat constructor.
  - constructor; [|constructor; [|constructor]].
    + split_and!; [lia|vm_compute; discriminate|].
      constructor; [|constructor].
      eexists. split; [reflexivity|]. split_and!; [reflexivity..|].
      vm_compute. discriminate.
    + split_and!; [lia|vm_compute; discriminate|].
      constructor; [|constructor].
      eexists. split; [reflexivity|]. split_and!; [reflexivity..|].
      vm_compute. discriminate.
  - discriminate.
  - discriminate.
Qed.

Lemma s1_disk_good :
  @good_disk example_runtime (Examples.data_only 2) Examples.s1_disk
    "a.h5" [Examples.s1_file] [5] [[2%N]].
Proof.
  constructor.
  - reflexivity.
  - repeat constructor.
  - constructor; [|constructor].
    split_and!; [lia|vm_compute; discriminate|].
    constructor; [|constructor].
    eexists. split; [reflexivity|]. split_and!; [reflexivity..|].
    vm_compute. discriminate.
  - discriminate.
  - discriminate.
Qed.

Lemma stream_over_files_witness :
  exists l0 tops0,
    @LayerSetUp example_runtime (Examples.data_only 2) Examples.s2_disk tt
      [Examples.fresh_top] = Ok (l0, tops0)
    /\ (forall n i ln topsn li topsi s,
          Forward_n (Examples.data_only 2) Examples.s2_disk n l0 tops0
          = Ok (ln, topsn) ->
          0 <= i < 2 ->
          foldM (emit_sample (Examples.data_only 2) Examples.s2_disk)
                (seqZ 0 i) (ln, topsn) = Ok (li, topsi) ->
          rewind (Examples.data_only 2) Examples.s2_disk li = Ok s ->
          exists (k : nat) f r,
            zget (schedule [3; 2]) ((Z.of_nat n * 2 + i) mod sumZ [3; 2])
            = Some (Z.of_nat k, r)
            /\ zget (file_permutation_ s) (current_file_ s) = Some (Z.of_nat k)
            /\ zget (data_permutation_ s) (current_row_ s) = Some r
            /\ [Examples.s2_file_a; Examples.s2_file_b] !! k = Some f
            /\ read_blobs (Examples.data_only 2) f = Ok (hdf_blobs_ s))
    /\ (@image_path (Examples.data_only 2) = false ->
        forall n, exists ln topsn,
          Forward_n (Examples.data_only 2) Examples.s2_disk (S n) l0 tops0
          = Ok (ln, topsn)
          /\ forall i (j : nat) name,
               0 <= i < 2 -> ["data"%string] !! j = Some name ->
               exists (k : nat) r f d t dd,
                 zget (schedule [3; 2]) ((Z.of_nat n * 2 + i) mod sumZ [3; 2])
                 = Some (Z.of_nat k, r)
                 /\ [Examples.s2_file_a; Examples.s2_file_b] !! k = Some f
                 /\ datasets f !! name = Some d
                 /\ topsn !! j = Some t
                 /\ data_dim_of t = Ok dd
                 /\ slot t i = Ok (row_of (values d) r dd)).
Proof.
  apply (proj1 (@stream_over_files example_runtime)
           (Examples.data_only 2) Examples.s2_disk "a.h5 b.h5"%string
           [Examples.s2_file_a; Examples.s2_file_b] [3; 2] [[1%N]] tt
           [Examples.fresh_top]).
  - exact s2_disk_good.
  - reflexivity.
  - simpl. lia.
  - reflexivity.
  - simpl. lia.
Defined.

Lemma single_file_period_witness :
  exists l0 tops0,
    @LayerSetUp example_runtime (Examples.data_only 2) Examples.s1_disk tt
      [Examples.fresh_top] = Ok (l0, tops0)
    /\ (forall n i ln topsn li topsi s,
          Forward_n (Examples.data_only 2) Examples.s1_disk n l0 tops0
          = Ok (ln, topsn) ->
          0 <= i < 2 ->
          foldM (emit_sample (Examples.data_only 2) Examples.s1_disk)
                (seqZ 0 i) (ln, topsn) = Ok (li, topsi) ->
          rewind (Examples.data_only 2) Examples.s1_disk li = Ok s ->
          zget (data_permutation_ s) (current_row_ s)
          = Some ((Z.of_nat n * 2 + i) mod 5)
          /\ read_blobs (Examples.data_only 2) Examples.s1_file
             = Ok (hdf_blobs_ s))
    /\ (@image_path (Examples.data_only 2) = false ->
        forall n, exists ln topsn,
          Forward_n (Examples.data_only 2) Examples.s1_disk (S n) l0 tops0
          = Ok (ln, topsn)
          /\ forall i (j : nat) name,
               0 <= i < 2 -> ["data"%string] !! j = Some name ->
               exists d t dd,
                 datasets Examples.s1_file !! name = Some d
                 /\ topsn !! j = Some t
                 /\ data_dim_of t = Ok dd
                 /\ slot t i
                    = Ok (row_of (values d) ((Z.of_nat n * 2 + i) mod 5) dd))
    /\ (forall disk' n,
          Forward_n (Examples.data_only 2) disk' n l0 tops0
          = Forward_n (Examples.data_only 2) Examples.s1_disk n l0 tops0).
Proof.
  apply (proj1 (@single_file_period example_runtime)
           (Examples.data_only 2) Examples.s1_disk "a.h5"%string
           Examples.s1_file 5 [[2%N]] tt [Examples.fresh_top]).
  - exact s1_disk_good.
  - reflexivity.
  - reflexivity.
  - simpl. lia.
Defined.

Lemma setup_manifest_witness :
  exists content,
    text_files Examples.s1_disk !! source (Examples.data_only 2) = Some content
    /\ tokens_of (list_ascii_of_string content)
                 (list_ascii_of_string <$> hdf_filenames_ Examples.s1_start.1)
    /\ (forall ts, tokens_of (list_ascii_of_string content) ts ->
                   ts = list_ascii_of_string
                          <$> hdf_filenames_ Examples.s1_start.1)
    /\ hdf_filenames_ Examples.s1_start.1 <> []
    /\ num_files_ Examples.s1_start.1
       = Z.of_nat (length (hdf_filenames_ Examples.s1_start.1)).
Proof.
  apply (proj2 (proj2 (@setup_manifest example_runtime
                         (Examples.data_only 2) Examples.s1_disk tt
                         [Examples.fresh_top]))
           Examples.s1_start.1 Examples.s1_start.2).
  vm_compute. reflexivity.
Defined.

(** ** Instances of the further properties *)

Lemma manifest_names_are_words_witness :
  Forall is_word (hdf_filenames_ Examples.s1_start.1).
Proof.
  apply (@manifest_names_are_words example_runtime (Examples.data_only 2)
           Examples.s1_disk tt [Examples.fresh_top] _ Examples.s1_start.2).
  vm_compute. reflexivity.
Defined.

Lemma manifest_round_trip_witness :
  hdf_filenames_ Examples.lines_start.1 = ["a.h5"%string; "b.h5"%string]
  /\ num_files_ Examples.lines_start.1
     = Z.of_nat (length ["a.h5"%string; "b.h5"%string]).
Proof.
  apply (@manifest_round_trip example_runtime (Examples.data_only 2)
           Examples.lines_disk tt [Examples.fresh_top] _
           Examples.lines_start.2).
  - repeat (constructor; [split; [discriminate|repeat constructor]|]).
    constructor.
  - vm_compute. reflexivity.
  - vm_compute. reflexivity.
Defined.

Lemma load_postcondition_witness :
  (hdf_filenames_ Examples.s1_loaded = hdf_filenames_ Examples.blank_layer
   /\ num_files_ Examples.s1_loaded = num_files_ Examples.blank_layer
   /\ current_file_ Examples.s1_loaded = current_file_ Examples.blank_layer
   /\ current_row_ Examples.s1_loaded = current_row_ Examples.blank_layer
   /\ file_permutation_ Examples.s1_loaded
      = file_permutation_ Examples.blank_layer
   /\ data_transformer_ Examples.s1_loaded
      = data_transformer_ Examples.blank_layer)
  /\ length (hdf_blobs_ Examples.s1_loaded)
     = length (top (Examples.data_only 2))
  /\ exists rows,
       0 <= rows
       /\ Forall (fun b => shape b 0 = Ok rows) (hdf_blobs_ Examples.s1_loaded)
       /\ Permutation (seqZ 0 rows) (data_permutation_ Examples.s1_loaded)
       /\ (shuffle (Examples.data_only 2) = false ->
           data_permutation_ Examples.s1_loaded = seqZ 0 rows
           /\ rng_ Examples.s1_loaded = rng_ Examples.blank_layer).
Proof.
  apply (@load_postcondition example_runtime (Examples.data_only 2)
           Examples.s1_disk "a.h5"%string).
  vm_compute. reflexivity.
Defined.

Lemma run_layer_inv_witness :
  @layer_inv example_runtime (Examples.shuffled 2) Examples.s2_disk
    Examples.s2_shuffled_after_two.1.
Proof.
  apply (@run_layer_inv example_runtime (Examples.shuffled 2)
           Examples.s2_disk tt [Examples.fresh_top] 2%nat _
           Examples.s2_shuffled_after_two.2).
  vm_compute. reflexivity.
Defined.

Lemma run_unshuffled_witness :
  @unshuffled_inv example_runtime tt Examples.s1_after_two.1.
Proof.
  apply (@run_unshuffled example_runtime (Examples.data_only 2)
           Examples.s1_disk tt [Examples.fresh_top] 2%nat _
           Examples.s1_after_two.2).
  - reflexivity.
  - vm_compute. reflexivity.
Defined.

Lemma forward_row_positive_witness :
  exists rows,
    rows_in_current_file Examples.s1_after_two.1 = Ok rows
    /\ 1 <= current_row_ Examples.s1_after_two.1 <= rows.
Proof.
  apply (@forward_row_positive example_runtime (Examples.data_only 2)
           Examples.s1_disk tt [Examples.fresh_top] 1%nat _
           Examples.s1_after_two.2).
  - simpl. lia.
  - vm_compute. reflexivity.
Defined.

Lemma empty_single_file_fatal_witness :
  is_fatal (@Forward_cpu example_runtime (Examples.data_only 2)
              Examples.empty_disk Examples.empty_start.1
              Examples.empty_start.2).
Proof.
  apply (@empty_single_file_fatal example_runtime).
  - split; [discriminate|]. exists 0.
    split; [reflexivity|]. split; [simpl; lia|reflexivity].
  - reflexivity.
  - simpl. lia.
  - simpl. lia.
Defined.

Lemma forward_within_file_witness :
  @Forward_cpu example_runtime (Examples.data_only 2) Examples.missing_disk
    Examples.s1_start.1 Examples.s1_start.2
  = @Forward_cpu example_runtime (Examples.data_only 2) Examples.s1_disk
      Examples.s1_start.1 Examples.s1_start.2
  /\ forall l' tops',
       @Forward_cpu example_runtime (Examples.data_only 2) Examples.s1_disk
         Examples.s1_start.1 Examples.s1_start.2 = Ok (l', tops') ->
       l' = advance_rows Examples.s1_start.1
              (batch_size (Examples.data_only 2)) (data_transformer_ l').
Proof.
  apply (@forward_within_file example_runtime (Examples.data_only 2)
           Examples.s1_disk Examples.missing_disk Examples.s1_start.1
           Examples.s1_start.2 5).
  - reflexivity.
  - simpl. lia.
  - simpl. lia.
Defined.

Lemma forward_keeps_buffers_witness :
  Forall2 same_buffer Examples.image_start2.2 Examples.image_sample1.2.
Proof.
  apply (@forward_keeps_buffers example_runtime (Examples.image_param 2)
           Examples.image_disk Examples.image_start2.1 _
           Examples.image_sample1.1).
  vm_compute. reflexivity.
Defined.

Lemma forward_plain_keeps_views_witness :
  Forall2 same_view Examples.s1_start.2 Examples.s1_after_one.2
  /\ data_transformer_ Examples.s1_after_one.1
     = data_transformer_ Examples.s1_start.1.
Proof.
  apply (@forward_plain_keeps_views example_runtime (Examples.data_only 2)
           Examples.s1_disk).
  - reflexivity.
  - vm_compute. reflexivity.
Defined.

Lemma image_sample_witness :
  let t := @mkBlob example_runtime [2; 3; 1; 1] [0; 0; 0; 0; 0; 0] 0 in
  exists s dd hb row img out t',
    @rewind example_runtime (Examples.image_param 2) Examples.image_disk
      Examples.image_start2.1 = Ok s
    /\ data_dim_of t = Ok dd
    /\ zget (hdf_blobs_ s) 0 = Some hb
    /\ zget (data_permutation_ s) (current_row_ s) = Some row
    /\ make_image hb row dd = Ok img
    /\ Transform (data_transformer_ s) img
       = (data_transformer_ Examples.image_sample0.1, out)
    /\ zget Examples.image_sample0.2 0 = Some t'
    /\ blob_shape t' = blob_shape t
    /\ blob_ptr t' = blob_ptr t + 0 * dd
    /\ run_read (blob_mem t') (blob_ptr t') (Z.of_nat (length out)) = Ok out.
Proof.
  apply (@image_sample example_runtime (Examples.image_param 2)
           Examples.image_disk 0 Examples.image_start2.1
           Examples.image_start2.2 Examples.image_sample0.1
           Examples.image_sample0.2).
  - reflexivity.
  - discriminate.
  - reflexivity.
  - vm_compute. reflexivity.
Defined.

Lemma forward_image_pointer_drift_witness :
  let t := @mkBlob example_runtime [2; 3; 1; 1] [0; 0; 0; 0; 0; 0] 0 in
  exists t',
    zget Examples.image_sample1.2 0 = Some t'
    /\ blob_shape t' = blob_shape t
    /\ 2 * (blob_ptr t' - blob_ptr t)
       = 3 * batch_size (Examples.image_param 2)
         * (batch_size (Examples.image_param 2) - 1).
Proof.
  apply (@forward_image_pointer_drift example_runtime (Examples.image_param 2)
           Examples.image_disk Examples.image_start2.1
           Examples.image_start2.2 Examples.image_sample1.1
           Examples.image_sample1.2).
  - reflexivity.
  - discriminate.
  - simpl. lia.
  - reflexivity.
  - reflexivity.
  - vm_compute. reflexivity.
Defined.

Lemma make_image_few_channels_witness :
  @make_image example_runtime
    (@mkBlob example_runtime [2; 1; 1; 2] [1; 2; 3; 4] 0) 0 (1 * 1 * 2)
  = Fatal OutOfRange.
Proof.
  apply (@make_image_few_channels example_runtime
           (@mkBlob example_runtime [2; 1; 1; 2] [1; 2; 3; 4] 0) 2 1 1 2 0).
  - reflexivity.
  - lia.
  - lia.
  - lia.
  - reflexivity.
  - reflexivity.
  - lia.
Defined.


Lemma setup_reads_first_file_only_witness :
  @LayerSetUp example_runtime (Examples.data_only 2) Examples.s2_disk_only_a
    tt [Examples.fresh_top]
  = @LayerSetUp example_runtime (Examples.data_only 2) Examples.s2_disk
      tt [Examples.fresh_top].
Proof.
  apply (@setup_reads_first_file_only example_runtime).
  - vm_compute. reflexivity.
  - intros content fi name Hc Hfi Hnm.
    vm_compute in Hc. injection Hc as <-.
    vm_compute in Hfi. injection Hfi as <-.
    vm_compute in Hnm. injection Hnm as <-.
    vm_compute. reflexivity.
Defined.

Lemma forward_missing_file_witness :
  @Forward_cpu example_runtime (Examples.data_only 3) Examples.s2_disk_only_a
    Examples.only_a_after_one.1 Examples.only_a_after_one.2
  = Fatal (FailedOpenHDF5 "b.h5").
Proof.
  apply (@forward_missing_file example_runtime (Examples.data_only 3)
           Examples.s2_disk_only_a Examples.only_a_after_one.1
           Examples.only_a_after_one.2 3 1 "b.h5"%string).
  - reflexivity.
  - reflexivity.
  - simpl. lia.
  - simpl. lia.
  - reflexivity.
  - reflexivity.
  - vm_compute. reflexivity.
Defined.

Lemma run_keeps_manifest_witness :
  exists content,
    text_files Examples.s1_disk !! source (Examples.data_only 2) = Some content
    /\ hdf_filenames_ Examples.s1_after_two.1 = read_filenames content
    /\ num_files_ Examples.s1_after_two.1
       = Z.of_nat (length (read_filenames content))
    /\ 1 <= num_files_ Examples.s1_after_two.1.
Proof.
  apply (@run_keeps_manifest example_runtime (Examples.data_only 2)
           Examples.s1_disk tt [Examples.fresh_top] 2%nat _
           Examples.s1_after_two.2).
  vm_compute. reflexivity.
Defined.

Lemma manifest_join_witness :
  read_filenames ("a.h5 b.h5" ++ String "010" "c.h5")
  = read_filenames "a.h5 b.h5" ++ read_filenames "c.h5".
Proof. apply (manifest_join "a.h5 b.h5" "c.h5" "010"). reflexivity. Defined.
